(** * geodata: the dataset completeness / acquisition planner

    A shallow embedding of [geodata/dataset.py] (class [Dataset]):
    the constructor [Dataset.__init__], which enumerates the expected files of
    a request and sorts them into files already on disk and files to download,
    the file-name templater [Dataset.datasetfn], and the acquisition dispatch
    [Dataset.get_data].

    Python values are modelled by typed Rocq data, exceptions by the [Raise]
    branch of [result], the calls of [logger] by a log that is threaded
    through the constructor, and the file system by two oracles.  The Python
    built-in [str.format_map] and the table [sys.modules] are not code of
    this class: they are variables of the section that holds the model.  The
    download routine is the entry ['api_func'] of the configuration. *)

From Stdlib Require Import ZArith List Bool Lia Ascii DecimalString.
From stdpp Require Import base option list strings gmap.
Import ListNotations.

Local Open Scope Z_scope.

(** ** Python values *)

(** Exceptions raised on the paths modelled here.  [IllegalMonthError] is the
    exception of [calendar.monthrange]; in Python it is a subclass of
    [ValueError]. *)
Inductive exn : Type :=
| ValueError (msg : string)
| KeyError (key : string)
| IndexError
| AttributeError (attr : string)
| IllegalMonthError (month : Z).

Inductive result (A : Type) : Type :=
| Ok (a : A)
| Raise (e : exn).
Arguments Ok {A} a.
Arguments Raise {A} e.

Definition is_ok {A} (r : result A) : bool :=
  match r with Ok _ => true | Raise _ => false end.

Definition rbind {A B} (r : result A) (k : A -> result B) : result B :=
  match r with
  | Ok a => k a
  | Raise e => Raise e
  end.

Fixpoint rmap {A B} (f : A -> result B) (l : list A) : result (list B) :=
  match l with
  | [] => Ok []
  | a :: l' => rbind (f a) (fun b => rbind (rmap f l') (fun bs => Ok (b :: bs)))
  end.

(** The scalars that occur as file names, URLs and log arguments.
    [datasetfn] returns either a [str] or the boolean [False]. *)
Inductive pyobj : Type :=
| PyBool (b : bool)
| PyInt (z : Z)
| PyStr (s : string).

Global Instance pyobj_eq_dec : EqDecision pyobj.
Proof. solve_decision. Defined.

(** [slice(start, stop, step)]; [step] is [None] when it is not given. *)
Record slice : Type := Slice { start : Z; stop : Z; step : option Z }.

(** The value passed as [bounds]: a Python [list] of ordinates, or anything
    else (a tuple of ordinates stands for the values that are no [list]). *)
Inductive bounds_value : Type :=
| BoundsList (l : list Z)
| BoundsTuple (l : list Z).

Global Instance bounds_value_eq_dec : EqDecision bounds_value.
Proof. solve_decision. Defined.

(** A template entry of the configuration: a [str], or a list of [str]
    (the ['url'] of the [*_multiple] granularities). *)
Inductive template : Type :=
| TStr (s : string)
| TList (l : list string).

(** An entry of [totalFiles] and of [downloadedFiles]: [(config, filename)]. *)
Definition artifact : Type := string * pyobj.

(** An entry of [toDownload]: the tuple appended at lines 130, 150, 172, 174,
    189 and 207, one constructor for each shape. *)
Inductive task : Type :=
| TaskUrl (config : string) (filename : pyobj) (url1 : pyobj)
| TaskUrls (config : string) (filename : pyobj) (url1 url2 : pyobj)
| TaskYearMonth (config : string) (filename : pyobj) (yr mo : Z)
| TaskBand (config : string) (filename : pyobj) (b : bounds_value) (band1 : string).

(** The first two components of an entry of [toDownload]. *)
Definition task_artifact (t : task) : artifact :=
  match t with
  | TaskUrl c f _ => (c, f)
  | TaskUrls c f _ _ => (c, f)
  | TaskYearMonth c f _ _ => (c, f)
  | TaskBand c f _ _ => (c, f)
  end.

Global Instance task_eq_dec : EqDecision task.
Proof. solve_decision. Defined.

(** The arguments of the two calls of the download routine (lines 262-267
    and 271-275). *)
Inductive api_args : Type :=
| ApiEra5 (to_download : list task) (b : bounds_value)
    (vars : list string) (prod : string)
| ApiMerra2 (to_download : list task) (granularity : string)
    (downloaded : list artifact).

(** The entries of [weather_data_config[config]] that [Dataset] reads.
    ['file_granularity'] and ['fn'] are read for every request; the others
    only on some paths, and may be absent from the dictionary.

    ['api_func'] is the download routine of the configuration.  [get_data]
    hands it the list objects [self.toDownload] and (for merra2)
    [self.downloadedFiles] themselves, and the routine may change them in
    place: it returns their contents after the call, or raises.  For era5 it
    is not handed [self.downloadedFiles], which therefore stays as it is. *)
Record weatherconfig : Type := {
  file_granularity : string;
  fn : string;
  url : option template;
  band : option string;
  variables : option (list string);
  product : option string;
  api_func : option (api_args -> result (list task * list artifact))
}.

(** What [Dataset] reads of a module of [geodata.datasets]. *)
Record dataset_module : Type := {
  mod_datadir : string;
  weather_data_config : gmap string weatherconfig;
  spinup_var : bool;
  spinup_year : Z -> Z
}.

(** The keyword arguments [**datasetparams] of the constructor; [None] is
    a key that is not in the dictionary.  [xs] and [ys] are keys the
    constructor adds itself (line 90), and that a caller may pass as well. *)
Record datasetparams : Type := {
  p_module : option string;
  p_weather_data_config : option string;
  p_datadir : option string;
  p_years : option slice;
  p_months : option slice;
  p_bounds : option bounds_value;
  p_xs : option slice;
  p_ys : option slice
}.

(** [datasetparams.update(xs=..., ys=...)] *)
Definition update_xs_ys (p : datasetparams) (xs ys : slice) : datasetparams :=
  {| p_module := p_module p;
     p_weather_data_config := p_weather_data_config p;
     p_datadir := p_datadir p;
     p_years := p_years p;
     p_months := p_months p;
     p_bounds := p_bounds p;
     p_xs := Some xs;
     p_ys := Some ys |}.

(** The attributes of a [Dataset] object.  [bounds] is [None] while the
    attribute is not set (it is assigned only at line 87). *)
Record Dataset : Type := {
  module : string;
  config : string;
  dataset_module_of : dataset_module;
  weatherconfig_of : weatherconfig;
  datadir : string;
  years : slice;
  months : slice;
  bounds : option bounds_value;
  prepared : bool;
  toDownload : list task;
  downloadedFiles : list artifact;
  totalFiles : list artifact
}.

(** ** Logging *)

Inductive logrec : Type :=
| LogInfo (msg : string) (args : list pyobj)
| LogWarn (msg : string).

(** A computation that may log and may raise; the log survives a raise. *)
Definition M (A : Type) : Type := list logrec -> result A * list logrec.

Definition ret {A} (a : A) : M A := fun log => (Ok a, log).
Definition raise {A} (e : exn) : M A := fun log => (Raise e, log).
Definition bind {A B} (m : M A) (k : A -> M B) : M B :=
  fun log =>
    match m log with
    | (Ok a, log') => k a log'
    | (Raise e, log') => (Raise e, log')
    end.
Definition lift {A} (r : result A) : M A := fun log => (r, log).
Definition logger_info (msg : string) (args : list pyobj) : M unit :=
  fun log => (Ok tt, log ++ [LogInfo msg args]).
Definition logger_warn (msg : string) : M unit :=
  fun log => (Ok tt, log ++ [LogWarn msg]).

Notation "'let*' x ':=' m 'in' k" := (bind m (fun x => k))
  (at level 10, x name, m at level 100, k at level 200).
Notation "'let*' ' pat ':=' m 'in' k" :=
  (bind m (fun x => match x with pat => k end))
  (at level 10, pat pattern, m at level 100, k at level 200).
Notation "m ';;' k" := (bind m (fun _ => k))
  (at level 100, k at level 200, right associativity).

(** [for a in l: body], the loop state passed along. *)
Fixpoint for_each {A S} (body : A -> S -> M S) (l : list A) (s : S) : M S :=
  match l with
  | [] => ret s
  | a :: l' => let* s' := body a s in for_each body l' s'
  end.

(** ** Built-ins: [range] and [calendar.monthrange] *)

(** [len(range(start, stop, step))], as CPython computes it; [step] is never
    0 where the constructor calls [range]. *)
Definition range_len (lo hi st : Z) : Z :=
  if 0 <? st then (if lo <? hi then (hi - lo - 1) / st + 1 else 0)
  else if st <? 0 then (if hi <? lo then (lo - hi - 1) / (- st) + 1 else 0)
  else 0.

Definition range (lo hi st : Z) : list Z :=
  map (fun k => lo + Z.of_nat k * st) (seq 0 (Z.to_nat (range_len lo hi st))).

Definition isleap (year : Z) : bool :=
  (year mod 4 =? 0) && (negb (year mod 100 =? 0) || (year mod 400 =? 0)).

Definition mdays : list Z := [0; 31; 28; 31; 30; 31; 30; 31; 31; 30; 31; 30; 31].

(** [calendar.monthrange(year, month)[1]]: the number of days of the month,
    [mdays[month] + (month == February and isleap(year))], after the check
    [1 <= month <= 12].  The first component, a weekday that
    [calendar.weekday] computes for every year, is not used by the
    constructor. *)
Definition monthrange_days (year month : Z) : result Z :=
  if negb ((1 <=? month) && (month <=? 12)) then Raise (IllegalMonthError month)
  else Ok (nth (Z.to_nat month) mdays 0 + (if (month =? 2) && isleap year then 1 else 0)).

(** ** Range expansion (lines 109-112)

    [step = s.step if s.step else 1; range(s.start, s.stop+step, step)].
    A step of 0 is falsy and is replaced by 1 as well. *)
Definition slice_step (s : slice) : Z :=
  match step s with
  | Some z => if z =? 0 then 1 else z
  | None => 1
  end.

Definition expand (s : slice) : list Z :=
  range (start s) (stop s + slice_step s) (slice_step s).

(** ** The class [Dataset] *)

Definition getitem {A} (key : string) (o : option A) : result A :=
  match o with
  | Some a => Ok a
  | None => Raise (KeyError key)
  end.

(** [u[i]] for a configuration entry [u]: an element of a list, or the
    one-character string at index [i] of a [str]. *)
Definition template_index (u : template) (i : nat) : result template :=
  match u with
  | TList l =>
      match nth_error l i with
      | Some s => Ok (TStr s)
      | None => Raise IndexError
      end
  | TStr s =>
      match String.get i s with
      | Some c => Ok (TStr (String c EmptyString))
      | None => Raise IndexError
      end
  end.

Definition set_bounds (self : Dataset) (b : bounds_value) : Dataset :=
  {| module := module self; config := config self;
     dataset_module_of := dataset_module_of self;
     weatherconfig_of := weatherconfig_of self; datadir := datadir self;
     years := years self; months := months self;
     bounds := Some b;
     prepared := prepared self; toDownload := toDownload self;
     downloadedFiles := downloadedFiles self; totalFiles := totalFiles self |}.

Definition set_prepared (self : Dataset) (b : bool) : Dataset :=
  {| module := module self; config := config self;
     dataset_module_of := dataset_module_of self;
     weatherconfig_of := weatherconfig_of self; datadir := datadir self;
     years := years self; months := months self;
     bounds := bounds self;
     prepared := b; toDownload := toDownload self;
     downloadedFiles := downloadedFiles self; totalFiles := totalFiles self |}.

Definition set_lists (self : Dataset) (td : list task) (df tf : list artifact)
  : Dataset :=
  {| module := module self; config := config self;
     dataset_module_of := dataset_module_of self;
     weatherconfig_of := weatherconfig_of self; datadir := datadir self;
     years := years self; months := months self;
     bounds := bounds self;
     prepared := prepared self; toDownload := td;
     downloadedFiles := df; totalFiles := tf |}.

(** [self.totalFiles.append(a)], [self.toDownload.append(t)] and
    [self.downloadedFiles.append(a)] *)
Definition append_totalFiles (self : Dataset) (a : artifact) : Dataset :=
  set_lists self (toDownload self) (downloadedFiles self) (totalFiles self ++ [a]).
Definition append_toDownload (self : Dataset) (t : task) : Dataset :=
  set_lists self (toDownload self ++ [t]) (downloadedFiles self) (totalFiles self).
Definition append_downloadedFiles (self : Dataset) (a : artifact) : Dataset :=
  set_lists self (toDownload self) (downloadedFiles self ++ [a]) (totalFiles self).

Definition modis_land_cover : string := "modis_land_cover".

Definition msg_module : string := "`module` needs to be specified".
Definition msg_config : string := "`weather_data_config` needs to be specified".
Definition msg_years : string := "`years` need to be specified".
Definition msg_bounds : string :=
  "Specified bounds parameter should be list with North, West, South, East coordinates.".
Definition msg_bounds_modis : string :=
  "Specified bounds parameter should be list with North, West, South, East coordinates for MODIS downloads.".
Definition warn_global : string :=
  "Bounds not used in preparing dataset. Defaulting to global.".
Definition warn_xs_ys : string :=
  "Arguments `xs` and `ys` not used in preparing dataset. Defaulting to global.".

(** [type(b) is list and len(b) == 4] *)
Definition is_list4 (b : bounds_value) : bool :=
  match b with
  | BoundsList l => Nat.eqb (length l) 4
  | BoundsTuple _ => false
  end.

Section Model.

(** [sys.modules], [str.format_map] on a dictionary of integers, and
    [os.path.isdir] / [os.path.isfile]. *)
Variable sys_modules : gmap string dataset_module.
Variable format_map : string -> gmap string Z -> result string.
Variable isdir : string -> bool.
Variable isfile : pyobj -> bool.

(** *** [Dataset.datasetfn] (lines 232-246) *)

(** [dict(year=args[0], ...)], by the number of arguments; [None] is the
    [else] branch. *)
Definition dataset_of_args (args : list Z) : option (gmap string Z) :=
  match args with
  | [a0; a1; a2] => Some {[ "year" := a0; "month" := a1; "day" := a2 ]}
  | [a0; a1] => Some {[ "year" := a0; "month" := a1 ]}
  | [a0] => Some {[ "year" := a0 ]}
  | _ => None
  end.

Definition datasetfn (dm : dataset_module) (fn : template) (args : list Z)
  : result pyobj :=
  match dataset_of_args args with
  | None => Ok (PyBool false)
  | Some dataset =>
      rbind
        (if spinup_var dm then
           rbind (getitem "year" (dataset !! "year")) (fun year =>
           Ok (<["spinup" := spinup_year dm year]> dataset))
         else Ok dataset)
        (fun dataset =>
           match fn with
           | TStr s => rbind (format_map s dataset) (fun r => Ok (PyStr r))
           | TList _ => Raise (AttributeError "format_map")
           end)
  end.

(** *** [Dataset.__init__] *)

(** Lines 47-84: the required arguments, the module and its
    configuration, the data directory, the time ranges, and the initial
    values of the bookkeeping attributes. *)
Definition init_attributes (p : datasetparams) : M Dataset :=
  match p_module p with
  | None => raise (ValueError msg_module)
  | Some module =>
  match p_weather_data_config p with
  | None => raise (ValueError msg_config)
  | Some config =>
      let* dm := lift (getitem ("geodata.datasets." +:+ module)
                         (sys_modules !! ("geodata.datasets." +:+ module))) in
      let* wc := lift (getitem config (weather_data_config dm !! config)) in
      (match p_datadir p with
       | Some _ =>
           logger_info
             "Manual data directory entry not supported. Change in config.py file." []
       | None => ret tt
       end) ;;
      match p_years p with
      | None => raise (ValueError msg_years)
      | Some years =>
          let* months :=
            match p_months p with
            | None =>
                (if negb (String.eqb (file_granularity wc) "yearly")
                 then logger_info "No months specified, defaulting to 1-12" []
                 else ret tt) ;;
                ret (Slice 1 12 None)
            | Some months => ret months
            end in
          ret {| module := module; config := config;
                 dataset_module_of := dm; weatherconfig_of := wc;
                 datadir := mod_datadir dm;
                 years := years; months := months;
                 bounds := None;
                 prepared := false; toDownload := [];
                 downloadedFiles := []; totalFiles := [] |}
      end
  end
  end.

(** Lines 86-98: the bounds.  The four elements are unpacked as
    [x1, y1, x2, y2] and stored as [xs=slice(x1, x2)], [ys=slice(y2, y1)]. *)
Definition resolve_bounds (self : Dataset) (p : datasetparams)
  : M (Dataset * datasetparams) :=
  match p_bounds p with
  | Some b =>
      let self := set_bounds self b in
      match b with
      | BoundsList [x1; y1; x2; y2] =>
          ret (self, update_xs_ys p (Slice x1 x2 None) (Slice y2 y1 None))
      | _ => raise (ValueError msg_bounds)
      end
  | None =>
      if String.eqb (config self) modis_land_cover
      then raise (ValueError msg_bounds_modis)
      else logger_warn warn_global ;; ret (self, p)
  end.

(** The body shared by the five loops (lines 124-132, 144-157, 165-176,
    183-196, 201-214): record the file in [totalFiles], then either in
    [downloadedFiles], or, when it is not on disk, clear [prepared], log and
    count when the directory exists, and append to [toDownload] the tuple
    [acq] of the branch, whose components are evaluated only then. *)
Definition check_file (check_complete : bool) (filename : pyobj)
    (acq : result task) (st : Dataset * Z) : M (Dataset * Z) :=
  let '(self, incomplete_count) := st in
  let self := append_totalFiles self (config self, filename) in
  if negb (isfile filename) then
    let self := set_prepared self false in
    let* incomplete_count :=
      (if check_complete
       then logger_info "File `%s` not found!" [filename] ;;
            ret (incomplete_count + 1)
       else ret incomplete_count) in
    let* t := lift acq in
    ret (append_toDownload self t, incomplete_count)
  else
    ret (append_downloadedFiles self (config self, filename), incomplete_count).

(** [self.datasetfn(self.weatherconfig['fn'], *key)] *)
Definition filename_of (self : Dataset) (key : list Z) : result pyobj :=
  datasetfn (dataset_module_of self) (TStr (fn (weatherconfig_of self))) key.

(** [self.datasetfn(self.weatherconfig['url'], *key)] *)
Definition url_of (self : Dataset) (key : list Z) : result pyobj :=
  rbind (getitem "url" (url (weatherconfig_of self))) (fun u =>
  datasetfn (dataset_module_of self) u key).

(** [self.datasetfn(self.weatherconfig['url'][i], *key)] *)
Definition url_index_of (self : Dataset) (i : nat) (key : list Z)
  : result pyobj :=
  rbind (getitem "url" (url (weatherconfig_of self))) (fun u =>
  rbind (template_index u i) (fun ui =>
  datasetfn (dataset_module_of self) ui key)).

(** [[(yr, mo) for yr in yrs for mo in mos]] *)
Definition year_months (yrs mos : list Z) : list (Z * Z) :=
  flat_map (fun yr => map (fun mo => (yr, mo)) mos) yrs.

(** [[(yr, mo, monthrange(yr, mo)[1]) for yr in yrs for mo in mos]];
    the whole list is built before the loop starts. *)
Definition month_tuples (yrs mos : list Z) : result (list (Z * Z * Z)) :=
  rmap (fun '(yr, mo) =>
          rbind (monthrange_days yr mo) (fun nodays => Ok (yr, mo, nodays)))
       (year_months yrs mos).

(** The tuples appended to [toDownload], by branch. *)
Definition acq_url (self : Dataset) (filename : pyobj) (key : list Z)
  : result task :=
  rbind (url_of self key) (fun u => Ok (TaskUrl (config self) filename u)).

Definition acq_urls (self : Dataset) (filename : pyobj) (key : list Z)
  : result task :=
  rbind (url_index_of self 0 key) (fun u0 =>
  rbind (url_index_of self 1 key) (fun u1 =>
  Ok (TaskUrls (config self) filename u0 u1))).

Definition acq_monthly (self : Dataset) (filename : pyobj) (yr mo : Z)
  : result task :=
  if String.eqb (module self) "era5"
  then Ok (TaskYearMonth (config self) filename yr mo)
  else acq_url self filename [yr; mo].

Definition acq_band (self : Dataset) (filename : pyobj) : result task :=
  match bounds self with
  | None => Raise (AttributeError "bounds")
  | Some b =>
      rbind (getitem "band" (band (weatherconfig_of self))) (fun bd =>
      Ok (TaskBand (config self) filename b bd))
  end.

(** Lines 114-132 and 134-157: one file for each day. *)
Definition scan_daily (multiple check_complete : bool) (yrs mos : list Z)
    (st : Dataset * Z) : M (Dataset * Z) :=
  let* mo_tuples := lift (month_tuples yrs mos) in
  for_each
    (fun '(yr, mo, nodays) =>
       for_each
         (fun day st =>
            let* filename := lift (filename_of (fst st) [yr; mo; day]) in
            check_file check_complete filename
              (if multiple
               then acq_urls (fst st) filename [yr; mo; day]
               else acq_url (fst st) filename [yr; mo; day])
              st)
         (range 1 (nodays + 1) 1))
    mo_tuples st.

(** Lines 159-176 and 178-196: one file for each month. *)
Definition scan_monthly (multiple check_complete : bool) (yrs mos : list Z)
    (st : Dataset * Z) : M (Dataset * Z) :=
  for_each
    (fun '(yr, mo) st =>
       let* filename := lift (filename_of (fst st) [yr; mo]) in
       check_file check_complete filename
         (if multiple
          then acq_urls (fst st) filename [yr; mo]
          else acq_monthly (fst st) filename yr mo)
         st)
    (year_months yrs mos) st.

(** Lines 198-214: one file for each year. *)
Definition scan_yearly (check_complete : bool) (yrs : list Z)
    (st : Dataset * Z) : M (Dataset * Z) :=
  for_each
    (fun yr st =>
       let* filename := lift (filename_of (fst st) [yr]) in
       check_file check_complete filename (acq_band (fst st) filename) st)
    yrs st.

(** Lines 114-214: the branch is chosen by ['file_granularity'], and for
    the land-cover configuration by the name of the configuration. *)
Definition scan_files (check_complete : bool) (yrs mos : list Z)
    (st : Dataset * Z) : M (Dataset * Z) :=
  let g := file_granularity (weatherconfig_of (fst st)) in
  if String.eqb g "daily" || String.eqb g "dailymeans"
  then scan_daily false check_complete yrs mos st
  else if String.eqb g "daily_multiple"
  then scan_daily true check_complete yrs mos st
  else if String.eqb g "monthly"
  then scan_monthly false check_complete yrs mos st
  else if String.eqb g "monthly_multiple"
  then scan_monthly true check_complete yrs mos st
  else if String.eqb (config (fst st)) modis_land_cover
  then scan_yearly check_complete yrs st
  else ret st.

(** Lines 100-230. *)
Definition scan (self : Dataset) (p : datasetparams) : M Dataset :=
  let* '(self, check_complete) :=
    (if isdir (datadir self)
     then logger_info "Directory %s found, checking for completeness."
            [PyStr (datadir self)] ;;
          ret (set_prepared self true, true)
     else logger_info "Directory %s not found." [PyStr (datadir self)] ;;
          ret (self, false)) in
  let yrs := expand (years self) in
  let mos := expand (months self) in
  let* '(self, incomplete_count) :=
    scan_files check_complete yrs mos (self, 0) in
  if negb (prepared self) then
    (if negb (bool_decide (is_Some (p_xs p)) && bool_decide (is_Some (p_ys p)))
     then logger_warn warn_xs_ys
     else ret tt) ;;
    logger_info "{incomplete_count} files not completed."
      [PyInt incomplete_count] ;;
    ret self
  else
    logger_info "Directory complete." [] ;;
    ret self.

Definition Dataset_init (p : datasetparams) : M Dataset :=
  let* self := init_attributes p in
  let* '(self, p) := resolve_bounds self p in
  scan self p.

End Model.

(** *** [Dataset.get_data] (lines 248-279) *)

(** Line 258 looks the routine up for every module, before the dispatch on
    the module name. *)
Definition get_data (self : Dataset) : result Dataset :=
  let wc := weatherconfig_of self in
  rbind (getitem "api_func" (api_func wc)) (fun api_func =>
  rbind
    (if String.eqb (module self) "era5" then
       match bounds self with
       | None => Raise (AttributeError "bounds")
       | Some b =>
           rbind (getitem "variables" (variables wc)) (fun vs =>
           rbind (getitem "product" (product wc)) (fun pr =>
           rbind (api_func (ApiEra5 (toDownload self) b vs pr)) (fun r =>
           Ok (set_lists self (fst r) (downloadedFiles self) (totalFiles self)))))
       end
     else if String.eqb (module self) "merra2" then
       rbind (api_func (ApiMerra2 (toDownload self) (file_granularity wc)
                          (downloadedFiles self))) (fun r =>
       Ok (set_lists self (fst r) (snd r) (totalFiles self)))
     else Ok self)
    (fun self =>
       if bool_decide (downloadedFiles self = totalFiles self)
       then Ok (set_prepared self true)
       else Ok self)).

(** ** A concrete environment, to run the model *)

Module Sample.

Definition str_of_Z (z : Z) : string := NilZero.string_of_int (Z.to_int z).

Fixpoint zeros (n : nat) : string :=
  match n with
  | O => EmptyString
  | S n' => String "0"%char (zeros n')
  end.

(** [format(z, spec)] for the empty specification and for [0>w] with a
    one-digit width [w]. *)
Definition format_int (z : Z) (spec : string) : result string :=
  match spec with
  | EmptyString => Ok (str_of_Z z)
  | String "0"%char (String ">"%char (String w EmptyString)) =>
      let width := (Ascii.nat_of_ascii w - 48)%nat in
      if (Nat.leb 48 (Ascii.nat_of_ascii w) && Nat.leb (Ascii.nat_of_ascii w) 57)%bool
      then Ok (zeros (width - String.length (str_of_Z z)) +:+ str_of_Z z)
      else Raise (ValueError "Invalid format specifier")
  | _ => Raise (ValueError "Invalid format specifier")
  end.

Inductive mode : Type :=
| Text
| Field (name : string)
| Spec (name spec : string).

Definition snoc (s : string) (c : Ascii.ascii) : string :=
  s +:+ String c EmptyString.

Definition field (d : gmap string Z) (name spec : string) : result string :=
  rbind (getitem name (d !! name)) (fun z => format_int z spec).

Fixpoint format_go (d : gmap string Z) (m : mode) (s : string)
  : result string :=
  match s with
  | EmptyString =>
      match m with
      | Text => Ok EmptyString
      | _ => Raise (ValueError "expected '}' before end of string")
      end
  | String c s' =>
      match m with
      | Text =>
          if Ascii.eqb c "{"%char then format_go d (Field EmptyString) s'
          else rbind (format_go d Text s') (fun r => Ok (String c r))
      | Field name =>
          if Ascii.eqb c "}"%char then
            rbind (field d name EmptyString) (fun v =>
            rbind (format_go d Text s') (fun r => Ok (v +:+ r)))
          else if Ascii.eqb c ":"%char then format_go d (Spec name EmptyString) s'
          else format_go d (Field (snoc name c)) s'
      | Spec name spec =>
          if Ascii.eqb c "}"%char then
            rbind (field d name spec) (fun v =>
            rbind (format_go d Text s') (fun r => Ok (v +:+ r)))
          else format_go d (Spec name (snoc spec c)) s'
      end
  end.

(** A [str.format_map] for templates whose replacement fields are
    [{name}] and [{name:0>w}]. *)
Definition format_map (s : string) (d : gmap string Z) : result string :=
  format_go d Text s.

(** A download routine that fetches every file it is asked for. *)
Definition download_all (a : api_args) : result (list task * list artifact) :=
  match a with
  | ApiEra5 td _ _ _ => Ok ([], [])
  | ApiMerra2 td _ df => Ok ([], df ++ map task_artifact td)
  end.

(** A download routine that fetches nothing and leaves the lists as they
    are. *)
Definition download_none (a : api_args) : result (list task * list artifact) :=
  match a with
  | ApiEra5 td _ _ _ => Ok (td, [])
  | ApiMerra2 td _ df => Ok (td, df)
  end.

Definition era5_config (granularity : string) : weatherconfig :=
  {| file_granularity := granularity;
     fn := "/data/era5/{year}/{month:0>2}/wind_solar_hourly.nc";
     url := None;
     band := None;
     variables := Some ["100m_u_component_of_wind"; "100m_v_component_of_wind"];
     product := Some "reanalysis-era5-single-levels";
     api_func := Some download_all |}.

Definition era5 : dataset_module :=
  {| mod_datadir := "/data/era5";
     weather_data_config :=
       {[ "wind_solar_hourly" := era5_config "monthly";
          "wind_solar_yearly" := era5_config "yearly" ]};
     spinup_var := false;
     spinup_year := fun y => y |}.

Definition merra2_routine
    (f : option (api_args -> result (list task * list artifact)))
  : weatherconfig :=
  {| file_granularity := "daily";
     fn := "/data/merra2/{year}/MERRA2_{spinup}.tavg1_2d_flx_Nx.{year}{month:0>2}{day:0>2}.nc4";
     url := Some (TStr "https://goldsmr4.gesdisc.eosdis.nasa.gov/data/{year}/{month:0>2}/MERRA2_{spinup}.tavg1_2d_flx_Nx.{year}{month:0>2}{day:0>2}.nc4");
     band := None;
     variables := Some ["ustar"; "z0m"];
     product := None;
     api_func := f |}.

Definition merra2_config : weatherconfig := merra2_routine (Some download_all).

Definition merra2 : dataset_module :=
  {| mod_datadir := "/data/merra2";
     weather_data_config := {[ "surface_flux_hourly" := merra2_config ]};
     spinup_var := true;
     spinup_year := fun y =>
       if y <? 1992 then 100 else if y <? 2001 then 200
       else if y <? 2011 then 300 else 400 |}.

Definition sys_modules : gmap string dataset_module :=
  {[ "geodata.datasets.era5" := era5; "geodata.datasets.merra2" := merra2 ]}.

Definition request (mod_name cfg : string) (yrs mos : slice)
    (b : option bounds_value) : datasetparams :=
  {| p_module := Some mod_name; p_weather_data_config := Some cfg;
     p_datadir := None; p_years := Some yrs; p_months := Some mos;
     p_bounds := b; p_xs := None; p_ys := None |}.

(** A file system given by the directories and the files that exist. *)
Definition isdir (dirs : list string) (d : string) : bool :=
  bool_decide (d ∈ dirs).
Definition isfile (files : list string) (f : pyobj) : bool :=
  match f with
  | PyStr s => bool_decide (s ∈ files)
  | _ => false
  end.

Definition construct (dirs files : list string) (p : datasetparams)
  : result Dataset * list logrec :=
  Dataset_init sys_modules format_map (isdir dirs) (isfile files) p [].

(** A merra2 object with one file to download, for a given download
    routine. *)
Definition planned_with
    (f : option (api_args -> result (list task * list artifact))) : Dataset :=
  {| module := "merra2"; config := "surface_flux_hourly";
     dataset_module_of := merra2; weatherconfig_of := merra2_routine f;
     datadir := "/data/merra2";
     years := Slice 2020 2020 None; months := Slice 1 1 None;
     bounds := None; prepared := false;
     toDownload :=
       [TaskUrl "surface_flux_hourly" (PyStr "/data/merra2/a.nc4")
          (PyStr "https://goldsmr4.gesdisc.eosdis.nasa.gov/data/a.nc4")];
     downloadedFiles := [];
     totalFiles := [("surface_flux_hourly", PyStr "/data/merra2/a.nc4")] |}.

Definition planned : Dataset := planned_with (Some download_all).

(** The twelve files of 2020 of the era5 configuration. *)
Definition era5_2020 : list string :=
  map (fun mo => "/data/era5/2020/" +:+ mo +:+ "/wind_solar_hourly.nc")
    ["01"; "02"; "03"; "04"; "05"; "06"; "07"; "08"; "09"; "10"; "11"; "12"].

End Sample.

(** ** Definitions used to state the properties *)

(** The attributes of a [Dataset] that do not change after line 98. *)
Definition req (self : Dataset) :=
  (module self, config self, dataset_module_of self, weatherconfig_of self,
   datadir self, years self, months self, bounds self).

(** The number of days of a month, leap years counted. *)
Definition days_in_month (year month : Z) : Z :=
  nth (Z.to_nat month) mdays 0 + (if (month =? 2) && isleap year then 1 else 0).

(** The temporal keys, in the order year, month, day. *)
Definition daily_keys (yrs mos : list Z) : list (list Z) :=
  flat_map (fun '(yr, mo) =>
              map (fun day => [yr; mo; day]) (range 1 (days_in_month yr mo + 1) 1))
           (year_months yrs mos).

Definition monthly_keys (yrs mos : list Z) : list (list Z) :=
  map (fun '(yr, mo) => [yr; mo]) (year_months yrs mos).

Definition yearly_keys (yrs : list Z) : list (list Z) :=
  map (fun yr => [yr]) yrs.

Definition is_daily (g : string) : bool :=
  String.eqb g "daily" || String.eqb g "dailymeans" || String.eqb g "daily_multiple".

Definition is_monthly (g : string) : bool :=
  String.eqb g "monthly" || String.eqb g "monthly_multiple".

(** The keys of the files of a request, by granularity and configuration. *)
Definition artifact_keys (g cfg : string) (yrs mos : list Z) : list (list Z) :=
  if is_daily g then daily_keys yrs mos
  else if is_monthly g then monthly_keys yrs mos
  else if String.eqb cfg modis_land_cover then yearly_keys yrs
  else [].

Definition keys_of (self : Dataset) : list (list Z) :=
  artifact_keys (file_granularity (weatherconfig_of self)) (config self)
    (expand (years self)) (expand (months self)).

(** The tuple of a branch carries the configuration and the file name it
    was built for, and depends on the request only. *)
Definition acq_sound (acq : Dataset -> pyobj -> list Z -> result task) : Prop :=
  forall self f key t, acq self f key = Ok t -> task_artifact t = (config self, f).

Definition acq_frame (acq : Dataset -> pyobj -> list Z -> result task) : Prop :=
  forall self self' f key, req self' = req self -> acq self' f key = acq self f key.

(** The bounds that lines 86-98 reject. *)
Definition bounds_rejected (cfg : string) (b : option bounds_value) : bool :=
  match b with
  | Some b => negb (is_list4 b)
  | None => String.eqb cfg modis_land_cover
  end.

(** [get_data] returns, with the lists [td] and [df] in [toDownload] and
    [downloadedFiles], and [prepared] set by the test of lines 278-279. *)
Definition returns_with (self : Dataset) (td : list task) (df : list artifact)
  : Prop :=
  exists self',
    get_data self = Ok self' /\
    req self' = req self /\
    toDownload self' = td /\
    downloadedFiles self' = df /\
    totalFiles self' = totalFiles self /\
    (df = totalFiles self -> prepared self' = true) /\
    (df <> totalFiles self -> prepared self' = prepared self).

Definition granularities : list string :=
  ["daily"; "dailymeans"; "daily_multiple"; "monthly"; "monthly_multiple"].

(** The start and the stop of a slice, as a pair. *)
Definition endpoints (s : slice) : Z * Z := (start s, stop s).

Section Steps.

Variable format_map : string -> gmap string Z -> result string.
Variable isfile : pyobj -> bool.

(** What one pass through the body of a loop does to the object, for the
    file name [filename]. *)
Record file_step (filename : pyobj) (self self' : Dataset) : Prop := {
  step_req : req self' = req self;
  step_total : totalFiles self' = totalFiles self ++ [(config self, filename)];
  step_present :
    isfile filename = true ->
    downloadedFiles self' = downloadedFiles self ++ [(config self, filename)] /\
    toDownload self' = toDownload self /\
    prepared self' = prepared self;
  step_missing :
    isfile filename = false ->
    downloadedFiles self' = downloadedFiles self /\
    (exists t, task_artifact t = (config self, filename) /\
               toDownload self' = toDownload self ++ [t]) /\
    prepared self' = false
}.

Inductive file_steps : list pyobj -> Dataset -> Dataset -> Prop :=
| steps_nil self : file_steps [] self self
| steps_cons f fs s1 s2 s3 :
    file_step f s1 s2 -> file_steps fs s2 s3 -> file_steps (f :: fs) s1 s3.

(** The five loops are instances of one loop over the keys, with the tuple
    [acq] of the branch. *)
Definition scan_keys (acq : Dataset -> pyobj -> list Z -> result task)
    (check_complete : bool) (keys : list (list Z)) (st : Dataset * Z)
  : M (Dataset * Z) :=
  for_each
    (fun key st =>
       let* filename := lift (filename_of format_map (fst st) key) in
       check_file isfile check_complete filename (acq (fst st) filename key) st)
    keys st.

Definition acq_daily (multiple : bool) (self : Dataset) (filename : pyobj)
    (key : list Z) : result task :=
  if multiple then acq_urls format_map self filename key
  else acq_url format_map self filename key.

Definition acq_month (multiple : bool) (self : Dataset) (filename : pyobj)
    (key : list Z) : result task :=
  if multiple then acq_urls format_map self filename key
  else match key with
       | [yr; mo] => acq_monthly format_map self filename yr mo
       | _ => acq_url format_map self filename key
       end.

Definition acq_year (self : Dataset) (filename : pyobj) (key : list Z)
  : result task :=
  acq_band self filename.

(** The tuple of the branch that [scan_files] takes for the granularity
    [g]. *)
Definition acq_of (g : string) (self : Dataset) (filename : pyobj)
    (key : list Z) : result task :=
  if String.eqb g "daily" || String.eqb g "dailymeans"
  then acq_daily false self filename key
  else if String.eqb g "daily_multiple" then acq_daily true self filename key
  else if String.eqb g "monthly" then acq_month false self filename key
  else if String.eqb g "monthly_multiple" then acq_month true self filename key
  else acq_year self filename key.

End Steps.

(** ** A land-cover module, to run the model *)

Module SampleModis.

(** The download routine of this configuration always raises. *)
Definition modis_config : weatherconfig :=
  {| file_granularity := "yearly";
     fn := "/data/modis/MCD12C1.{year}.hdf";
     url := None;
     band := Some "Majority_Land_Cover_Type_1";
     variables := None;
     product := None;
     api_func := Some (fun _ => Raise IndexError) |}.

Definition modis : dataset_module :=
  {| mod_datadir := "/data/modis";
     weather_data_config := {[ "modis_land_cover" := modis_config ]};
     spinup_var := false;
     spinup_year := fun y => y |}.

Definition sys_modules : gmap string dataset_module :=
  {[ "geodata.datasets.modis" := modis ]}.

Definition construct (dirs files : list string) (p : datasetparams)
  : result Dataset * list logrec :=
  Dataset_init sys_modules Sample.format_map (Sample.isdir dirs)
    (Sample.isfile files) p [].

End SampleModis.

(** ** The plan of a scan *)

Section Plan.

Variable format_map : string -> gmap string Z -> result string.
Variable isfile : pyobj -> bool.

(** What one pass through the body of a loop computes for a key: the file
    name, and the tuple for [toDownload] when the file is not on disk. *)
Definition plan_entry (acq : Dataset -> pyobj -> list Z -> result task)
    (self : Dataset) (key : list Z) : result (pyobj * option task) :=
  rbind (filename_of format_map self key) (fun f =>
  if isfile f then Ok (f, None)
  else rbind (acq self f key) (fun t => Ok (f, Some t))).

End Plan.

(** The record that the constructor logs last (lines 221 and 229). *)
Definition final_record (dir_exists : bool) (self : Dataset) : logrec :=
  if prepared self then LogInfo "Directory complete." []
  else LogInfo "{incomplete_count} files not completed."
         [PyInt (if dir_exists then Z.of_nat (length (toDownload self)) else 0)].

(** ** [geodata/datasets/era5.py] *)

Module Era5.

(** An argument [xs] or [ys]: a [slice], or a coordinate array, of which
    only [.values] is read. *)
Inductive coord : Type :=
| CoordSlice (s : slice)
| CoordArray (values : list Z).

(** [values[[0, -1]]]: the first and the last element of an array. *)
Definition first_last (values : list Z) : result (Z * Z) :=
  match values with
  | [] => Raise IndexError
  | v :: _ => Ok (v, List.last values v)
  end.

(** Lines 280-283: a [slice] is kept; of an array, the first and the last
    value become the start and the stop of a [slice]. *)
Definition as_slice (c : coord) : result slice :=
  match c with
  | CoordSlice s => Ok s
  | CoordArray values =>
      rbind (first_last values) (fun '(a, b) => Ok (Slice a b None))
  end.

(** [_area(xs, ys)] (lines 143-146): North, West, South, East. *)
Definition _area (xs ys : slice) : list Z :=
  [start ys; start xs; stop ys; stop xs].

(** A task of [tasks_monthly_era5]:
    [dict(prepare_func=..., xs=..., ys=..., year=..., month=...)]. *)
Record monthly_task (F : Type) : Type := {
  prepare_func : F;
  xs : slice;
  ys : slice;
  year : Z;
  month : Z
}.
Arguments prepare_func {F} _.
Arguments xs {F} _.
Arguments ys {F} _.
Arguments year {F} _.
Arguments month {F} _.

(** [tasks_monthly_era5(xs, ys, yearmonths, prepare_func, **meta_attrs)]
    (lines 279-286); [meta_attrs] is not read. *)
Definition tasks_monthly_era5 {F : Type} (xs ys : coord)
    (yearmonths : list (Z * Z)) (prepare_func : F)
  : result (list (monthly_task F)) :=
  rbind (as_slice xs) (fun xs =>
  rbind (as_slice ys) (fun ys =>
  Ok (map (fun '(year, month) =>
             {| prepare_func := prepare_func; xs := xs; ys := ys;
                year := year; month := month |})
          yearmonths))).

(** The keyword argument [variable] of [_get_data]: a [str], or a list of
    [str]. *)
Inductive variable_arg : Type :=
| VarStr (s : string)
| VarList (l : list string).

(** A value of a keyword argument and of the request dictionary. *)
Inductive reqval : Type :=
| RStr (s : string)
| RStrs (l : list string)
| RInt (z : Z)
| RNums (l : list Z)
| RVar (v : variable_arg).

(** The keyword arguments [**updates] of [_get_data]; [None] is a key that
    is not given.  [_get_data] reads four of them, which have the types the
    callers in this module pass them with.  Every other keyword ([day],
    [grid], [time], [format], [product_type], ...) is only written into the
    request: [u_other] is the dictionary of these, and an entry of it
    under one of the four names that are read does not count. *)
Record updates : Type := {
  u_variable : option variable_arg;
  u_year : option Z;
  u_month : option Z;
  u_area : option (list Z);
  u_other : gmap string reqval
}.

Definition read_keys : list string := ["variable"; "year"; "month"; "area"].

Definition other_keywords (u : updates) : gmap string reqval :=
  delete "variable" (delete "year" (delete "month" (delete "area" (u_other u)))).

(** [v[0]] for a [str] [v]. *)
Definition first_char (v : string) : result ascii :=
  match v with
  | EmptyString => Raise IndexError
  | String c _ => Ok c
  end.

(** Line 59: the first characters [v[0]] of the elements [v] of
    [variable], joined.  Iterating over a [str] gives its characters, each
    of which is its own first character. *)
Definition initials (variable : variable_arg) : result string :=
  match variable with
  | VarStr s => Ok s
  | VarList l =>
      rbind (rmap first_char l) (fun cs =>
      Ok (fold_right String EmptyString cs))
  end.

(** [format(month, '0>2')] for an [int]. *)
Definition pad2 (z : Z) : string :=
  Sample.zeros (2 - String.length (Sample.str_of_Z z)) +:+ Sample.str_of_Z z.

(** [os.path.join(a, b)] of [posixpath], for two components. *)
Definition path_join (a b : string) : string :=
  match b with
  | String "/"%char _ => b
  | _ =>
      match a with
      | EmptyString => b
      | _ => if String.eqb (String.substring (String.length a - 1) 1 a) "/"
             then a +:+ b
             else a +:+ "/" +:+ b
      end
  end.

(** Lines 59-63: the local file of a request,
    [os.path.join(era5_dir, '{year}/{month:0>2}/{f}.nc'.format(...))]. *)
Definition local_file (era5_dir : string) (u : updates) : result string :=
  rbind (getitem "variable" (u_variable u)) (fun variable =>
  rbind (initials variable) (fun f =>
  rbind (getitem "year" (u_year u)) (fun year =>
  rbind (getitem "month" (u_month u)) (fun month =>
  Ok (path_join era5_dir
        (Sample.str_of_Z year +:+ "/" +:+ pad2 month +:+ "/" +:+ f +:+ ".nc")))))).

Definition days : list string :=
  ["01"; "02"; "03"; "04"; "05"; "06"; "07"; "08"; "09"; "10"; "11"; "12";
   "13"; "14"; "15"; "16"; "17"; "18"; "19"; "20"; "21"; "22"; "23"; "24";
   "25"; "26"; "27"; "28"; "29"; "30"; "31"].

Definition times : list string :=
  ["00:00"; "01:00"; "02:00"; "03:00"; "04:00"; "05:00";
   "06:00"; "07:00"; "08:00"; "09:00"; "10:00"; "11:00";
   "12:00"; "13:00"; "14:00"; "15:00"; "16:00"; "17:00";
   "18:00"; "19:00"; "20:00"; "21:00"; "22:00"; "23:00"].

(** The default request (lines 88-103). *)
Definition default_request : gmap string reqval :=
  {[ "product_type" := RStr "reanalysis"; "format" := RStr "netcdf";
     "day" := RStrs days; "time" := RStrs times ]}.

(** [request[key] = value] for a key of [updates] that is given. *)
Definition put {A} (key : string) (inj : A -> reqval) (o : option A)
    (request : gmap string reqval) : gmap string reqval :=
  match o with
  | Some a => <[key := inj a]> request
  | None => request
  end.

(** [request.update(updates)] (line 104): every keyword is written into
    the request, over the entry of the same name if there is one. *)
Definition update (request : gmap string reqval) (u : updates)
  : gmap string reqval :=
  put "area" RNums (u_area u)
    (put "month" RInt (u_month u)
       (put "year" RInt (u_year u)
          (put "variable" RVar (u_variable u)
             (other_keywords u ∪ request)))).

(** The exceptions of [_get_data]: those of the built-ins, the
    [RuntimeError] of line 81 and the [AssertionError] of line 106. *)
Inductive error : Type :=
| Builtin (e : exn)
| RuntimeError
| AssertionError.

(** What [_get_data] does before it yields: it opens the local file, cut
    to the area [(yf, x0, y0, xf)] when ['area'] is given, or it creates the
    directory of the file, sends the request for the product and downloads
    the answer to the file. *)
Inductive action : Type :=
| OpenLocal (file : string) (area : option (Z * Z * Z * Z))
| Download (file : string) (product : string) (request : gmap string reqval).

Section GetData.

(** [era5_dir] of [geodata.config], [os.path.isfile], and whether
    [cdsapi] could be imported. *)
Variable era5_dir : string.
Variable isfile : string -> bool.
Variable has_cdsapi : bool.

(** [_get_data(target, product, chunks, **updates)] (lines 50-124), up to
    the [yield].  [target] is only written to the log, and [chunks] only
    handed to [xr.open_dataset]. *)
Definition _get_data (product : string) (u : updates) : error + action :=
  match local_file era5_dir u with
  | Raise e => inl (Builtin e)
  | Ok file =>
      if isfile file then
        match u_area u with
        | None => inr (OpenLocal file None)
        | Some [yf; x0; y0; xf] => inr (OpenLocal file (Some (yf, x0, y0, xf)))
        | Some _ => inl (Builtin (ValueError "values to unpack"))
        end
      else if negb has_cdsapi then inl RuntimeError
      else
        let request := update default_request u in
        if bool_decide (is_Some (request !! "year")) &&
           bool_decide (is_Some (request !! "month")) &&
           bool_decide (is_Some (request !! "variable"))
        then inr (Download file product request)
        else inl AssertionError
  end.

End GetData.

End Era5.

(** The two cases of [os.path.join]: a second component that starts with
    a slash stands alone; otherwise it follows the first component and one
    slash. *)
Definition starts_with_slash (b : string) : bool :=
  match b with
  | String c _ => Ascii.eqb c "/"
  | EmptyString => false
  end.

Definition join_prefix (a : string) : string :=
  match a with
  | EmptyString => EmptyString
  | _ => if String.eqb (String.substring (String.length a - 1) 1 a) "/"
         then a else a +:+ "/"
  end.

(** * Properties *)

(** ** The monads *)

Lemma rbind_ok {A B} (r : result A) (k : A -> result B) (b : B) :
  rbind r k = Ok b -> exists a, r = Ok a /\ k a = Ok b.
Proof. destruct r as [a|e]; simpl; [eauto | discriminate]. Qed.

Lemma bind_ok {A B} (m : M A) (k : A -> M B) log b log' :
  bind m k log = (Ok b, log') ->
  exists a log1, m log = (Ok a, log1) /\ k a log1 = (Ok b, log').
Proof.
  unfold bind. destruct (m log) as [[a|e] log1]; [eauto | discriminate].
Qed.

Lemma lift_ok {A} (r : result A) log a log' :
  lift r log = (Ok a, log') -> r = Ok a /\ log' = log.
Proof. unfold lift. intros [= -> ->]. auto. Qed.

Lemma rmap_app {A B} (f : A -> result B) (l1 l2 : list A) :
  rmap f (l1 ++ l2) =
  rbind (rmap f l1) (fun b1 => rbind (rmap f l2) (fun b2 => Ok (b1 ++ b2))).
Proof.
  induction l1 as [|a l1 IH]; simpl.
  - destruct (rmap f l2); reflexivity.
  - destruct (f a) as [b|e]; simpl; [|reflexivity].
    rewrite IH. destruct (rmap f l1) as [b1|e]; simpl; [|reflexivity].
    destruct (rmap f l2); reflexivity.
Qed.

Lemma rmap_ext {A B} (f g : A -> result B) (l : list A) :
  (forall a, In a l -> f a = g a) -> rmap f l = rmap g l.
Proof.
  induction l as [|a l IH]; simpl; intros H; [reflexivity|].
  rewrite (H a) by auto. rewrite IH by auto. reflexivity.
Qed.

Lemma rmap_map {A B C} (f : B -> result C) (g : A -> B) (l : list A) :
  rmap f (map g l) = rmap (fun a => f (g a)) l.
Proof. induction l as [|a l IH]; simpl; [reflexivity | now rewrite IH]. Qed.

Lemma rmap_length {A B} (f : A -> result B) (l : list A) (bs : list B) :
  rmap f l = Ok bs -> length bs = length l.
Proof.
  revert bs. induction l as [|a l IH]; simpl; intros bs H.
  - injection H as <-. reflexivity.
  - apply rbind_ok in H as (b & _ & H). apply rbind_ok in H as (bs' & H1 & H).
    injection H as <-. simpl. f_equal. auto.
Qed.

Lemma rmap_total {A B} (f : A -> result B) (l : list A) :
  forallb (fun a => is_ok (f a)) l = true -> exists bs, rmap f l = Ok bs.
Proof.
  induction l as [|a l IH]; simpl; intros H; [eauto|].
  apply andb_prop in H as [Ha Hl]. destruct (IH Hl) as [bs ->].
  destruct (f a) as [b|e]; [simpl; eauto | discriminate].
Qed.

(** ** Loops *)

Lemma for_each_ext {A S} (f g : A -> S -> M S) (l : list A) :
  (forall a s log, In a l -> f a s log = g a s log) ->
  forall s log, for_each f l s log = for_each g l s log.
Proof.
  induction l as [|a l IH]; simpl; intros H s log; [reflexivity|].
  unfold bind. rewrite (H a s log) by auto.
  destruct (g a s log) as [[s'|e] log1]; [|reflexivity].
  apply IH. auto.
Qed.

Lemma for_each_app {A S} (f : A -> S -> M S) (l1 l2 : list A) s log :
  for_each f (l1 ++ l2) s log = bind (for_each f l1 s) (for_each f l2) log.
Proof.
  revert s log. induction l1 as [|a l1 IH]; simpl; intros s log.
  - reflexivity.
  - unfold bind. destruct (f a s log) as [[s'|e] log1]; [|reflexivity].
    rewrite IH. reflexivity.
Qed.

Lemma for_each_map {A B S} (f : B -> S -> M S) (g : A -> B) (l : list A) s log :
  for_each f (map g l) s log = for_each (fun a => f (g a)) l s log.
Proof.
  revert s log. induction l as [|a l IH]; simpl; intros s log; [reflexivity|].
  unfold bind. destruct (f (g a) s log) as [[s'|e] log1]; [apply IH | reflexivity].
Qed.

(** A loop nested in a loop runs its body over the flattened list. *)
Lemma for_each_nested {A B C S} (f : C -> S -> M S) (g : A -> list B)
    (h : A -> B -> C) (l : list A) s log :
  for_each (fun a => for_each (fun b => f (h a b)) (g a)) l s log =
  for_each f (flat_map (fun a => map (h a) (g a)) l) s log.
Proof.
  revert s log. induction l as [|a l IH]; intros s log; [reflexivity|].
  cbn [flat_map for_each]. rewrite for_each_app. unfold bind.
  rewrite for_each_map.
  destruct (for_each _ (g a) s log) as [[s'|e] log1]; [apply IH | reflexivity].
Qed.


(** ** The body of the loops *)

Section ScanFacts.

Variable format_map : string -> gmap string Z -> result string.
Variable isfile : pyobj -> bool.

Local Abbreviation fname_of := (filename_of format_map).
Local Abbreviation scan_loop := (scan_keys format_map isfile).
Local Abbreviation step := (file_step isfile).
Local Abbreviation steps := (file_steps isfile).

Lemma req_config self self' : req self' = req self -> config self' = config self.
Proof. unfold req. congruence. Qed.

Lemma filename_of_req self self' key :
  req self' = req self -> fname_of self' key = fname_of self key.
Proof. unfold req, filename_of. intros [= ]. congruence. Qed.

Lemma acq_url_sound : acq_sound (acq_url format_map).
Proof.
  intros self f key t H. unfold acq_url in H.
  apply rbind_ok in H as (u & _ & [= <-]). reflexivity.
Qed.

Lemma acq_urls_sound : acq_sound (acq_urls format_map).
Proof.
  intros self f key t H. unfold acq_urls in H.
  apply rbind_ok in H as (u0 & _ & H). apply rbind_ok in H as (u1 & _ & [= <-]).
  reflexivity.
Qed.

Lemma acq_of_sound g : acq_sound (acq_of format_map g).
Proof.
  intros self f key t. unfold acq_of, acq_daily, acq_month, acq_year.
  repeat match goal with |- context [if ?b then _ else _] => destruct b end;
    try apply acq_url_sound; try apply acq_urls_sound.
  - destruct key as [|yr [|mo [|? ?]]]; try apply acq_url_sound.
    unfold acq_monthly. destruct (String.eqb _ _); [|apply acq_url_sound].
    intros [= <-]. reflexivity.
  - unfold acq_band. destruct (bounds self); [|discriminate].
    intros H. apply rbind_ok in H as (bd & _ & [= <-]). reflexivity.
Qed.

Lemma acq_of_frame g : acq_frame (acq_of format_map g).
Proof.
  intros self self' f key H. unfold req in H. injection H as Hm Hc Hd Hw _ _ _ Hb.
  unfold acq_of, acq_daily, acq_month, acq_year, acq_band, acq_monthly,
    acq_urls, acq_url, url_index_of, url_of.
  rewrite Hm, Hc, Hd, Hw, Hb. reflexivity.
Qed.

(** One pass through the body is a [file_step]. *)
Lemma check_file_step cc filename acq self n log self' n' log' :
  (forall t, acq = Ok t -> task_artifact t = (config self, filename)) ->
  check_file isfile cc filename acq (self, n) log = (Ok (self', n'), log') ->
  step filename self self'.
Proof.
  intros Hacq H. unfold check_file in H.
  destruct (isfile filename) eqn:Hf; simpl in H.
  - injection H as <- _ _.
    split; try reflexivity; [auto | congruence].
  - apply bind_ok in H as (m & log1 & _ & H).
    apply bind_ok in H as (t & log2 & Ht & H).
    apply lift_ok in Ht as [-> ->]. injection H as <- _ _.
    split; try reflexivity; [congruence|].
    intros _. repeat split. exists t. split; [|reflexivity].
    apply (Hacq t eq_refl).
Qed.

Lemma scan_keys_steps acq cc keys :
  acq_sound acq ->
  forall self n log self' n' log',
    scan_loop acq cc keys (self, n) log = (Ok (self', n'), log') ->
    exists names,
      rmap (fname_of self) keys = Ok names /\ steps names self self'.
Proof.
  intros Hacq. induction keys as [|key keys IH]; intros self n log self' n' log' H.
  - injection H as <- _ _. exists []. split; [reflexivity | constructor].
  - unfold scan_keys in H. cbn [for_each] in H.
    apply bind_ok in H as ([s2 n2] & log2 & Hb & H).
    apply bind_ok in Hb as (f & log1 & Hf & Hb).
    apply lift_ok in Hf as [Hf ->]. cbn [fst] in Hf, Hb.
    apply check_file_step in Hb; [|intros t; apply Hacq].
    apply IH in H as (names & Hn & Hs).
    exists (f :: names). split.
    + cbn [rmap]. rewrite Hf. cbn [rbind].
      rewrite (rmap_ext _ (fname_of s2)), Hn; [reflexivity|].
      intros a _. symmetry. apply filename_of_req, (step_req _ _ _ _ Hb).
    + econstructor; eassumption.
Qed.

(** The loop runs to its end when every file name renders and the tuple
    of every file that is not on disk can be built. *)
Lemma scan_keys_total acq cc keys :
  acq_frame acq ->
  forall self n log,
    forallb (fun key => is_ok (fname_of self key)) keys = true ->
    (forall key f, In key keys -> fname_of self key = Ok f ->
                   isfile f = false -> is_ok (acq self f key) = true) ->
    exists self' n' log', scan_loop acq cc keys (self, n) log = (Ok (self', n'), log').
Proof.
  intros Hfr. induction keys as [|key keys IH]; intros self n log Hn Ha.
  - exists self, n, log. reflexivity.
  - cbn [forallb] in Hn. apply andb_prop in Hn as [Hk Hn].
    destruct (fname_of self key) as [f|e] eqn:Hf; [|discriminate].
    unfold scan_keys. cbn [for_each]. unfold bind at 1. unfold bind at 1.
    unfold lift at 1. cbn [fst]. rewrite Hf.
    assert (Hstep : exists s2 n2 log2,
               check_file isfile cc f (acq self f key) (self, n) log
               = (Ok (s2, n2), log2) /\ req s2 = req self).
    { unfold check_file. destruct (isfile f) eqn:Hi; simpl.
      - eexists _, _, _. split; reflexivity.
      - specialize (Ha key f (or_introl eq_refl) Hf Hi).
        destruct (acq self f key) as [t|e]; [|discriminate].
        destruct cc; unfold bind, lift, ret, logger_info; simpl;
          eexists _, _, _; split; reflexivity. }
    destruct Hstep as (s2 & n2 & log2 & -> & Hreq).
    apply (IH s2 n2 log2).
    + rewrite forallb_forall in Hn |- *. intros a Hin.
      rewrite (filename_of_req _ _ _ Hreq). auto.
    + intros k g Hin Hg Hi. rewrite (Hfr _ _ _ _ Hreq).
      apply Ha; [right; exact Hin | | exact Hi].
      rewrite <- Hg. symmetry. apply filename_of_req, Hreq.
Qed.

(** What a run of steps adds up to. *)
Lemma file_steps_facts names self self' :
  steps names self self' ->
  req self' = req self /\
  totalFiles self' = totalFiles self ++ map (pair (config self)) names /\
  downloadedFiles self' =
    downloadedFiles self ++ map (pair (config self)) (List.filter isfile names) /\
  map task_artifact (toDownload self') =
    map task_artifact (toDownload self) ++
    map (pair (config self)) (List.filter (fun f => negb (isfile f)) names) /\
  prepared self' = prepared self && forallb isfile names.
Proof.
  induction 1 as [self | f fs s1 s2 s3 Hstep _ IH].
  - cbn. rewrite !app_nil_r, andb_true_r. auto.
  - destruct IH as (Hr & Ht & Hd & Hm & Hp).
    destruct Hstep as [Hreq Htot Hpres Hmiss].
    pose proof (req_config _ _ Hreq) as Hc. rewrite Hc in Ht, Hd, Hm.
    split; [congruence|]. cbn [map List.filter forallb].
    split; [rewrite Ht, Htot, <- app_assoc; reflexivity|].
    destruct (isfile f) eqn:Hf; cbn [negb map].
    + destruct (Hpres eq_refl) as (Hd2 & Ht2 & Hp2).
      rewrite Hd, Hm, Hp, Hd2, Ht2, Hp2, <- app_assoc. auto.
    + destruct (Hmiss eq_refl) as (Hd2 & (t & Hta & Ht2) & Hp2).
      rewrite Hd, Hm, Hp, Hd2, Ht2, Hp2, map_app, <- app_assoc, andb_false_r.
      cbn [map]. rewrite Hta. auto.
Qed.

(** *** The branches of [scan_files] as loops over the keys *)

Lemma scan_monthly_keys multiple cc yrs mos st log :
  scan_monthly format_map isfile multiple cc yrs mos st log =
  scan_loop (acq_month format_map multiple) cc (monthly_keys yrs mos) st log.
Proof.
  unfold scan_monthly, scan_keys, monthly_keys. rewrite for_each_map.
  apply for_each_ext. intros [yr mo] s l _. unfold acq_month.
  destruct multiple; reflexivity.
Qed.

Lemma scan_yearly_keys cc yrs st log :
  scan_yearly format_map isfile cc yrs st log =
  scan_loop acq_year cc (yearly_keys yrs) st log.
Proof.
  unfold scan_yearly, scan_keys, yearly_keys. rewrite for_each_map. reflexivity.
Qed.

Lemma month_tuples_ok yrs mos tuples :
  month_tuples yrs mos = Ok tuples ->
  tuples = map (fun '(yr, mo) => (yr, mo, days_in_month yr mo)) (year_months yrs mos).
Proof.
  unfold month_tuples. generalize (year_months yrs mos) as l. intros l. revert tuples.
  induction l as [|[yr mo] l IH]; cbn [rmap map]; intros tuples H.
  - now injection H as <-.
  - apply rbind_ok in H as (t & Ht & H). apply rbind_ok in H as (ts & Hts & [= <-]).
    apply rbind_ok in Ht as (nd & Hnd & [= <-]). rewrite (IH ts Hts). f_equal.
    unfold monthrange_days in Hnd. destruct (negb _); [discriminate|].
    injection Hnd as <-. reflexivity.
Qed.

Lemma daily_keys_tuples (l : list (Z * Z)) :
  flat_map (fun t : Z * Z * Z =>
              map (fun day => [t.1.1; t.1.2; day]) (range 1 (t.2 + 1) 1))
           (map (fun '(yr, mo) => (yr, mo, days_in_month yr mo)) l) =
  flat_map (fun '(yr, mo) =>
              map (fun day => [yr; mo; day]) (range 1 (days_in_month yr mo + 1) 1)) l.
Proof.
  induction l as [|[yr mo] l IH]; [reflexivity|].
  cbn [map flat_map fst snd]. now rewrite IH.
Qed.

Lemma scan_daily_keys multiple cc yrs mos tuples st log :
  month_tuples yrs mos = Ok tuples ->
  scan_daily format_map isfile multiple cc yrs mos st log =
  scan_loop (acq_daily format_map multiple) cc (daily_keys yrs mos) st log.
Proof.
  intros Ht. unfold scan_daily. unfold bind at 1. unfold lift at 1. rewrite Ht.
  apply month_tuples_ok in Ht as ->. unfold scan_keys, daily_keys.
  rewrite <- daily_keys_tuples, <- for_each_nested.
  apply for_each_ext. intros [[yr mo] nd] s l _. reflexivity.
Qed.

Lemma scan_daily_raise multiple cc yrs mos e st log :
  month_tuples yrs mos = Raise e ->
  scan_daily format_map isfile multiple cc yrs mos st log = (Raise e, log).
Proof.
  intros Ht. unfold scan_daily. unfold bind at 1. unfold lift at 1. now rewrite Ht.
Qed.

(** [scan_files] is the loop over [artifact_keys], once the list of the
    months has been built. *)
Lemma scan_files_keys cc yrs mos st log :
  let g := file_granularity (weatherconfig_of (fst st)) in
  (is_daily g = true -> is_ok (month_tuples yrs mos) = true) ->
  scan_files format_map isfile cc yrs mos st log =
  scan_loop (acq_of format_map g) cc
    (artifact_keys g (config (fst st)) yrs mos) st log.
Proof.
  intros g Hm. unfold scan_files, artifact_keys, acq_of, is_daily, is_monthly in *.
  fold g. destruct (month_tuples yrs mos) as [tuples|e] eqn:Ht.
  - destruct (String.eqb g "daily" || String.eqb g "dailymeans") eqn:E1; cbn [orb].
    { apply (scan_daily_keys _ _ _ _ _ _ _ Ht). }
    destruct (String.eqb g "daily_multiple") eqn:E2.
    { apply (scan_daily_keys _ _ _ _ _ _ _ Ht). }
    destruct (String.eqb g "monthly") eqn:E3; cbn [orb].
    { apply scan_monthly_keys. }
    destruct (String.eqb g "monthly_multiple") eqn:E4.
    { apply scan_monthly_keys. }
    destruct (String.eqb (config st.1) modis_land_cover) eqn:E5.
    { apply scan_yearly_keys. }
    reflexivity.
  - destruct (String.eqb g "daily" || String.eqb g "dailymeans") eqn:E1; cbn [orb] in *.
    { now specialize (Hm eq_refl). }
    destruct (String.eqb g "daily_multiple") eqn:E2.
    { now specialize (Hm eq_refl). }
    destruct (String.eqb g "monthly") eqn:E3; cbn [orb].
    { apply scan_monthly_keys. }
    destruct (String.eqb g "monthly_multiple") eqn:E4.
    { apply scan_monthly_keys. }
    destruct (String.eqb (config st.1) modis_land_cover) eqn:E5.
    { apply scan_yearly_keys. }
    reflexivity.
Qed.

(** When [scan_files] returns, the list of the months was built. *)
Lemma scan_files_months cc yrs mos st log st' log' :
  scan_files format_map isfile cc yrs mos st log = (Ok st', log') ->
  is_daily (file_granularity (weatherconfig_of (fst st))) = true ->
  is_ok (month_tuples yrs mos) = true.
Proof.
  intros H Hd. destruct (month_tuples yrs mos) as [tuples|e] eqn:Ht; [reflexivity|].
  exfalso. unfold scan_files, is_daily in *.
  destruct (String.eqb _ "daily" || String.eqb _ "dailymeans") eqn:E1; cbn [orb] in *.
  { rewrite (scan_daily_raise _ _ _ _ _ _ _ Ht) in H. discriminate. }
  rewrite Hd in H. rewrite (scan_daily_raise _ _ _ _ _ _ _ Ht) in H. discriminate.
Qed.

End ScanFacts.

(** ** The constructor *)

Section InitFacts.

Variable sys_modules : gmap string dataset_module.
Variable format_map : string -> gmap string Z -> result string.
Variable isdir : string -> bool.
Variable isfile : pyobj -> bool.

Local Abbreviation fname_of := (filename_of format_map).
Local Abbreviation init := (Dataset_init sys_modules format_map isdir isfile).

Lemma keys_of_req self self' : req self' = req self -> keys_of self' = keys_of self.
Proof. unfold req, keys_of. intros [= ]. congruence. Qed.

Lemma req_datadir self self' : req self' = req self -> datadir self' = datadir self.
Proof. unfold req. congruence. Qed.

(** Lines 47-84 leave the bookkeeping attributes empty. *)
Lemma init_attributes_fresh p log self0 log0 :
  init_attributes sys_modules p log = (Ok self0, log0) ->
  prepared self0 = false /\ toDownload self0 = [] /\
  downloadedFiles self0 = [] /\ totalFiles self0 = [] /\ bounds self0 = None.
Proof.
  unfold init_attributes. intros H.
  destruct (p_module p) as [m|]; [|discriminate].
  destruct (p_weather_data_config p) as [c|]; [|discriminate].
  apply bind_ok in H as (dm & l1 & _ & H). apply bind_ok in H as (wc & l2 & _ & H).
  apply bind_ok in H as (u & l3 & _ & H).
  destruct (p_years p) as [ys|]; [|discriminate].
  apply bind_ok in H as (ms & l4 & _ & H). injection H as <- _. auto.
Qed.

(** Lines 86-98 change no attribute but [bounds]. *)
Lemma resolve_bounds_ok self0 p log self1 p1 log1 :
  resolve_bounds self0 p log = (Ok (self1, p1), log1) ->
  prepared self1 = prepared self0 /\ toDownload self1 = toDownload self0 /\
  downloadedFiles self1 = downloadedFiles self0 /\
  totalFiles self1 = totalFiles self0 /\
  config self1 = config self0 /\ weatherconfig_of self1 = weatherconfig_of self0 /\
  years self1 = years self0 /\ months self1 = months self0 /\
  bounds self1 = match p_bounds p with Some b => Some b | None => bounds self0 end.
Proof.
  unfold resolve_bounds. intros H. destruct (p_bounds p) as [b|].
  - destruct b as [[|x1 [|y1 [|x2 [|y2 [|? ?]]]]]|l]; try discriminate.
    injection H as <- _ _. repeat split; reflexivity.
  - destruct (String.eqb _ _); [discriminate|].
    injection H as <- _ _. repeat split; reflexivity.
Qed.

(** Lines 100-230, started with empty lists: the object that comes out, in
    terms of the file names of its keys. *)
Lemma scan_spec self p log self' log' :
  prepared self = false -> toDownload self = [] ->
  downloadedFiles self = [] -> totalFiles self = [] ->
  scan format_map isdir isfile self p log = (Ok self', log') ->
  exists names,
    rmap (fname_of self') (keys_of self') = Ok names /\
    req self' = req self /\
    totalFiles self' = map (pair (config self')) names /\
    downloadedFiles self' = map (pair (config self')) (List.filter isfile names) /\
    map task_artifact (toDownload self') =
      map (pair (config self')) (List.filter (fun f => negb (isfile f)) names) /\
    prepared self' = isdir (datadir self') && forallb isfile names.
Proof.
  intros Hp Htd Hdf Htf H. unfold scan in H.
  apply bind_ok in H as ([s1 cc] & l1 & H1 & H).
  apply bind_ok in H as ([s2 n2] & l2 & H2 & H).
  assert (Hs1 : req s1 = req self /\ toDownload s1 = [] /\ downloadedFiles s1 = [] /\
                totalFiles s1 = [] /\ prepared s1 = isdir (datadir self)).
  { destruct (isdir (datadir self)); injection H1 as <- _ _; cbn; auto. }
  destruct Hs1 as (Hr1 & Htd1 & Hdf1 & Htf1 & Hp1).
  assert (Hret : self' = s2).
  { destruct (negb (prepared s2)).
    - destruct (negb _); injection H as <- _; reflexivity.
    - injection H as <- _; reflexivity. }
  subst s2. clear H.
  pose proof (scan_files_months _ _ _ _ _ _ _ _ _ H2) as Hm.
  rewrite scan_files_keys in H2 by exact Hm. cbn [fst] in H2.
  apply scan_keys_steps in H2 as (names & Hn & Hst); [|apply acq_of_sound].
  apply file_steps_facts in Hst as (Hr & Ht & Hd & Hmi & Hpr).
  rewrite Htd1, Hdf1, Htf1 in *. cbn [map app] in *.
  change (rmap (fname_of s1) (keys_of s1) = Ok names) in Hn.
  pose proof (req_config _ _ Hr) as Hc. rewrite <- Hc in Ht, Hd, Hmi.
  exists names. repeat split; try assumption; try congruence.
  - rewrite (rmap_ext _ (fname_of s1)) by (intros; now apply filename_of_req).
    rewrite (keys_of_req _ _ Hr). exact Hn.
  - rewrite Hpr, Hp1. f_equal. f_equal. symmetry.
    rewrite (req_datadir _ _ Hr). apply req_datadir, Hr1.
Qed.

Lemma Dataset_init_stages p log self' log' :
  init p log = (Ok self', log') ->
  exists self0 log0 self1 p1 log1,
    init_attributes sys_modules p log = (Ok self0, log0) /\
    resolve_bounds self0 p log0 = (Ok (self1, p1), log1) /\
    scan format_map isdir isfile self1 p1 log1 = (Ok self', log').
Proof.
  unfold Dataset_init. intros H.
  apply bind_ok in H as (self0 & log0 & H0 & H).
  apply bind_ok in H as ([self1 p1] & log1 & H1 & H).
  eauto 10.
Qed.

(** The object that the constructor returns. *)
Lemma Dataset_init_spec p log self' log' :
  init p log = (Ok self', log') ->
  exists names,
    rmap (fname_of self') (keys_of self') = Ok names /\
    totalFiles self' = map (pair (config self')) names /\
    downloadedFiles self' = map (pair (config self')) (List.filter isfile names) /\
    map task_artifact (toDownload self') =
      map (pair (config self')) (List.filter (fun f => negb (isfile f)) names) /\
    prepared self' = isdir (datadir self') && forallb isfile names.
Proof.
  intros H. apply Dataset_init_stages in H as (s0 & l0 & s1 & p1 & l1 & H0 & H1 & H).
  apply init_attributes_fresh in H0 as (Hp & Htd & Hdf & Htf & _).
  apply resolve_bounds_ok in H1 as (Hp1 & Htd1 & Hdf1 & Htf1 & _).
  apply scan_spec in H as (names & Hn & _ & Hrest); [eauto | congruence..].
Qed.

Lemma Dataset_init_req p log self0 log0 self1 p1 log1 self' log' :
  init_attributes sys_modules p log = (Ok self0, log0) ->
  resolve_bounds self0 p log0 = (Ok (self1, p1), log1) ->
  init p log = (Ok self', log') ->
  req self' = req self1.
Proof.
  intros H0 H1 H. apply Dataset_init_stages in H as (s0 & l0 & s1 & q1 & l1 & E0 & E1 & H).
  rewrite H0 in E0. injection E0 as <- <-. rewrite H1 in E1. injection E1 as <- <- <-.
  apply init_attributes_fresh in H0 as (Hp & Htd & Hdf & Htf & _).
  apply resolve_bounds_ok in H1 as (Hp1 & Htd1 & Hdf1 & Htf1 & _).
  apply scan_spec in H as (names & _ & Hr & _); [exact Hr | congruence..].
Qed.

(** The constructor returns when the stages before the loops succeed, the
    months are legal where [monthrange] is called, every file name renders,
    and the tuple of every file that is not on disk can be built. *)
Lemma scan_files_total self cc log :
  let g := file_granularity (weatherconfig_of self) in
  (is_daily g = true ->
   is_ok (month_tuples (expand (years self)) (expand (months self))) = true) ->
  forallb (fun key => is_ok (fname_of self key)) (keys_of self) = true ->
  (forall key f, In key (keys_of self) -> fname_of self key = Ok f ->
                 isfile f = false -> is_ok (acq_of format_map g self f key) = true) ->
  exists s2 n2 l2,
    scan_files format_map isfile cc (expand (years self)) (expand (months self))
      (self, 0) log = (Ok (s2, n2), l2).
Proof.
  intros g Hm Hn Ha. rewrite scan_files_keys by exact Hm. cbn [fst]. fold g.
  apply scan_keys_total; [apply acq_of_frame | exact Hn | exact Ha].
Qed.

Lemma scan_total self p log :
  let g := file_granularity (weatherconfig_of self) in
  (is_daily g = true ->
   is_ok (month_tuples (expand (years self)) (expand (months self))) = true) ->
  forallb (fun key => is_ok (fname_of self key)) (keys_of self) = true ->
  (forall key f, In key (keys_of self) -> fname_of self key = Ok f ->
                 isfile f = false -> is_ok (acq_of format_map g self f key) = true) ->
  exists self' log', scan format_map isdir isfile self p log = (Ok self', log').
Proof.
  intros g Hm Hn Ha. unfold scan. unfold bind at 1.
  destruct (isdir (datadir self)).
  - unfold bind at 1. cbn [logger_info ret].
    destruct (scan_files_total (set_prepared self true) true
                (log ++ [LogInfo "Directory %s found, checking for completeness."
                           [PyStr (datadir self)]]) Hm Hn Ha)
      as (s2 & n2 & l2 & Hs).
    unfold bind at 1. cbn [years months set_prepared] in Hs |- *. rewrite Hs.
    destruct (negb (prepared s2)).
    + destruct (negb _); eexists _, _; reflexivity.
    + eexists _, _; reflexivity.
  - unfold bind at 1. cbn [logger_info ret].
    destruct (scan_files_total self false
                (log ++ [LogInfo "Directory %s not found." [PyStr (datadir self)]])
                Hm Hn Ha)
      as (s2 & n2 & l2 & Hs).
    unfold bind at 1. rewrite Hs.
    destruct (negb (prepared s2)).
    + destruct (negb _); eexists _, _; reflexivity.
    + eexists _, _; reflexivity.
Qed.

Lemma Dataset_init_total p log self0 log0 self1 p1 log1 :
  init_attributes sys_modules p log = (Ok self0, log0) ->
  resolve_bounds self0 p log0 = (Ok (self1, p1), log1) ->
  let g := file_granularity (weatherconfig_of self1) in
  (is_daily g = true ->
   is_ok (month_tuples (expand (years self1)) (expand (months self1))) = true) ->
  forallb (fun key => is_ok (fname_of self1 key)) (keys_of self1) = true ->
  (forall key f, In key (keys_of self1) -> fname_of self1 key = Ok f ->
                 isfile f = false -> is_ok (acq_of format_map g self1 f key) = true) ->
  exists self' log', init p log = (Ok self', log').
Proof.
  intros H0 H1 g Hm Hn Ha. unfold Dataset_init. unfold bind at 1. rewrite H0.
  unfold bind at 1. rewrite H1. apply scan_total; assumption.
Qed.

End InitFacts.

(** ** Ranges *)

Lemma range_from_one (n : Z) :
  range 1 (n + 1) 1 = map Z.of_nat (seq 1 (Z.to_nat n)).
Proof.
  unfold range, range_len. cbn [Z.ltb Z.compare].
  replace (Z.to_nat (if 1 <? n + 1 then (n + 1 - 1 - 1) / 1 + 1 else 0))
    with (Z.to_nat n).
  - rewrite <- seq_shift, map_map. apply map_ext. intros k. lia.
  - destruct (Z.ltb_spec 1 (n + 1)).
    + rewrite Z.div_1_r. f_equal. lia.
    + lia.
Qed.

(** With the default step the expansion is [start, start+1, ..., stop]. *)
Lemma expand_unit_step (s : slice) :
  step s = None ->
  expand s = map (fun k => start s + Z.of_nat k)
               (seq 0 (Z.to_nat (stop s - start s + 1))).
Proof.
  intros Hs. unfold expand, slice_step, range, range_len. rewrite Hs.
  cbn [Z.ltb Z.compare].
  replace (Z.to_nat (if start s <? stop s + 1
                     then (stop s + 1 - start s - 1) / 1 + 1 else 0))
    with (Z.to_nat (stop s - start s + 1)).
  - apply map_ext. intros k. lia.
  - destruct (Z.ltb_spec (start s) (stop s + 1)).
    + rewrite Z.div_1_r. f_equal. lia.
    + lia.
Qed.


Lemma filter_map_pair {A B} (c : A) (f : B -> bool) (l : list B) :
  List.filter (fun a : A * B => f (snd a)) (map (pair c) l) =
  map (pair c) (List.filter f l).
Proof.
  induction l as [|b l IH]; [reflexivity|]. cbn [map List.filter snd].
  destruct (f b); cbn [map]; now rewrite IH.
Qed.

(** * The claims *)

(** C10: for every template, [datasetfn] called with no temporal key, or
    with more than three, returns the boolean [False]: not a rendered
    string, not an exception.  The result is the same whatever
    [str.format_map] and [spinup_year] would do, so neither is reached. *)
Theorem datasetfn_arity_false
    (format_map : string -> gmap string Z -> result string)
    (dm : dataset_module) (fn : template) (args : list Z) :
  (length args = 0 \/ 3 < length args)%nat ->
  datasetfn format_map dm fn args = Ok (PyBool false).
Proof.
  intros H. unfold datasetfn.
  destruct args as [|a0 [|a1 [|a2 [|a3 args]]]]; cbn in *; try reflexivity; lia.
Qed.

Lemma datasetfn_arity_false_witness :
  (length [2020; 1; 2; 3] = 0 \/ 3 < length [2020; 1; 2; 3])%nat /\
  datasetfn (fun _ _ => Raise (KeyError "year")) Sample.merra2
    (TStr "{year}{month:0>2}{day:0>2}.nc4") [2020; 1; 2; 3] = Ok (PyBool false).
Proof.
  split; [right; cbn; lia|].
  apply (datasetfn_arity_false _ _ _ [2020; 1; 2; 3]). right. cbn. lia.
Defined.

(** C3, at a step that does not divide [stop - start]: the constructor
    iterates past [stop].  For [slice(2000, 2005, 2)] it visits 2006, and for
    [slice(1, 12, 5)] the month 16. *)
Theorem expand_overshoots_stop :
  expand (Slice 2000 2005 (Some 2)) = [2000; 2002; 2004; 2006] /\
  expand (Slice 1 12 (Some 5)) = [1; 6; 11; 16].
Proof. split; reflexivity. Qed.

(** C4, as the code computes it: the four elements of [bounds] are unpacked
    by position, so for [[north, west, south, east]] the slice [xs] runs
    from north to south and the slice [ys] from east to west. *)
Theorem bounds_slices_by_position (self : Dataset) (p : datasetparams)
    (north west south east : Z) (log : list logrec) :
  let p' := {| p_module := p_module p;
               p_weather_data_config := p_weather_data_config p;
               p_datadir := p_datadir p;
               p_years := p_years p; p_months := p_months p;
               p_bounds := Some (BoundsList [north; west; south; east]);
               p_xs := p_xs p; p_ys := p_ys p |} in
  exists self1 p1,
    resolve_bounds self p' log = (Ok (self1, p1), log) /\
    endpoints <$> p_xs p1 = Some (north, south) /\
    endpoints <$> p_ys p1 = Some (east, west).
Proof. cbn. eexists _, _. repeat split. Qed.

(** C8: with a download routine configured, [get_data] returns exactly when
    the routine returns: for ['era5'] (with bounds, variables and product
    there) and for ['merra2'] it calls the routine on the lists of the
    object, surfaces what the routine raises, and on return holds the lists
    the routine left; for any other module it calls nothing.  In each case
    [prepared] is true afterwards if the list of present files then equals
    the list of all files, and is left as it was otherwise (partial
    success); [totalFiles] and the request are as before. *)
Theorem get_data_prepared (self : Dataset)
    (f : api_args -> result (list task * list artifact)) :
  api_func (weatherconfig_of self) = Some f ->
  let wc := weatherconfig_of self in
  (module self = "era5" ->
   forall b vs pr,
     bounds self = Some b -> variables wc = Some vs -> product wc = Some pr ->
     match f (ApiEra5 (toDownload self) b vs pr) with
     | Ok r => returns_with self (fst r) (downloadedFiles self)
     | Raise e => get_data self = Raise e
     end) /\
  (module self = "merra2" ->
   match f (ApiMerra2 (toDownload self) (file_granularity wc)
              (downloadedFiles self)) with
   | Ok r => returns_with self (fst r) (snd r)
   | Raise e => get_data self = Raise e
   end) /\
  (module self <> "era5" -> module self <> "merra2" ->
   returns_with self (toDownload self) (downloadedFiles self)) /\
  (forall self',
     get_data self = Ok self' ->
     totalFiles self' = totalFiles self /\
     (downloadedFiles self' = totalFiles self' -> prepared self' = true) /\
     (downloadedFiles self' <> totalFiles self' ->
      prepared self' = prepared self)).
Proof.
  intros Hf wc. subst wc. split; [|split; [|split]].
  - intros Hm b vs pr Hb Hv Hp. unfold returns_with, get_data.
    rewrite Hf, Hm, Hb, Hv, Hp. cbn [getitem rbind].
    change (String.eqb "era5" "era5") with true. cbn iota.
    destruct (f _) as [r|e]; cbn [rbind]; [|reflexivity].
    case_bool_decide as Hd; (eexists; split; [reflexivity|]);
      cbn in Hd |- *; repeat split; tauto.
  - intros Hm. unfold returns_with, get_data. rewrite Hf, Hm. cbn [getitem rbind].
    change (String.eqb "merra2" "era5") with false.
    change (String.eqb "merra2" "merra2") with true. cbn iota.
    destruct (f _) as [r|e]; cbn [rbind]; [|reflexivity].
    case_bool_decide as Hd; (eexists; split; [reflexivity|]);
      cbn in Hd |- *; repeat split; tauto.
  - intros He Hm. unfold returns_with, get_data. rewrite Hf. cbn [getitem rbind].
    apply String.eqb_neq in He, Hm. rewrite He, Hm. cbn [rbind].
    case_bool_decide as Hd; (eexists; split; [reflexivity|]);
      cbn in Hd |- *; repeat split; tauto.
  - intros self'. unfold get_data. rewrite Hf. cbn [getitem rbind]. intros H.
    apply rbind_ok in H as (s1 & H1 & H).
    assert (E : totalFiles s1 = totalFiles self /\ prepared s1 = prepared self).
    { destruct (String.eqb (module self) "era5").
      - destruct (bounds self); [|discriminate].
        apply rbind_ok in H1 as (vs & _ & H1). apply rbind_ok in H1 as (pr & _ & H1).
        apply rbind_ok in H1 as (r & _ & [= <-]). split; reflexivity.
      - destruct (String.eqb (module self) "merra2").
        + apply rbind_ok in H1 as (r & _ & [= <-]). split; reflexivity.
        + injection H1 as <-. split; reflexivity. }
    destruct E as [Et Ep]. case_bool_decide as Hd; injection H as <-.
    + split; [exact Et|]. split; [reflexivity|]. intros Hne. now destruct Hne.
    + split; [exact Et|]. split; [intros He; now destruct Hd|]. intros _. exact Ep.
Qed.

Lemma get_data_prepared_witness :
  (exists self',
     get_data Sample.planned = Ok self' /\
     prepared Sample.planned = false /\
     prepared self' = true /\
     toDownload self' = [] /\
     downloadedFiles self' = totalFiles Sample.planned) /\
  (exists self',
     get_data (Sample.planned_with (Some Sample.download_none)) = Ok self' /\
     prepared self' = false /\
     downloadedFiles self' = [] /\
     length (toDownload self') = 1%nat).
Proof.
  split.
  - destruct (get_data_prepared Sample.planned Sample.download_all eq_refl)
      as (_ & Hm & _ & _).
    destruct (Hm eq_refl) as (self' & Hg & _ & Ht & Hd & _ & Hp & _).
    exists self'. split; [exact Hg|]. split; [reflexivity|].
    split; [apply Hp; reflexivity|]. split; [exact Ht | exact Hd].
  - destruct (get_data_prepared (Sample.planned_with (Some Sample.download_none))
                Sample.download_none eq_refl) as (_ & Hm & _ & _).
    destruct (Hm eq_refl) as (self' & Hg & _ & Ht & Hd & _ & _ & Hp).
    exists self'. split; [exact Hg|].
    split; [rewrite Hp; [reflexivity | discriminate]|].
    split; [exact Hd | rewrite Ht; reflexivity].
Defined.

(** ** The partition and the [prepared] flag *)

Lemma forallb_filter_negb {A} (f : A -> bool) (l : list A) :
  forallb f l = true <-> List.filter (fun a => negb (f a)) l = [].
Proof.
  induction l as [|a l IH]; cbn [forallb List.filter]; [tauto|].
  destruct (f a); cbn [negb andb]; [exact IH|]. split; discriminate.
Qed.

(** C2: the scan of the constructor splits [totalFiles] exactly.  The
    present files are the entries of [totalFiles] that are on disk, in order;
    the missing entries, without their acquisition fields, are the entries
    that are not; so every entry of [totalFiles] is in one of the two lists,
    nothing else is, and no entry is in both. *)
Theorem scan_partitions_total
    (sys_modules : gmap string dataset_module)
    (format_map : string -> gmap string Z -> result string)
    (isdir : string -> bool) (isfile : pyobj -> bool)
    (p : datasetparams) (log log' : list logrec) (self : Dataset) :
  Dataset_init sys_modules format_map isdir isfile p log = (Ok self, log') ->
  let present := downloadedFiles self in
  let missing := map task_artifact (toDownload self) in
  present = List.filter (fun a => isfile (snd a)) (totalFiles self) /\
  missing = List.filter (fun a => negb (isfile (snd a))) (totalFiles self) /\
  (forall a, In a (totalFiles self) <-> In a present \/ In a missing) /\
  (forall a, ~ (In a present /\ In a missing)).
Proof.
  intros H present missing. subst present missing.
  apply Dataset_init_spec in H as (names & _ & Ht & Hd & Hm & _).
  rewrite Ht, Hd, Hm, !filter_map_pair.
  rewrite <- !(filter_map_pair (config self)).
  split; [reflexivity|]. split; [reflexivity|]. split.
  - intros a. rewrite !filter_In. destruct (isfile (snd a)); cbn; tauto.
  - intros a. rewrite !filter_In. destruct (isfile (snd a)); cbn; intuition congruence.
Qed.

(** C1, as the code has it: after construction [prepared] is true if and
    only if the storage directory exists and no file is left to download. *)
Theorem prepared_iff_dir_and_none_missing
    (sys_modules : gmap string dataset_module)
    (format_map : string -> gmap string Z -> result string)
    (isdir : string -> bool) (isfile : pyobj -> bool)
    (p : datasetparams) (log log' : list logrec) (self : Dataset) :
  Dataset_init sys_modules format_map isdir isfile p log = (Ok self, log') ->
  (prepared self = true <-> isdir (datadir self) = true /\ toDownload self = []).
Proof.
  intros H. apply Dataset_init_spec in H as (names & _ & _ & _ & Hm & Hp).
  rewrite Hp, andb_true_iff, forallb_filter_negb.
  destruct (List.filter _ names) as [|f fs].
  - destruct (toDownload self); [tauto | discriminate].
  - destruct (toDownload self); [discriminate|]. split; intros [? ?]; discriminate.
Qed.

Lemma scan_partitions_total_witness :
  exists self log',
    Sample.construct ["/data/era5"] (firstn 5 Sample.era5_2020)
      (Sample.request "era5" "wind_solar_hourly" (Slice 2020 2020 None)
         (Slice 1 12 None) (Some (BoundsList [50; -10; 40; 5])))
    = (Ok self, log') /\
    length (downloadedFiles self) = 5%nat /\
    length (toDownload self) = 7%nat /\
    (forall a, In a (totalFiles self) <->
               In a (downloadedFiles self) \/
               In a (map task_artifact (toDownload self))) /\
    (forall a, ~ (In a (downloadedFiles self) /\
                  In a (map task_artifact (toDownload self)))).
Proof.
  destruct (Sample.construct _ _ _) as [[self|e] log'] eqn:H.
  - exists self, log'. split; [reflexivity|].
    destruct (scan_partitions_total _ _ _ _ _ _ _ _ H) as (_ & _ & Hu & Hi).
    vm_compute in H. injection H as <- _.
    split; [reflexivity|]. split; [reflexivity|]. split; assumption.
  - vm_compute in H. discriminate.
Defined.

(** C1 fails as stated: for a configuration of granularity ['yearly'] (the
    value line 68 tests for) and no storage directory, the constructor
    enumerates nothing, so nothing is missing, and [prepared] stays false. *)
Lemma prepared_iff_missing_empty_fails :
  exists self log',
    Sample.construct [] []
      (Sample.request "era5" "wind_solar_yearly" (Slice 2020 2020 None)
         (Slice 1 12 None) None)
    = (Ok self, log') /\
    ~ (prepared self = true <-> toDownload self = []).
Proof.
  destruct (Sample.construct _ _ _) as [[self|e] log'] eqn:H;
    vm_compute in H; [|discriminate].
  exists self, log'. split; [reflexivity|].
  injection H as <- _. cbn. intros [_ Hp]. discriminate (Hp eq_refl).
Qed.

(** The same with the five granularities, for a year range that is empty. *)
Example prepared_false_on_empty_range :
  exists self log',
    Sample.construct [] []
      (Sample.request "era5" "wind_solar_hourly" (Slice 2021 2020 None)
         (Slice 1 12 None) None)
    = (Ok self, log') /\
    prepared self = false /\ toDownload self = [].
Proof.
  destruct (Sample.construct _ _ _) as [[self|e] log'] eqn:H;
    vm_compute in H; [|discriminate].
  exists self, log'. split; [reflexivity|]. injection H as <- _. split; reflexivity.
Qed.

Lemma prepared_iff_dir_and_none_missing_witness :
  exists self log',
    Sample.construct ["/data/era5"] Sample.era5_2020
      (Sample.request "era5" "wind_solar_hourly" (Slice 2020 2020 None)
         (Slice 1 12 None) None)
    = (Ok self, log') /\
    length (totalFiles self) = 12%nat /\
    (prepared self = true <->
     Sample.isdir ["/data/era5"] (datadir self) = true /\ toDownload self = []).
Proof.
  destruct (Sample.construct _ _ _) as [[self|e] log'] eqn:H.
  - exists self, log'. split; [reflexivity|].
    pose proof (prepared_iff_dir_and_none_missing _ _ _ _ _ _ _ _ H) as Hiff.
    vm_compute in H. injection H as <- _. split; [reflexivity | exact Hiff].
  - vm_compute in H. discriminate.
Defined.

(** ** The bounds *)

Lemma resolve_bounds_rejects self0 p log0 :
  bounds_rejected (config self0) (p_bounds p) = true ->
  exists msg, resolve_bounds self0 p log0 = (Raise (ValueError msg), log0).
Proof.
  unfold bounds_rejected, resolve_bounds. destruct (p_bounds p) as [b|].
  - destruct b as [[|x1 [|y1 [|x2 [|y2 [|? ?]]]]]|l]; cbn;
      intros H; try discriminate; eexists; reflexivity.
  - intros ->. eexists; reflexivity.
Qed.

Lemma resolve_bounds_accepts self0 p log0 :
  bounds_rejected (config self0) (p_bounds p) = false ->
  exists self1 p1 log1, resolve_bounds self0 p log0 = (Ok (self1, p1), log1).
Proof.
  unfold bounds_rejected, resolve_bounds. destruct (p_bounds p) as [b|].
  - destruct b as [[|x1 [|y1 [|x2 [|y2 [|? ?]]]]]|l]; cbn;
      intros H; try discriminate; eexists _, _, _; reflexivity.
  - intros ->. eexists _, _, _; reflexivity.
Qed.

(** C5: once the required arguments are there, the bounds step raises
    [ValueError] (the configuration error of the constructor) exactly when
    [bounds] is given and is not a list of four elements, or is not given
    for the configuration ['modis_land_cover'], and the constructor then
    fails with that error; a constructor that returns was not in that case.
    When [bounds] is not given for another configuration, the step logs one
    warning, leaves the arguments as they are, and the constructor goes on
    to the scan: it returns, with no bounds set, when the months are legal
    where [monthrange] is called and the templates render. *)
Theorem bounds_rejection
    (sys_modules : gmap string dataset_module)
    (format_map : string -> gmap string Z -> result string)
    (isdir : string -> bool) (isfile : pyobj -> bool)
    (p : datasetparams) (log log0 : list logrec) (self0 : Dataset) :
  init_attributes sys_modules p log = (Ok self0, log0) ->
  let rejected :=
    (exists b, p_bounds p = Some b /\ is_list4 b = false) \/
    (p_bounds p = None /\ config self0 = modis_land_cover) in
  let init := Dataset_init sys_modules format_map isdir isfile in
  (rejected <->
   exists msg, resolve_bounds self0 p log0 = (Raise (ValueError msg), log0)) /\
  (forall e log1, resolve_bounds self0 p log0 = (Raise e, log1) -> rejected) /\
  (rejected -> exists msg, init p log = (Raise (ValueError msg), log0)) /\
  (forall self log', init p log = (Ok self, log') -> ~ rejected) /\
  (p_bounds p = None -> config self0 <> modis_land_cover ->
   resolve_bounds self0 p log0 = (Ok (self0, p), log0 ++ [LogWarn warn_global]) /\
   init p log = scan format_map isdir isfile self0 p (log0 ++ [LogWarn warn_global]) /\
   (forall self log', init p log = (Ok self, log') -> bounds self = None) /\
   let g := file_granularity (weatherconfig_of self0) in
   ((is_daily g = true ->
     is_ok (month_tuples (expand (years self0)) (expand (months self0))) = true) ->
    forallb (fun key => is_ok (filename_of format_map self0 key))
      (keys_of self0) = true ->
    (forall key f, In key (keys_of self0) ->
                   filename_of format_map self0 key = Ok f -> isfile f = false ->
                   is_ok (acq_of format_map g self0 f key) = true) ->
    exists self log', init p log = (Ok self, log'))).
Proof.
  intros H0 rejected init.
  assert (Hrej : rejected <-> bounds_rejected (config self0) (p_bounds p) = true).
  { subst rejected. unfold bounds_rejected. destruct (p_bounds p) as [b|].
    - rewrite negb_true_iff. split.
      + intros [(b' & [= <-] & Hb) | [? _]]; [exact Hb | discriminate].
      + intros Hb. left. eauto.
    - rewrite String.eqb_eq. split.
      + intros [(b' & ? & _) | [_ Hc]]; [discriminate | exact Hc].
      + intros Hc. right. auto. }
  assert (Hinit : forall r, resolve_bounds self0 p log0 = r ->
            init p log = match r with
                         | (Ok (self1, p1), log1) =>
                             scan format_map isdir isfile self1 p1 log1
                         | (Raise e, log1) => (Raise e, log1)
                         end).
  { intros r <-. subst init. unfold Dataset_init. unfold bind at 1. rewrite H0.
    unfold bind at 1. destruct (resolve_bounds self0 p log0) as [[[s1 p1]|e] l1];
      reflexivity. }
  assert (Hraise : forall e log1,
            resolve_bounds self0 p log0 = (Raise e, log1) -> rejected).
  { intros e log1 He. apply Hrej.
    destruct (bounds_rejected _ _) eqn:Hb; [reflexivity|].
    destruct (resolve_bounds_accepts self0 p log0 Hb) as (s1 & p1 & l1 & Hs).
    congruence. }
  split; [|split; [exact Hraise|split; [|split]]].
  - split.
    + intros Hb. apply Hrej in Hb. apply resolve_bounds_rejects, Hb.
    + intros (msg & He). eapply Hraise, He.
  - intros Hr. apply Hrej in Hr.
    destruct (resolve_bounds_rejects self0 p log0 Hr) as (msg & Hm).
    exists msg. now rewrite (Hinit _ Hm).
  - intros self log' H Hr. apply Hrej in Hr.
    destruct (resolve_bounds_rejects self0 p log0 Hr) as (msg & Hm).
    rewrite (Hinit _ Hm) in H. discriminate.
  - intros Hb Hc.
    assert (Hs : resolve_bounds self0 p log0
                 = (Ok (self0, p), log0 ++ [LogWarn warn_global])).
    { unfold resolve_bounds. rewrite Hb.
      apply String.eqb_neq in Hc. rewrite Hc. reflexivity. }
    split; [exact Hs|]. split; [exact (Hinit _ Hs)|]. split.
    + intros self log' H.
      pose proof (Dataset_init_req _ _ _ _ _ _ _ _ _ _ _ _ _ H0 Hs H) as Hr.
      apply init_attributes_fresh in H0 as (_ & _ & _ & _ & Hbn).
      unfold req in Hr. injection Hr as _ _ _ _ _ _ _ Hbs. congruence.
    + intros g Hm Hn Ha.
      exact (Dataset_init_total sys_modules format_map isdir isfile
               p log self0 log0 self0 p _ H0 Hs Hm Hn Ha).
Qed.

Lemma bounds_rejection_witness :
  (exists self0 log0,
     init_attributes Sample.sys_modules
       (Sample.request "era5" "wind_solar_hourly" (Slice 2020 2020 None)
          (Slice 1 12 None) (Some (BoundsTuple [50; -10; 40; 5]))) []
     = (Ok self0, log0) /\
     exists msg,
       Sample.construct [] []
         (Sample.request "era5" "wind_solar_hourly" (Slice 2020 2020 None)
            (Slice 1 12 None) (Some (BoundsTuple [50; -10; 40; 5])))
       = (Raise (ValueError msg), log0)) /\
  (exists self log',
     Sample.construct [] []
       (Sample.request "era5" "wind_solar_hourly" (Slice 2020 2020 None)
          (Slice 1 12 None) None)
     = (Ok self, log') /\
     bounds self = None /\ In (LogWarn warn_global) log').
Proof.
  split.
  - destruct (init_attributes _ _ _) as [[self0|e] log0] eqn:H.
    + exists self0, log0. split; [reflexivity|].
      destruct (bounds_rejection Sample.sys_modules Sample.format_map
                  (Sample.isdir []) (Sample.isfile []) _ _ _ _ H)
        as (_ & _ & Hfail & _).
      apply Hfail. left. eexists. split; reflexivity.
    + vm_compute in H. discriminate.
  - set (p := Sample.request "era5" "wind_solar_hourly" (Slice 2020 2020 None)
                (Slice 1 12 None) None).
    destruct (init_attributes Sample.sys_modules p []) as [[self0|e] log0] eqn:H;
      [|vm_compute in H; discriminate].
    destruct (bounds_rejection Sample.sys_modules Sample.format_map
                (Sample.isdir []) (Sample.isfile []) _ _ _ _ H)
      as (_ & _ & _ & _ & Habsent).
    destruct Habsent as (_ & _ & Hnone & Hreturns); [reflexivity | |].
    { vm_compute in H. injection H as <- _. discriminate. }
    destruct Hreturns as (self & log' & Hrun).
    { vm_compute in H. injection H as <- _. discriminate. }
    { vm_compute in H. injection H as <- _. vm_compute. reflexivity. }
    { vm_compute in H. injection H as <- _. intros key f Hin _ _.
      vm_compute in Hin.
      repeat destruct Hin as [<-|Hin]; try reflexivity. destruct Hin. }
    exists self, log'. split; [exact Hrun|]. split; [exact (Hnone _ _ Hrun)|].
    unfold Sample.construct in Hrun. fold p in Hrun.
    vm_compute in Hrun. injection Hrun as _ <-. cbn. tauto.
Defined.

(** ** Granularities without a branch *)

(** C9: when the granularity is none of the five that have a branch and
    the configuration is not ['modis_land_cover'], the constructor, once the
    required arguments and the bounds are accepted, returns with
    [totalFiles], [downloadedFiles] and [toDownload] empty and with
    [prepared] equal to whether the storage directory exists. *)
Theorem unknown_granularity_enumerates_nothing
    (sys_modules : gmap string dataset_module)
    (format_map : string -> gmap string Z -> result string)
    (isdir : string -> bool) (isfile : pyobj -> bool)
    (p : datasetparams) (log log0 : list logrec) (self0 : Dataset) :
  init_attributes sys_modules p log = (Ok self0, log0) ->
  bounds_rejected (config self0) (p_bounds p) = false ->
  ~ In (file_granularity (weatherconfig_of self0)) granularities ->
  config self0 <> modis_land_cover ->
  exists self log',
    Dataset_init sys_modules format_map isdir isfile p log = (Ok self, log') /\
    totalFiles self = [] /\ downloadedFiles self = [] /\ toDownload self = [] /\
    prepared self = isdir (datadir self).
Proof.
  intros H0 Hb Hg Hc.
  destruct (resolve_bounds_accepts self0 p log0 Hb) as (self1 & p1 & log1 & H1).
  pose proof (resolve_bounds_ok _ _ _ _ _ _ H1)
    as (_ & _ & _ & _ & Ec & Ew & _).
  assert (Hk : keys_of self1 = []).
  { unfold keys_of, artifact_keys, is_daily, is_monthly. rewrite Ew, Ec.
    apply String.eqb_neq in Hc. rewrite Hc.
    unfold granularities in Hg. cbn [In] in Hg.
    repeat match goal with
           | |- context [String.eqb ?a ?b] =>
               let E := fresh in
               destruct (String.eqb a b) eqn:E;
               [apply String.eqb_eq in E; exfalso; apply Hg; rewrite E; tauto|]
           end.
    reflexivity. }
  destruct (Dataset_init_total sys_modules format_map isdir isfile
              p log self0 log0 self1 p1 log1 H0 H1) as (self & log' & H).
  - intros Hd. exfalso. unfold is_daily in Hd. rewrite Ew in Hd.
    unfold granularities in Hg. cbn [In] in Hg.
    repeat match type of Hd with
           | context [String.eqb ?a ?b] =>
               let E := fresh in
               destruct (String.eqb a b) eqn:E;
               [apply String.eqb_eq in E; apply Hg; rewrite E; tauto|]
           end.
    discriminate.
  - rewrite Hk. reflexivity.
  - rewrite Hk. intros key f [].
  - exists self, log'. split; [exact H|].
    pose proof (Dataset_init_req _ _ _ _ _ _ _ _ _ _ _ _ _ H0 H1 H) as Hr.
    apply Dataset_init_spec in H as (names & Hn & Ht & Hd & Hm & Hp).
    rewrite (keys_of_req _ _ Hr), Hk in Hn. injection Hn as <-.
    cbn in Ht, Hd, Hm, Hp. rewrite andb_true_r in Hp.
    repeat split; try assumption. now destruct (toDownload self).
Qed.

Lemma unknown_granularity_enumerates_nothing_witness :
  exists self0 log0 self log',
    init_attributes Sample.sys_modules
      (Sample.request "era5" "wind_solar_yearly" (Slice 2020 2020 None)
         (Slice 1 12 None) None) []
    = (Ok self0, log0) /\
    Sample.construct ["/data/era5"] []
      (Sample.request "era5" "wind_solar_yearly" (Slice 2020 2020 None)
         (Slice 1 12 None) None)
    = (Ok self, log') /\
    totalFiles self = [] /\ downloadedFiles self = [] /\ toDownload self = [] /\
    prepared self = Sample.isdir ["/data/era5"] (datadir self).
Proof.
  destruct (init_attributes _ _ _) as [[self0|e] log0] eqn:H.
  - exists self0, log0.
    destruct (unknown_granularity_enumerates_nothing Sample.sys_modules
                Sample.format_map (Sample.isdir ["/data/era5"]) (Sample.isfile [])
                _ _ _ _ H)
      as (self & log' & Hrun & Hrest).
    + vm_compute in H. injection H as <- _. reflexivity.
    + vm_compute in H. injection H as <- _. cbn.
      intros Hin. repeat destruct Hin as [Hin|Hin]; try discriminate; exact Hin.
    + vm_compute in H. injection H as <- _. discriminate.
    + exists self, log'. split; [reflexivity|]. split; [exact Hrun | exact Hrest].
  - vm_compute in H. discriminate.
Defined.

(** ** Enumeration *)

(** The files of the object that the constructor returns are the renderings
    of the keys of the request, in the order of the keys. *)
Lemma enumeration_of_keys
    (sys_modules : gmap string dataset_module)
    (format_map : string -> gmap string Z -> result string)
    (isdir : string -> bool) (isfile : pyobj -> bool)
    (p : datasetparams) (log log0 log1 log' : list logrec)
    (self0 self1 self : Dataset) (p1 : datasetparams) :
  init_attributes sys_modules p log = (Ok self0, log0) ->
  resolve_bounds self0 p log0 = (Ok (self1, p1), log1) ->
  Dataset_init sys_modules format_map isdir isfile p log = (Ok self, log') ->
  exists names,
    rmap (filename_of format_map self1) (keys_of self1) = Ok names /\
    totalFiles self = map (pair (config self1)) names.
Proof.
  intros H0 H1 H.
  pose proof (Dataset_init_req _ _ _ _ _ _ _ _ _ _ _ _ _ H0 H1 H) as Hr.
  apply Dataset_init_spec in H as (names & Hn & Ht & _).
  exists names. split.
  - rewrite <- (keys_of_req _ _ Hr), <- Hn. apply rmap_ext.
    intros key _. symmetry. apply filename_of_req, Hr.
  - now rewrite <- (req_config _ _ Hr).
Qed.

Lemma monthly_keys_nested (yrs mos : list Z) :
  monthly_keys yrs mos = flat_map (fun yr => map (fun mo => [yr; mo]) mos) yrs.
Proof.
  unfold monthly_keys, year_months.
  induction yrs as [|yr yrs IH]; [reflexivity|].
  cbn [flat_map]. rewrite map_app, IH, map_map. reflexivity.
Qed.

Lemma daily_keys_month (yr mo : Z) :
  daily_keys [yr] [mo] =
  map (fun day => [yr; mo; day])
    (map Z.of_nat (seq 1 (Z.to_nat (days_in_month yr mo)))).
Proof.
  unfold daily_keys, year_months. cbn [flat_map map app].
  now rewrite app_nil_r, range_from_one.
Qed.

Lemma daily_keys_nested (yrs mos : list Z) :
  daily_keys yrs mos =
  flat_map (fun yr => flat_map (fun mo => daily_keys [yr] [mo]) mos) yrs.
Proof.
  unfold daily_keys, year_months.
  induction yrs as [|yr yrs IH]; [reflexivity|].
  cbn [flat_map]. rewrite flat_map_app, IH. f_equal. clear IH.
  induction mos as [|mo mos IHm]; [reflexivity|].
  cbn [map flat_map app]. rewrite app_nil_r. f_equal. exact IHm.
Qed.



(** C7: for the granularity ['monthly'] the files of the object are the
    renderings of the keys (year, month), years outermost and months
    innermost; they are the same whatever the file system holds; the
    constructor returns when the templates render.  For the years
    [slice(2020, 2020)] and the months [slice(1, 12)] the keys are the twelve
    months of 2020, in order.  The keys of the daily granularities are ordered
    by year, then month, then day. *)
Theorem monthly_enumeration
    (sys_modules : gmap string dataset_module)
    (format_map : string -> gmap string Z -> result string)
    (isdir : string -> bool) (isfile : pyobj -> bool)
    (p : datasetparams) (log log0 log1 : list logrec)
    (self0 self1 : Dataset) (p1 : datasetparams) :
  init_attributes sys_modules p log = (Ok self0, log0) ->
  resolve_bounds self0 p log0 = (Ok (self1, p1), log1) ->
  file_granularity (weatherconfig_of self1) = "monthly" ->
  let init := Dataset_init sys_modules format_map in
  let yrs := expand (years self1) in
  let mos := expand (months self1) in
  (forall self log',
     init isdir isfile p log = (Ok self, log') ->
     exists names,
       rmap (filename_of format_map self1) (monthly_keys yrs mos) = Ok names /\
       totalFiles self = map (pair (config self1)) names) /\
  (forall isdir' isfile' self log' self' log'',
     init isdir isfile p log = (Ok self, log') ->
     init isdir' isfile' p log = (Ok self', log'') ->
     totalFiles self' = totalFiles self) /\
  (forallb (fun key => is_ok (filename_of format_map self1 key))
     (monthly_keys yrs mos) = true ->
   String.eqb (module self1) "era5" ||
   forallb (fun key => is_ok (url_of format_map self1 key))
     (monthly_keys yrs mos) = true ->
   exists self log', init isdir isfile p log = (Ok self, log')) /\
  monthly_keys yrs mos = flat_map (fun yr => map (fun mo => [yr; mo]) mos) yrs /\
  (forall ys ms,
     daily_keys ys ms =
     flat_map (fun yr => flat_map (fun mo => daily_keys [yr] [mo]) ms) ys) /\
  monthly_keys (expand (Slice 2020 2020 None)) (expand (Slice 1 12 None)) =
    [[2020; 1]; [2020; 2]; [2020; 3]; [2020; 4]; [2020; 5]; [2020; 6];
     [2020; 7]; [2020; 8]; [2020; 9]; [2020; 10]; [2020; 11]; [2020; 12]].
Proof.
  intros H0 H1 Hg init yrs mos.
  assert (Hk : keys_of self1 = monthly_keys yrs mos).
  { unfold keys_of, artifact_keys. now rewrite Hg. }
  split; [|split; [|split; [|split; [|split]]]].
  - intros self log' H. rewrite <- Hk. eapply enumeration_of_keys; eassumption.
  - intros isdir' isfile' self log' self' log'' H H'.
    destruct (enumeration_of_keys _ _ _ _ _ _ _ _ _ _ _ _ _ H0 H1 H)
      as (names & Hn & ->).
    destruct (enumeration_of_keys _ _ _ _ _ _ _ _ _ _ _ _ _ H0 H1 H')
      as (names' & Hn' & ->).
    congruence.
  - intros Hn Hu.
    apply (Dataset_init_total sys_modules format_map isdir isfile
             p log self0 log0 self1 p1 log1 H0 H1).
    + rewrite Hg. discriminate.
    + now rewrite Hk.
    + rewrite Hk, Hg. intros key f Hin _ _.
      unfold monthly_keys in Hin. apply in_map_iff in Hin as ([yr mo] & <- & Hin).
      unfold acq_of, acq_month, acq_monthly.
      cbn [String.eqb Ascii.eqb Bool.eqb orb].
      destruct (String.eqb (module self1) "era5"); [reflexivity|].
      cbn [orb] in Hu. rewrite forallb_forall in Hu.
      specialize (Hu [yr; mo]). unfold acq_url.
      destruct (url_of format_map self1 [yr; mo]); [reflexivity|].
      apply Hu. unfold monthly_keys. apply in_map_iff. exists (yr, mo). auto.
  - apply monthly_keys_nested.
  - apply daily_keys_nested.
  - reflexivity.
Qed.

Lemma monthly_enumeration_witness :
  exists self log',
    Sample.construct [] []
      (Sample.request "era5" "wind_solar_hourly" (Slice 2020 2020 None)
         (Slice 1 12 None) None)
    = (Ok self, log') /\
    length (totalFiles self) = 12%nat.
Proof.
  set (p := Sample.request "era5" "wind_solar_hourly" (Slice 2020 2020 None)
              (Slice 1 12 None) None).
  destruct (init_attributes Sample.sys_modules p []) as [[self0|e] log0] eqn:H0;
    [|vm_compute in H0; discriminate].
  destruct (resolve_bounds self0 p log0) as [[[self1 p1]|e] log1] eqn:H1;
    [|vm_compute in H0; injection H0 as <- <-; vm_compute in H1; discriminate].
  destruct (monthly_enumeration Sample.sys_modules Sample.format_map
              (Sample.isdir []) (Sample.isfile []) p [] log0 log1 self0 self1 p1
              H0 H1) as (Hfiles & _ & Hreturns & _).
  { vm_compute in H0. injection H0 as <- <-.
    vm_compute in H1. injection H1 as <- _ _. reflexivity. }
  destruct Hreturns as (self & log' & Hrun).
  { vm_compute in H0. injection H0 as <- <-.
    vm_compute in H1. injection H1 as <- _ _. vm_compute. reflexivity. }
  { vm_compute in H0. injection H0 as <- <-.
    vm_compute in H1. injection H1 as <- _ _. reflexivity. }
  exists self, log'. split; [exact Hrun|].
  destruct (Hfiles self log' Hrun) as (names & Hn & ->).
  rewrite length_map, (rmap_length _ _ _ Hn).
  vm_compute in H0. injection H0 as <- <-.
  vm_compute in H1. injection H1 as <- _ _. reflexivity.
Defined.

(** * Further properties of the constructor *)

(** ** The list of the files to download, entry by entry *)

Lemma rmap_ok_In {A B} (f : A -> result B) (l : list A) (bs : list B) (a : A) :
  rmap f l = Ok bs -> In a l -> exists b, f a = Ok b /\ In b bs.
Proof.
  revert bs. induction l as [|x l IH]; cbn [rmap In]; intros bs H Hin; [tauto|].
  apply rbind_ok in H as (b & Hb & H). apply rbind_ok in H as (bs' & Hbs & [= <-]).
  destruct Hin as [->|Hin].
  - exists b. split; [exact Hb | now left].
  - destruct (IH bs' Hbs Hin) as (b' & Hb' & Hin'). exists b'. split; [exact Hb' | now right].
Qed.

Lemma rmap_In_ok {A B} (f : A -> result B) (l : list A) (bs : list B) (b : B) :
  rmap f l = Ok bs -> In b bs -> exists a, In a l /\ f a = Ok b.
Proof.
  revert bs. induction l as [|x l IH]; cbn [rmap]; intros bs H Hin.
  - injection H as <-. destruct Hin.
  - apply rbind_ok in H as (b0 & Hb & H). apply rbind_ok in H as (bs' & Hbs & [= <-]).
    destruct Hin as [->|Hin].
    + exists x. split; [now left | exact Hb].
    + destruct (IH bs' Hbs Hin) as (a & Ha & Hfa). exists a. split; [now right | exact Hfa].
Qed.

Section PlanFacts.

Variable format_map : string -> gmap string Z -> result string.
Variable isfile : pyobj -> bool.

Local Abbreviation fname_of := (filename_of format_map).
Local Abbreviation scan_loop := (scan_keys format_map isfile).
Local Abbreviation entry_of := (plan_entry format_map isfile).

Lemma plan_entry_req acq self self' key :
  acq_frame acq -> req self' = req self ->
  entry_of acq self' key = entry_of acq self key.
Proof.
  intros Hfr Hr. unfold plan_entry. rewrite (filename_of_req _ _ _ _ Hr).
  destruct (fname_of self key) as [f|e]; [cbn [rbind]|reflexivity].
  now rewrite (Hfr _ _ _ _ Hr).
Qed.

(** One pass through the body, with the tuple and the counter. *)
Lemma check_file_exact cc f acq self n log self' n' log' :
  check_file isfile cc f acq (self, n) log = (Ok (self', n'), log') ->
  req self' = req self /\
  if isfile f then toDownload self' = toDownload self /\ n' = n
  else exists t, acq = Ok t /\ toDownload self' = toDownload self ++ [t] /\
                 n' = n + (if cc then 1 else 0).
Proof.
  intros H. unfold check_file in H. destruct (isfile f) eqn:Hf; cbn [negb] in H.
  - injection H as <- <- _. repeat split.
  - apply bind_ok in H as (m & log1 & Hm & H).
    apply bind_ok in H as (t & log2 & Ht & H).
    apply lift_ok in Ht as [-> ->]. injection H as <- <- _.
    split; [reflexivity|]. exists t. repeat split.
    destruct cc.
    + apply bind_ok in Hm as (u & l & _ & Hm). injection Hm as <- _. reflexivity.
    + injection Hm as <- _. lia.
Qed.

(** The loop appends to [toDownload] the tuples of the keys whose file is
    not on disk, in the order of the keys, and counts them when the
    directory exists. *)
Lemma scan_keys_exact acq cc keys :
  acq_frame acq ->
  forall self n log self' n' log',
    scan_loop acq cc keys (self, n) log = (Ok (self', n'), log') ->
    exists entries,
      rmap (entry_of acq self) keys = Ok entries /\
      toDownload self' = toDownload self ++ omap snd entries /\
      n' = n + (if cc then Z.of_nat (length (omap snd entries)) else 0).
Proof.
  intros Hfr. induction keys as [|key keys IH]; intros self n log self' n' log' H.
  - injection H as <- <- _. exists []. cbn. rewrite app_nil_r.
    split; [reflexivity|]. split; [reflexivity|]. destruct cc; lia.
  - unfold scan_keys in H. cbn [for_each] in H.
    apply bind_ok in H as ([s2 n2] & log2 & Hb & H).
    apply bind_ok in Hb as (f & log1 & Hf & Hb).
    apply lift_ok in Hf as [Hf ->]. cbn [fst] in Hf, Hb.
    apply check_file_exact in Hb as (Hr & Hb).
    apply IH in H as (entries & He & Ht & Hn).
    rewrite (rmap_ext _ (entry_of acq self)) in He
      by (intros; now apply plan_entry_req).
    cbn [rmap]. unfold plan_entry at 1. rewrite Hf. cbn [rbind].
    destruct (isfile f).
    + destruct Hb as [Ht2 ->]. exists ((f, None) :: entries).
      rewrite He. cbn [rbind]. split; [reflexivity|].
      cbn [omap snd option_bind mbind]. rewrite Ht, Ht2. auto.
    + destruct Hb as (t & Ha & Ht2 & ->). rewrite Ha. cbn [rbind].
      exists ((f, Some t) :: entries). rewrite He. cbn [rbind].
      split; [reflexivity|].
      change (omap snd ((f, Some t) :: entries)) with (t :: omap snd entries).
      rewrite Ht, Ht2, <- app_assoc. split; [reflexivity|].
      cbn [length]. destruct cc; lia.
Qed.

(** The loop returns when every pass can be computed. *)
Lemma scan_keys_returns acq cc keys self n log entries :
  acq_frame acq ->
  rmap (entry_of acq self) keys = Ok entries ->
  exists self' n' log', scan_loop acq cc keys (self, n) log = (Ok (self', n'), log').
Proof.
  intros Hfr He. apply scan_keys_total; [exact Hfr | |].
  - apply forallb_forall. intros key Hin.
    destruct (rmap_ok_In _ _ _ _ He Hin) as ([f o] & Hk & _).
    unfold plan_entry in Hk. destruct (fname_of self key); [reflexivity | discriminate].
  - intros key f Hin Hf Hi.
    destruct (rmap_ok_In _ _ _ _ He Hin) as ([f' o] & Hk & _).
    unfold plan_entry in Hk. rewrite Hf in Hk. cbn [rbind] in Hk. rewrite Hi in Hk.
    destruct (acq self f key); [reflexivity | discriminate].
Qed.

End PlanFacts.

Section InitPlan.

Variable sys_modules : gmap string dataset_module.
Variable format_map : string -> gmap string Z -> result string.
Variable isdir : string -> bool.
Variable isfile : pyobj -> bool.

Local Abbreviation init := (Dataset_init sys_modules format_map isdir isfile).
Local Abbreviation entry_of := (plan_entry format_map isfile).

Lemma scan_plan self p log self' log' :
  toDownload self = [] ->
  scan format_map isdir isfile self p log = (Ok self', log') ->
  req self' = req self /\
  exists entries,
    rmap (entry_of (acq_of format_map (file_granularity (weatherconfig_of self'))) self')
      (keys_of self') = Ok entries /\
    toDownload self' = omap snd entries /\
    exists l, log' = l ++ [final_record (isdir (datadir self')) self'].
Proof.
  intros Htd H. unfold scan in H.
  apply bind_ok in H as ([s1 cc] & l1 & H1 & H).
  apply bind_ok in H as ([s2 n2] & l2 & H2 & H).
  assert (Hs1 : req s1 = req self /\ toDownload s1 = [] /\ cc = isdir (datadir self)).
  { destruct (isdir (datadir self)); injection H1 as <- <- _; cbn; auto. }
  destruct Hs1 as (Hr1 & Htd1 & Hcc).
  pose proof (scan_files_months _ _ _ _ _ _ _ _ _ H2) as Hm.
  rewrite scan_files_keys in H2 by exact Hm. cbn [fst] in H2.
  pose proof (scan_keys_steps _ _ _ _ _ (acq_of_sound _ _) _ _ _ _ _ _ H2)
    as (names & _ & Hst).
  apply file_steps_facts in Hst as (Hr & _).
  apply scan_keys_exact in H2 as (entries & He & Ht & Hn); [|apply acq_of_frame].
  rewrite Htd1 in Ht. cbn [app] in Ht.
  assert (Hw : weatherconfig_of s2 = weatherconfig_of s1)
    by (unfold req in Hr; congruence).
  assert (Hd : datadir s2 = datadir self)
    by (rewrite (req_datadir _ _ Hr); apply req_datadir, Hr1).
  assert (Hfin : self' = s2 /\
                 exists l, log' = l ++ [final_record (isdir (datadir self)) s2]).
  { assert (Hn2 : n2 = if isdir (datadir self)
                         then Z.of_nat (length (toDownload s2)) else 0)
      by (rewrite Hn, Ht, <- Hcc; apply Z.add_0_l).
    rewrite Hn2 in H. unfold final_record.
    destruct (prepared s2); cbn [negb] in H.
    - injection H as <- <-. split; [reflexivity|]. eexists. reflexivity.
    - destruct (negb _); injection H as <- <-; (split; [reflexivity|]).
      + exists (l2 ++ [LogWarn warn_xs_ys]). reflexivity.
      + exists l2. reflexivity. }
  destruct Hfin as (-> & Hlog). split; [congruence|].
  exists entries. rewrite Hd, Hw. split; [|split; assumption].
  change (artifact_keys _ _ _ _) with (keys_of s1) in He.
  rewrite (keys_of_req _ _ Hr).
  rewrite <- He. apply rmap_ext. intros key _.
  apply plan_entry_req; [apply acq_of_frame | exact Hr].
Qed.

(** The list [toDownload] of the object that the constructor returns, and
    the record it logs last. *)
Lemma Dataset_init_plan p log self log' :
  init p log = (Ok self, log') ->
  exists entries,
    rmap (entry_of (acq_of format_map (file_granularity (weatherconfig_of self))) self)
      (keys_of self) = Ok entries /\
    toDownload self = omap snd entries /\
    exists l, log' = l ++ [final_record (isdir (datadir self)) self].
Proof.
  intros H. apply Dataset_init_stages in H as (s0 & l0 & s1 & p1 & l1 & H0 & H1 & H).
  apply init_attributes_fresh in H0 as (_ & Htd & _).
  apply resolve_bounds_ok in H1 as (_ & Htd1 & _).
  apply scan_plan in H as (_ & H); [exact H | congruence].
Qed.

(** Every entry of [toDownload] is the tuple of a key of the request whose
    file is not on disk. *)
Lemma Dataset_init_tasks p log self log' t :
  init p log = (Ok self, log') ->
  In t (toDownload self) ->
  exists key f,
    In key (keys_of self) /\
    filename_of format_map self key = Ok f /\ isfile f = false /\
    acq_of format_map (file_granularity (weatherconfig_of self)) self f key = Ok t.
Proof.
  intros H Hin. apply Dataset_init_plan in H as (entries & He & Ht & _).
  rewrite Ht in Hin. apply list_elem_of_In, list_elem_of_omap in Hin as ([f o] & Hin & Ho).
  cbn [snd] in Ho. subst o. apply list_elem_of_In in Hin.
  destruct (rmap_In_ok _ _ _ _ He Hin) as (key & Hk & Hpe).
  exists key, f. split; [exact Hk|]. unfold plan_entry in Hpe.
  destruct (filename_of format_map self key) as [f'|e]; [cbn [rbind] in Hpe|discriminate].
  destruct (isfile f') eqn:Hf; [discriminate|].
  apply rbind_ok in Hpe as (t' & Ha & [= <- <-]). auto.
Qed.

End InitPlan.

(** ** The arguments of the constructor *)

Lemma init_attributes_echo sys_modules p log self0 log0 :
  init_attributes sys_modules p log = (Ok self0, log0) ->
  p_module p = Some (module self0) /\
  p_weather_data_config p = Some (config self0) /\
  sys_modules !! ("geodata.datasets." +:+ module self0)
    = Some (dataset_module_of self0) /\
  weather_data_config (dataset_module_of self0) !! config self0
    = Some (weatherconfig_of self0) /\
  datadir self0 = mod_datadir (dataset_module_of self0) /\
  p_years p = Some (years self0) /\
  months self0 = default (Slice 1 12 None) (p_months p).
Proof.
  unfold init_attributes. intros H.
  destruct (p_module p) as [m|]; [|discriminate].
  destruct (p_weather_data_config p) as [c|]; [|discriminate].
  apply bind_ok in H as (dm & l1 & Hdm & H). apply lift_ok in Hdm as [Hdm ->].
  apply bind_ok in H as (wc & l2 & Hwc & H). apply lift_ok in Hwc as [Hwc ->].
  apply bind_ok in H as (u & l3 & _ & H).
  destruct (p_years p) as [ys|]; [|discriminate].
  apply bind_ok in H as (ms & l4 & Hms & H). injection H as <- _. cbn.
  destruct (sys_modules !! _) as [dm'|]; [|discriminate]. injection Hdm as ->.
  destruct (weather_data_config dm !! c) as [wc'|]; [|discriminate]. injection Hwc as ->.
  repeat split. destruct (p_months p) as [ms'|]; cbn.
  - now injection Hms as <- _.
  - apply bind_ok in Hms as (u' & l5 & _ & Hms). now injection Hms as <- _.
Qed.

Lemma resolve_bounds_frame self0 p log0 self1 p1 log1 :
  resolve_bounds self0 p log0 = (Ok (self1, p1), log1) ->
  module self1 = module self0 /\ config self1 = config self0 /\
  dataset_module_of self1 = dataset_module_of self0 /\
  weatherconfig_of self1 = weatherconfig_of self0 /\
  datadir self1 = datadir self0 /\ years self1 = years self0 /\
  months self1 = months self0 /\
  bounds self1 = match p_bounds p with Some b => Some b | None => bounds self0 end /\
  (forall b, p_bounds p = Some b -> is_list4 b = true).
Proof.
  unfold resolve_bounds. intros H. destruct (p_bounds p) as [b|].
  - destruct b as [[|x1 [|y1 [|x2 [|y2 [|? ?]]]]]|l]; try discriminate.
    injection H as <- _ _. repeat split. now intros b [= <-].
  - destruct (String.eqb _ _); [discriminate|].
    injection H as <- _ _. repeat split. discriminate.
Qed.

(** X1: the object that the constructor returns carries the request as it
    was given: the module and the configuration found in their tables, the
    years, the months or [slice(1, 12)] when none are given, and the bounds,
    which are a list of four elements when given.  Its directory is the one
    of the module, whatever [datadir] the caller passed. *)
Theorem constructed_object_echoes_request
    (sys_modules : gmap string dataset_module)
    (format_map : string -> gmap string Z -> result string)
    (isdir : string -> bool) (isfile : pyobj -> bool)
    (p : datasetparams) (log log' : list logrec) (self : Dataset) :
  Dataset_init sys_modules format_map isdir isfile p log = (Ok self, log') ->
  p_module p = Some (module self) /\
  p_weather_data_config p = Some (config self) /\
  sys_modules !! ("geodata.datasets." +:+ module self)
    = Some (dataset_module_of self) /\
  weather_data_config (dataset_module_of self) !! config self
    = Some (weatherconfig_of self) /\
  datadir self = mod_datadir (dataset_module_of self) /\
  p_years p = Some (years self) /\
  months self = default (Slice 1 12 None) (p_months p) /\
  bounds self = p_bounds p /\
  (forall b, p_bounds p = Some b -> is_list4 b = true).
Proof.
  intros H.
  pose proof (Dataset_init_stages _ _ _ _ _ _ _ _ H)
    as (s0 & l0 & s1 & p1 & l1 & H0 & H1 & _).
  pose proof (Dataset_init_req _ _ _ _ _ _ _ _ _ _ _ _ _ H0 H1 H) as Hr.
  pose proof (init_attributes_fresh _ _ _ _ _ H0) as (_ & _ & _ & _ & Hb0).
  apply init_attributes_echo in H0 as (Em & Ec & Es & Ew & Ed & Ey & Emo).
  apply resolve_bounds_frame in H1 as (Fm & Fc & Fd & Fw & Fdd & Fy & Fmo & Fb & F4).
  unfold req in Hr. injection Hr as -> -> -> -> -> -> -> ->.
  rewrite Fm, Fc, Fd, Fw, Fdd, Fy, Fmo, Fb.
  repeat split; try assumption. destruct (p_bounds p); congruence.
Qed.

Lemma constructed_object_echoes_request_witness :
  exists self log',
    Sample.construct [] []
      (Sample.request "era5" "wind_solar_hourly" (Slice 2019 2020 None)
         (Slice 3 4 None) (Some (BoundsList [50; -10; 40; 5])))
    = (Ok self, log') /\
    datadir self = mod_datadir (dataset_module_of self) /\
    Some (Slice 2019 2020 None) = Some (years self) /\
    bounds self = Some (BoundsList [50; -10; 40; 5]).
Proof.
  destruct (Sample.construct _ _ _) as [[self|e] log'] eqn:H.
  - exists self, log'. split; [reflexivity|].
    destruct (constructed_object_echoes_request _ _ _ _ _ _ _ _ H)
      as (_ & _ & _ & _ & Hd & Hy & _ & Hb & _).
    split; [exact Hd|]. split; [exact Hy | exact Hb].
  - vm_compute in H. discriminate.
Defined.

(** X2: what the constructor raises for the arguments it requires, in the
    order it checks them: [ValueError] without [module], then without
    [weather_data_config]; [KeyError] for a module that is not loaded, then
    for a configuration the module does not have; [ValueError] without
    [years].  Nothing is logged before the first four, and the file system
    is not consulted. *)
Theorem required_arguments
    (sys_modules : gmap string dataset_module)
    (format_map : string -> gmap string Z -> result string)
    (isdir : string -> bool) (isfile : pyobj -> bool)
    (p : datasetparams) (log : list logrec) :
  let outcome := Dataset_init sys_modules format_map isdir isfile p log in
  (p_module p = None -> outcome = (Raise (ValueError msg_module), log)) /\
  (forall m, p_module p = Some m -> p_weather_data_config p = None ->
             outcome = (Raise (ValueError msg_config), log)) /\
  (forall m c, p_module p = Some m -> p_weather_data_config p = Some c ->
               sys_modules !! ("geodata.datasets." +:+ m) = None ->
               outcome = (Raise (KeyError ("geodata.datasets." +:+ m)), log)) /\
  (forall m c dm, p_module p = Some m -> p_weather_data_config p = Some c ->
                  sys_modules !! ("geodata.datasets." +:+ m) = Some dm ->
                  weather_data_config dm !! c = None ->
                  outcome = (Raise (KeyError c), log)) /\
  (forall m c dm wc, p_module p = Some m -> p_weather_data_config p = Some c ->
                     sys_modules !! ("geodata.datasets." +:+ m) = Some dm ->
                     weather_data_config dm !! c = Some wc ->
                     p_years p = None ->
                     exists log', outcome = (Raise (ValueError msg_years), log')).
Proof.
  cbn zeta. unfold Dataset_init, init_attributes.
  split; [|split; [|split; [|split]]].
  - intros ->. reflexivity.
  - intros m -> ->. reflexivity.
  - intros m c -> -> Hs. unfold bind at 1 2. unfold lift at 1. now rewrite Hs.
  - intros m c dm -> -> Hs Hc. unfold bind at 1 2. unfold lift at 1. rewrite Hs.
    cbn [getitem]. unfold bind at 1. unfold lift at 1. now rewrite Hc.
  - intros m c dm wc -> -> Hs Hc ->. unfold bind at 1 2. unfold lift at 1. rewrite Hs.
    cbn [getitem]. unfold bind at 1. unfold lift at 1. rewrite Hc. cbn [getitem].
    unfold bind at 1. destruct (p_datadir p); eexists; reflexivity.
Qed.

(** ** The templater *)

(** X3: a value that [datasetfn] returns is [False], and then the number of
    temporal keys is not 1, 2 or 3, or it is a [str], and then it is. *)
Theorem datasetfn_returns_false_or_str
    (format_map : string -> gmap string Z -> result string)
    (dm : dataset_module) (fn : template) (args : list Z) (v : pyobj) :
  datasetfn format_map dm fn args = Ok v ->
  (v = PyBool false /\ (length args = 0 \/ 3 < length args)%nat) \/
  (exists s, v = PyStr s /\ (1 <= length args <= 3)%nat).
Proof.
  unfold datasetfn. intros H.
  destruct (dataset_of_args args) as [d|] eqn:Hd.
  - right. apply rbind_ok in H as (d' & _ & H). destruct fn as [s|l]; [|discriminate].
    apply rbind_ok in H as (r & _ & [= <-]). exists r. split; [reflexivity|].
    destruct args as [|a0 [|a1 [|a2 [|a3 args]]]]; cbn in *; try discriminate; lia.
  - left. injection H as <-. split; [reflexivity|].
    destruct args as [|a0 [|a1 [|a2 [|a3 args]]]]; cbn in *; try discriminate; lia.
Qed.

Lemma datasetfn_returns_false_or_str_witness :
  exists v,
    datasetfn Sample.format_map Sample.merra2
      (TStr "MERRA2_{spinup}.{year}{month:0>2}{day:0>2}.nc4") [1995; 7; 4] = Ok v /\
    exists s, v = PyStr s /\ (1 <= length [1995; 7; 4] <= 3)%nat.
Proof.
  destruct (datasetfn _ _ _ _) as [v|e] eqn:H.
  - exists v. split; [reflexivity|].
    destruct (datasetfn_returns_false_or_str _ _ _ _ _ H) as [[-> _]|Hs].
    + vm_compute in H. discriminate.
    + exact Hs.
  - vm_compute in H. discriminate.
Defined.

Lemma datasetfn_str
    (format_map : string -> gmap string Z -> result string)
    (dm : dataset_module) (fn : template) (args : list Z) (v : pyobj) :
  (1 <= length args <= 3)%nat ->
  datasetfn format_map dm fn args = Ok v -> exists s, v = PyStr s.
Proof.
  unfold datasetfn. intros Hl H.
  destruct (dataset_of_args args) as [d|] eqn:Hd.
  - apply rbind_ok in H as (d' & _ & H). destruct fn as [s|l]; [|discriminate].
    apply rbind_ok in H as (r & _ & [= <-]). eauto.
  - destruct args as [|a0 [|a1 [|a2 [|a3 args]]]]; cbn in *; try discriminate; lia.
Qed.

Lemma keys_of_arity (self : Dataset) (key : list Z) :
  In key (keys_of self) -> (1 <= length key <= 3)%nat.
Proof.
  unfold keys_of, artifact_keys, daily_keys, monthly_keys, yearly_keys.
  destruct (is_daily _).
  { intros Hin. apply in_flat_map in Hin as ([yr mo] & _ & Hin).
    apply in_map_iff in Hin as (d & <- & _). cbn. lia. }
  destruct (is_monthly _).
  { intros Hin. apply in_map_iff in Hin as ([yr mo] & <- & _). cbn. lia. }
  destruct (String.eqb _ _).
  { intros Hin. apply in_map_iff in Hin as (yr & <- & _). cbn. lia. }
  intros [].
Qed.

(** X4: when the constructor returns, the file name of every key it
    enumerated was rendered to a [str] (a template that fails on one key
    leaves no object), and every entry of [totalFiles] is the name of the
    configuration paired with such a [str]. *)
Theorem enumerated_files_are_rendered
    (sys_modules : gmap string dataset_module)
    (format_map : string -> gmap string Z -> result string)
    (isdir : string -> bool) (isfile : pyobj -> bool)
    (p : datasetparams) (log log' : list logrec) (self : Dataset) :
  Dataset_init sys_modules format_map isdir isfile p log = (Ok self, log') ->
  (forall key, In key (keys_of self) ->
               exists s, filename_of format_map self key = Ok (PyStr s)) /\
  (forall a, In a (totalFiles self) ->
             exists key s, In key (keys_of self) /\
                           filename_of format_map self key = Ok (PyStr s) /\
                           a = (config self, PyStr s)).
Proof.
  intros H. apply Dataset_init_spec in H as (names & Hn & Ht & _). split.
  - intros key Hin. destruct (rmap_ok_In _ _ _ _ Hn Hin) as (f & Hf & _).
    destruct (datasetfn_str _ _ _ _ _ (keys_of_arity _ _ Hin) Hf) as (s & ->). eauto.
  - intros a Hin. rewrite Ht in Hin. apply in_map_iff in Hin as (f & <- & Hin).
    destruct (rmap_In_ok _ _ _ _ Hn Hin) as (key & Hk & Hf).
    destruct (datasetfn_str _ _ _ _ _ (keys_of_arity _ _ Hk) Hf) as (s & ->). eauto.
Qed.

Lemma enumerated_files_are_rendered_witness :
  exists self log',
    Sample.construct [] []
      (Sample.request "era5" "wind_solar_hourly" (Slice 2020 2020 None)
         (Slice 1 2 None) None)
    = (Ok self, log') /\
    exists s, filename_of Sample.format_map self [2020; 2] = Ok (PyStr s).
Proof.
  destruct (Sample.construct _ _ _) as [[self|e] log'] eqn:H.
  - exists self, log'. split; [reflexivity|].
    destruct (enumerated_files_are_rendered _ _ _ _ _ _ _ _ H) as (Hk & _).
    apply Hk. vm_compute in H. injection H as <- _. vm_compute. tauto.
  - vm_compute in H. discriminate.
Defined.

(** ** Range expansion *)

Lemma In_range_up (lo hi st z : Z) :
  0 < st ->
  In z (range lo hi st) <-> lo <= z < hi /\ (z - lo) mod st = 0.
Proof.
  intros Hst. unfold range, range_len.
  destruct (Z.ltb_spec 0 st) as [_|?]; [|lia].
  rewrite in_map_iff. split.
  - intros (k & <- & Hin). apply in_seq in Hin.
    destruct (Z.ltb_spec lo hi) as [Hlt|Hge]; [|cbn in Hin; lia].
    assert (Hk : Z.of_nat k <= (hi - lo - 1) / st) by lia.
    assert (Hm : st * ((hi - lo - 1) / st) <= hi - lo - 1)
      by (apply Z.mul_div_le; lia).
    split; [nia|].
    replace (lo + Z.of_nat k * st - lo) with (Z.of_nat k * st) by lia.
    apply Z_mod_mult.
  - intros [[Hlo Hhi] Hmod].
    apply Z.mod_divide in Hmod as [q Hq]; [|lia].
    assert (Hq0 : 0 <= q) by nia.
    exists (Z.to_nat q). split; [rewrite Z2Nat.id by lia; lia|].
    apply in_seq. destruct (Z.ltb_spec lo hi) as [Hlt|Hge]; [|lia].
    assert (Hle : q <= (hi - lo - 1) / st).
    { apply Z.div_le_lower_bound; [lia | nia]. }
    lia.
Qed.

Lemma range_NoDup (lo hi st : Z) : st <> 0 -> NoDup (range lo hi st).
Proof.
  intros Hst. unfold range.
  change (NoDup ((fun k => lo + Z.of_nat k * st) <$>
                 seq 0 (Z.to_nat (range_len lo hi st)))).
  apply NoDup_fmap_2; [|apply NoDup_seq].
  intros a b Hab. nia.
Qed.

Lemma slice_step_nonzero (s : slice) : slice_step s <> 0.
Proof.
  unfold slice_step. destruct (step s) as [z|]; [|lia].
  destruct (Z.eqb_spec z 0); lia.
Qed.

(** X5: with a positive step the constructor iterates exactly the values
    [start + k * step] that are at least [start] and below [stop + step],
    each once.  So [stop] itself is visited exactly when [start <= stop] and
    the step divides [stop - start], and no value visited exceeds [stop] by a
    full step. *)
Theorem expand_positive_step (s : slice) :
  0 < slice_step s ->
  (forall z, In z (expand s) <->
             start s <= z < stop s + slice_step s /\
             (z - start s) mod slice_step s = 0) /\
  (In (stop s) (expand s) <->
   start s <= stop s /\ (stop s - start s) mod slice_step s = 0) /\
  (forall z, In z (expand s) -> z - stop s < slice_step s) /\
  NoDup (expand s).
Proof.
  intros Hst.
  assert (Hin : forall z, In z (expand s) <->
                          start s <= z < stop s + slice_step s /\
                          (z - start s) mod slice_step s = 0)
    by (intros z; apply In_range_up, Hst).
  split; [exact Hin|]. split; [|split].
  - rewrite Hin. intuition lia.
  - intros z Hz. apply Hin in Hz. lia.
  - apply range_NoDup, slice_step_nonzero.
Qed.

Lemma expand_positive_step_witness :
  0 < slice_step (Slice 2000 2010 (Some 5)) /\
  (In 2010 (expand (Slice 2000 2010 (Some 5))) <->
   2000 <= 2010 /\ (2010 - 2000) mod 5 = 0).
Proof.
  split; [reflexivity|].
  exact (proj1 (proj2 (expand_positive_step (Slice 2000 2010 (Some 5)) eq_refl))).
Defined.

(** X6: when the step is not given, or is 0 or 1, the constructor iterates
    exactly the integers from [start] to [stop], both included, in
    increasing order; nothing when [stop < start]. *)
Theorem expand_default_step (s : slice) :
  step s = None \/ step s = Some 0 \/ step s = Some 1 ->
  expand s = map (fun k => start s + Z.of_nat k)
               (seq 0 (Z.to_nat (stop s - start s + 1))) /\
  (forall z, In z (expand s) <-> start s <= z <= stop s) /\
  length (expand s) = Z.to_nat (stop s - start s + 1).
Proof.
  intros Hs.
  assert (H1 : slice_step s = 1).
  { unfold slice_step. destruct Hs as [->|[->| ->]]; reflexivity. }
  assert (He : expand s = map (fun k => start s + Z.of_nat k)
                             (seq 0 (Z.to_nat (stop s - start s + 1)))).
  { unfold expand, range, range_len. rewrite H1. cbn [Z.ltb Z.compare].
    replace (Z.to_nat (if start s <? stop s + 1
                       then (stop s + 1 - start s - 1) / 1 + 1 else 0))
      with (Z.to_nat (stop s - start s + 1)).
    - apply map_ext. intros k. lia.
    - destruct (Z.ltb_spec (start s) (stop s + 1)).
      + rewrite Z.div_1_r. f_equal. lia.
      + lia. }
  split; [exact He|]. split.
  - intros z. unfold expand. rewrite In_range_up, H1 by (rewrite H1; lia).
    rewrite Z.mod_1_r. lia.
  - rewrite He, length_map, length_seq. reflexivity.
Qed.

Lemma expand_default_step_witness :
  (step (Slice 1 12 None) = None \/ step (Slice 1 12 None) = Some 0 \/
   step (Slice 1 12 None) = Some 1) /\
  length (expand (Slice 1 12 None)) = Z.to_nat (12 - 1 + 1).
Proof.
  split; [left; reflexivity|].
  exact (proj2 (proj2 (expand_default_step (Slice 1 12 None) (or_introl eq_refl)))).
Defined.

(** ** Distinct keys *)

Lemma NoDup_flat_map {A B} (f : A -> list B) (l : list A) :
  NoDup l ->
  (forall a, In a l -> NoDup (f a)) ->
  (forall a b x, In a l -> In b l -> In x (f a) -> In x (f b) -> a = b) ->
  NoDup (flat_map f l).
Proof.
  induction 1 as [|a l Hnotin Hnd IH]; cbn [flat_map]; intros Hf Hdisj.
  - constructor.
  - apply NoDup_app. split; [apply Hf; now left|]. split.
    + intros x Hx Hx'. apply list_elem_of_In in Hx, Hx'.
      apply in_flat_map in Hx' as (b & Hb & Hxb).
      assert (a = b) by (apply (Hdisj a b x); auto; [now left | now right]).
      subst b. apply Hnotin, list_elem_of_In, Hb.
    + apply IH.
      * intros b Hb. apply Hf. now right.
      * intros b c x Hb Hc. apply Hdisj; now right.
Qed.

Lemma NoDup_map_inj {A B} (f : A -> B) (l : list A) :
  (forall a b, f a = f b -> a = b) -> NoDup l -> NoDup (map f l).
Proof.
  intros Hinj Hl. change (NoDup (f <$> l)). apply NoDup_fmap_2; [|exact Hl].
  intros a b. apply Hinj.
Qed.

Lemma year_months_NoDup (yrs mos : list Z) :
  NoDup yrs -> NoDup mos -> NoDup (year_months yrs mos).
Proof.
  intros Hy Hm. unfold year_months. apply NoDup_flat_map; [exact Hy| |].
  - intros yr _. apply NoDup_map_inj; [congruence | exact Hm].
  - intros a b [y m] _ _ Ha Hb.
    apply in_map_iff in Ha as (? & [= <- _] & _).
    apply in_map_iff in Hb as (? & [= <- _] & _). reflexivity.
Qed.

Lemma artifact_keys_NoDup (g cfg : string) (yrs mos : list Z) :
  NoDup yrs -> NoDup mos -> NoDup (artifact_keys g cfg yrs mos).
Proof.
  intros Hy Hm. unfold artifact_keys.
  destruct (is_daily g).
  { unfold daily_keys. apply NoDup_flat_map; [now apply year_months_NoDup| |].
    - intros [yr mo] _. apply NoDup_map_inj; [congruence|].
      apply range_NoDup. lia.
    - intros [y1 m1] [y2 m2] x _ _ H1 H2.
      apply in_map_iff in H1 as (? & <- & _).
      apply in_map_iff in H2 as (? & [= <- <- _] & _). reflexivity. }
  destruct (is_monthly g).
  { unfold monthly_keys. apply NoDup_map_inj; [|now apply year_months_NoDup].
    intros [y1 m1] [y2 m2]. congruence. }
  destruct (String.eqb cfg modis_land_cover).
  { unfold yearly_keys. apply NoDup_map_inj; [congruence | exact Hy]. }
  constructor.
Qed.

Lemma rmap_NoDup {A B} (f : A -> result B) (l : list A) (bs : list B) :
  rmap f l = Ok bs -> NoDup l ->
  (forall a b, In a l -> In b l -> f a = f b -> a = b) ->
  NoDup bs.
Proof.
  revert bs. induction l as [|a l IH]; cbn [rmap]; intros bs H Hl Hinj.
  - injection H as <-. constructor.
  - apply rbind_ok in H as (b & Hb & H). apply rbind_ok in H as (bs' & Hbs & [= <-]).
    apply NoDup_cons in Hl as [Hnotin Hl]. apply NoDup_cons. split.
    + intros Hin. apply list_elem_of_In in Hin.
      destruct (rmap_In_ok _ _ _ _ Hbs Hin) as (a' & Ha' & Hfa').
      assert (a = a') by (apply Hinj; [now left | now right | congruence]).
      subst a'. apply Hnotin, list_elem_of_In, Ha'.
    + apply (IH bs' Hbs Hl). intros x y Hx Hy. apply Hinj; now right.
Qed.

(** X7: the constructor enumerates no temporal key twice; so when no two
    keys of the request render to the same file name, no file is listed
    twice in [totalFiles]. *)
Theorem enumerated_keys_distinct
    (sys_modules : gmap string dataset_module)
    (format_map : string -> gmap string Z -> result string)
    (isdir : string -> bool) (isfile : pyobj -> bool)
    (p : datasetparams) (log log' : list logrec) (self : Dataset) :
  Dataset_init sys_modules format_map isdir isfile p log = (Ok self, log') ->
  NoDup (keys_of self) /\
  ((forall k1 k2, In k1 (keys_of self) -> In k2 (keys_of self) ->
                  filename_of format_map self k1 = filename_of format_map self k2 ->
                  k1 = k2) ->
   NoDup (totalFiles self)).
Proof.
  intros H.
  assert (Hk : NoDup (keys_of self)).
  { apply artifact_keys_NoDup; apply range_NoDup, slice_step_nonzero. }
  split; [exact Hk|]. intros Hinj.
  apply Dataset_init_spec in H as (names & Hn & -> & _).
  apply NoDup_map_inj; [congruence|]. exact (rmap_NoDup _ _ _ Hn Hk Hinj).
Qed.

Lemma enumerated_keys_distinct_witness :
  exists self log',
    Sample.construct [] []
      (Sample.request "merra2" "surface_flux_hourly" (Slice 2019 2020 None)
         (Slice 1 12 None) None)
    = (Ok self, log') /\
    NoDup (keys_of self).
Proof.
  destruct (Sample.construct _ _ _) as [[self|e] log'] eqn:H.
  - exists self, log'. split; [reflexivity|].
    exact (proj1 (enumerated_keys_distinct _ _ _ _ _ _ _ _ H)).
  - vm_compute in H. discriminate.
Defined.

(** ** The shape of the entries of [toDownload] *)

Lemma no_branch (g : string) :
  ~ In g granularities ->
  String.eqb g "daily" = false /\ String.eqb g "dailymeans" = false /\
  String.eqb g "daily_multiple" = false /\ String.eqb g "monthly" = false /\
  String.eqb g "monthly_multiple" = false.
Proof.
  unfold granularities. cbn [In]. intros Hg.
  repeat split; apply String.eqb_neq; intros ->; apply Hg; tauto.
Qed.

Lemma url_index_of_str format_map self i key v :
  (1 <= length key <= 3)%nat ->
  url_index_of format_map self i key = Ok v -> exists s, v = PyStr s.
Proof.
  unfold url_index_of. intros Hl H. apply rbind_ok in H as (u & _ & H).
  apply rbind_ok in H as (ui & _ & H). exact (datasetfn_str _ _ _ _ _ Hl H).
Qed.

Lemma url_of_str format_map self key v :
  (1 <= length key <= 3)%nat ->
  url_of format_map self key = Ok v -> exists s, v = PyStr s.
Proof.
  unfold url_of. intros Hl H. apply rbind_ok in H as (u & _ & H).
  exact (datasetfn_str _ _ _ _ _ Hl H).
Qed.

(** X8: for the granularity ['monthly'] and the module ['era5'], every entry
    of [toDownload] is a tuple (configuration, file name, year, month) whose
    year and month are values of the two ranges, whose file name is the
    rendering of that year and month, and whose file is not on disk; no URL
    is rendered. *)
Theorem era5_monthly_tasks
    (sys_modules : gmap string dataset_module)
    (format_map : string -> gmap string Z -> result string)
    (isdir : string -> bool) (isfile : pyobj -> bool)
    (p : datasetparams) (log log' : list logrec) (self : Dataset) (t : task) :
  Dataset_init sys_modules format_map isdir isfile p log = (Ok self, log') ->
  file_granularity (weatherconfig_of self) = "monthly" ->
  module self = "era5" ->
  In t (toDownload self) ->
  exists yr mo s,
    t = TaskYearMonth (config self) (PyStr s) yr mo /\
    In yr (expand (years self)) /\ In mo (expand (months self)) /\
    filename_of format_map self [yr; mo] = Ok (PyStr s) /\
    isfile (PyStr s) = false.
Proof.
  intros H Hg Hm Hin.
  destruct (Dataset_init_tasks _ _ _ _ _ _ _ _ _ H Hin) as (key & f & Hk & Hf & Hi & Ha).
  assert (Hks : keys_of self = monthly_keys (expand (years self)) (expand (months self)))
    by (unfold keys_of, artifact_keys; now rewrite Hg).
  destruct (datasetfn_str _ _ _ _ _ (keys_of_arity _ _ Hk) Hf) as (s & ->).
  rewrite Hks in Hk. unfold monthly_keys in Hk.
  apply in_map_iff in Hk as ([yr mo] & <- & Hym).
  unfold year_months in Hym. apply in_flat_map in Hym as (y & Hy & Hym).
  apply in_map_iff in Hym as (m & [= <- <-] & Hmo).
  rewrite Hg in Ha. unfold acq_of, acq_month, acq_monthly in Ha.
  cbn [String.eqb Ascii.eqb Bool.eqb orb] in Ha. rewrite Hm in Ha.
  cbn [String.eqb Ascii.eqb Bool.eqb] in Ha. injection Ha as <-.
  exists y, m, s. auto.
Qed.

Lemma era5_monthly_tasks_witness :
  exists self log',
    Sample.construct ["/data/era5"] (firstn 11 Sample.era5_2020)
      (Sample.request "era5" "wind_solar_hourly" (Slice 2020 2020 None)
         (Slice 1 12 None) None)
    = (Ok self, log') /\
    exists t yr mo s,
      In t (toDownload self) /\
      t = TaskYearMonth (config self) (PyStr s) yr mo /\
      In mo (expand (months self)).
Proof.
  destruct (Sample.construct _ _ _) as [[self|e] log'] eqn:H;
    [|vm_compute in H; discriminate].
  exists self, log'. split; [reflexivity|].
  assert (Hlast : exists t, In t (toDownload self)).
  { vm_compute in H. injection H as <- _. eexists. left. reflexivity. }
  destruct Hlast as (t & Hin).
  destruct (era5_monthly_tasks _ _ _ _ _ _ _ _ t H) as (yr & mo & s & Ht & _ & Hmo & _).
  - vm_compute in H. injection H as <- _. reflexivity.
  - vm_compute in H. injection H as <- _. reflexivity.
  - exact Hin.
  - exists t, yr, mo, s. auto.
Defined.

(** X9: for the granularities ['daily'], ['dailymeans'] and ['monthly']
    (module other than ['era5']) every entry of [toDownload] carries one URL,
    and for ['daily_multiple'] and ['monthly_multiple'] two, rendered from
    ['url'], or from ['url'][0] and ['url'][1], at the same key as the file
    name of the entry, so that file name and URLs agree. *)
Theorem url_tasks_share_the_key
    (sys_modules : gmap string dataset_module)
    (format_map : string -> gmap string Z -> result string)
    (isdir : string -> bool) (isfile : pyobj -> bool)
    (p : datasetparams) (log log' : list logrec) (self : Dataset) (t : task) :
  Dataset_init sys_modules format_map isdir isfile p log = (Ok self, log') ->
  In t (toDownload self) ->
  let g := file_granularity (weatherconfig_of self) in
  (g = "daily" \/ g = "dailymeans" \/ (g = "monthly" /\ module self <> "era5") ->
   exists key s u,
     t = TaskUrl (config self) (PyStr s) (PyStr u) /\
     In key (keys_of self) /\
     filename_of format_map self key = Ok (PyStr s) /\
     url_of format_map self key = Ok (PyStr u)) /\
  (g = "daily_multiple" \/ g = "monthly_multiple" ->
   exists key s u0 u1,
     t = TaskUrls (config self) (PyStr s) (PyStr u0) (PyStr u1) /\
     In key (keys_of self) /\
     filename_of format_map self key = Ok (PyStr s) /\
     url_index_of format_map self 0 key = Ok (PyStr u0) /\
     url_index_of format_map self 1 key = Ok (PyStr u1)).
Proof.
  intros H Hin g.
  destruct (Dataset_init_tasks _ _ _ _ _ _ _ _ _ H Hin) as (key & f & Hk & Hf & Hi & Ha).
  pose proof (keys_of_arity _ _ Hk) as Hl.
  destruct (datasetfn_str _ _ _ _ _ Hl Hf) as (s & ->).
  fold g in Ha. split.
  - intros Hg.
    assert (Hu : acq_url format_map self (PyStr s) key = Ok t).
    { destruct Hg as [Hg|[Hg|[Hg Hm]]]; rewrite Hg in Ha;
        unfold acq_of, acq_daily, acq_month in Ha;
        cbn [String.eqb Ascii.eqb Bool.eqb orb] in Ha; try exact Ha.
      assert (Hks : keys_of self
                    = monthly_keys (expand (years self)) (expand (months self)))
        by (unfold keys_of, artifact_keys; fold g; now rewrite Hg).
      rewrite Hks in Hk. apply in_map_iff in Hk as ([yr mo] & <- & _).
      unfold acq_monthly in Ha. apply String.eqb_neq in Hm. now rewrite Hm in Ha. }
    unfold acq_url in Hu. apply rbind_ok in Hu as (u & Hu & [= <-]).
    destruct (url_of_str _ _ _ _ Hl Hu) as (us & ->). exists key, s, us. auto.
  - intros Hg.
    assert (Hu : acq_urls format_map self (PyStr s) key = Ok t).
    { destruct Hg as [Hg|Hg]; rewrite Hg in Ha;
        unfold acq_of, acq_daily, acq_month in Ha;
        cbn [String.eqb Ascii.eqb Bool.eqb orb] in Ha; exact Ha. }
    unfold acq_urls in Hu. apply rbind_ok in Hu as (u0 & Hu0 & Hu).
    apply rbind_ok in Hu as (u1 & Hu1 & [= <-]).
    destruct (url_index_of_str _ _ _ _ _ Hl Hu0) as (s0 & ->).
    destruct (url_index_of_str _ _ _ _ _ Hl Hu1) as (s1 & ->).
    exists key, s, s0, s1. auto.
Qed.

Lemma url_tasks_share_the_key_witness :
  exists self log',
    Sample.construct [] []
      (Sample.request "merra2" "surface_flux_hourly" (Slice 2020 2020 None)
         (Slice 2 2 None) None)
    = (Ok self, log') /\
    exists t key s u,
      In t (toDownload self) /\
      t = TaskUrl (config self) (PyStr s) (PyStr u) /\
      In key (keys_of self).
Proof.
  destruct (Sample.construct _ _ _) as [[self|e] log'] eqn:H;
    [|vm_compute in H; discriminate].
  exists self, log'. split; [reflexivity|].
  assert (Hfirst : exists t, In t (toDownload self)).
  { vm_compute in H. injection H as <- _. eexists. left. reflexivity. }
  destruct Hfirst as (t & Hin).
  destruct (url_tasks_share_the_key _ _ _ _ _ _ _ _ t H Hin) as (Hone & _).
  destruct Hone as (key & s & u & Ht & Hk & _).
  - left. vm_compute in H. injection H as <- _. reflexivity.
  - exists t, key, s, u. auto.
Defined.

Lemma Dataset_init_bounds sys_modules format_map isdir isfile p log self log' :
  Dataset_init sys_modules format_map isdir isfile p log = (Ok self, log') ->
  bounds self = p_bounds p /\ (forall b, p_bounds p = Some b -> is_list4 b = true).
Proof.
  intros H.
  pose proof (Dataset_init_stages _ _ _ _ _ _ _ _ H)
    as (s0 & l0 & s1 & p1 & l1 & H0 & H1 & _).
  pose proof (Dataset_init_req _ _ _ _ _ _ _ _ _ _ _ _ _ H0 H1 H) as Hr.
  apply init_attributes_fresh in H0 as (_ & _ & _ & _ & Hb0).
  apply resolve_bounds_frame in H1 as (_ & _ & _ & _ & _ & _ & _ & Fb & F4).
  split; [|exact F4]. unfold req in Hr. injection Hr as _ _ _ _ _ _ _ ->.
  rewrite Fb. destruct (p_bounds p); congruence.
Qed.

(** X10: the land-cover branch of the constructor is taken for the
    configuration ['modis_land_cover'] only with a [file_granularity] that
    is none of the five with a branch of their own.  Then the constructor
    enumerates one file for each year and ignores the months, and every
    entry of [toDownload] is a tuple (configuration, file name of a year,
    bounds, band) with the bounds list of the caller, which has four
    elements, and the band of the configuration.  With one of the five
    granularities the branch of the granularity is taken instead, and no
    entry of [toDownload] is such a tuple. *)
Theorem land_cover_tasks
    (sys_modules : gmap string dataset_module)
    (format_map : string -> gmap string Z -> result string)
    (isdir : string -> bool) (isfile : pyobj -> bool)
    (p : datasetparams) (log log' : list logrec) (self : Dataset) :
  Dataset_init sys_modules format_map isdir isfile p log = (Ok self, log') ->
  config self = modis_land_cover ->
  (~ In (file_granularity (weatherconfig_of self)) granularities ->
   length (totalFiles self) = length (expand (years self)) /\
   forall t, In t (toDownload self) ->
     exists yr s b bd,
       t = TaskBand (config self) (PyStr s) b bd /\
       In yr (expand (years self)) /\
       filename_of format_map self [yr] = Ok (PyStr s) /\
       isfile (PyStr s) = false /\
       p_bounds p = Some b /\ is_list4 b = true /\
       band (weatherconfig_of self) = Some bd) /\
  (In (file_granularity (weatherconfig_of self)) granularities ->
   forall t, In t (toDownload self) ->
     forall c f b bd, t <> TaskBand c f b bd).
Proof.
  intros H Hc. split.
  - intros Hg.
    assert (Hks : keys_of self = yearly_keys (expand (years self))).
    { unfold keys_of, artifact_keys, is_daily, is_monthly.
      destruct (no_branch _ Hg) as (-> & -> & -> & -> & ->).
      rewrite Hc. reflexivity. }
    split.
    + pose proof (Dataset_init_spec _ _ _ _ _ _ _ _ H) as (names & Hn & -> & _).
      rewrite length_map, (rmap_length _ _ _ Hn), Hks. unfold yearly_keys.
      apply length_map.
    + intros t Hin.
      destruct (Dataset_init_tasks _ _ _ _ _ _ _ _ _ H Hin)
        as (key & f & Hk & Hf & Hi & Ha).
      destruct (datasetfn_str _ _ _ _ _ (keys_of_arity _ _ Hk) Hf) as (s & ->).
      rewrite Hks in Hk. apply in_map_iff in Hk as (yr & <- & Hyr).
      unfold acq_of in Ha. destruct (no_branch _ Hg) as (E1 & E2 & E3 & E4 & E5).
      rewrite E1, E2, E3, E4, E5 in Ha. cbn [orb] in Ha.
      unfold acq_year, acq_band in Ha.
      destruct (Dataset_init_bounds _ _ _ _ _ _ _ _ H) as (Hb & H4).
      destruct (bounds self) as [b|]; [|discriminate].
      apply rbind_ok in Ha as (bd & Hbd & [= <-]).
      destruct (band (weatherconfig_of self)) as [bd'|]; [|discriminate].
      injection Hbd as ->. exists yr, s, b, bd. auto 10.
  - intros Hg t Hin c f0 b bd ->.
    destruct (Dataset_init_tasks _ _ _ _ _ _ _ _ _ H Hin)
      as (key & f & _ & _ & _ & Ha).
    unfold granularities in Hg. cbn [In] in Hg.
    destruct Hg as [Hg|[Hg|[Hg|[Hg|[Hg|[]]]]]]; rewrite <- Hg in Ha;
      cbv [acq_of String.eqb Ascii.eqb Bool.eqb orb] in Ha;
      unfold acq_daily, acq_month, acq_monthly, acq_url, acq_urls in Ha;
      repeat match type of Ha with
             | (if ?c then _ else _) = _ => destruct c
             | match ?k with [] => _ | _ :: _ => _ end = _ => destruct k
             end;
      try (apply rbind_ok in Ha as (u0 & _ & Ha); try discriminate;
           apply rbind_ok in Ha as (u1 & _ & Ha); discriminate);
      discriminate.
Qed.

Lemma land_cover_tasks_witness :
  exists self log',
    SampleModis.construct ["/data/modis"] ["/data/modis/MCD12C1.2019.hdf"]
      {| p_module := Some "modis"; p_weather_data_config := Some "modis_land_cover";
         p_datadir := None; p_years := Some (Slice 2018 2020 None);
         p_months := Some (Slice 1 12 None);
         p_bounds := Some (BoundsList [50; -10; 40; 5]);
         p_xs := None; p_ys := None |}
    = (Ok self, log') /\
    length (totalFiles self) = length (expand (years self)) /\
    length (toDownload self) = 2%nat.
Proof.
  destruct (SampleModis.construct _ _ _) as [[self|e] log'] eqn:H;
    [|vm_compute in H; discriminate].
  exists self, log'. split; [reflexivity|].
  destruct (land_cover_tasks _ _ _ _ _ _ _ _ H) as (Hy & _).
  - vm_compute in H. injection H as <- _. reflexivity.
  - destruct Hy as (Hlen & _).
    + vm_compute in H. injection H as <- _. cbn.
      intros Hin. repeat destruct Hin as [Hin|Hin]; try discriminate; exact Hin.
    + split; [exact Hlen|]. vm_compute in H. injection H as <- _. reflexivity.
Defined.

(** ** The last record of the log *)

(** X11: the record that the constructor logs last is ["Directory complete."]
    when [prepared] is true.  Otherwise it is the count of the files that are
    not completed, and that count is the number of entries of [toDownload]
    only when the storage directory exists: without the directory the count
    logged is 0, whatever is missing. *)
Theorem last_record_of_the_log
    (sys_modules : gmap string dataset_module)
    (format_map : string -> gmap string Z -> result string)
    (isdir : string -> bool) (isfile : pyobj -> bool)
    (p : datasetparams) (log log' : list logrec) (self : Dataset) :
  Dataset_init sys_modules format_map isdir isfile p log = (Ok self, log') ->
  (prepared self = true ->
   last log' = Some (LogInfo "Directory complete." [])) /\
  (prepared self = false -> isdir (datadir self) = true ->
   last log' = Some (LogInfo "{incomplete_count} files not completed."
                       [PyInt (Z.of_nat (length (toDownload self)))])) /\
  (isdir (datadir self) = false ->
   prepared self = false /\
   last log' = Some (LogInfo "{incomplete_count} files not completed." [PyInt 0])).
Proof.
  intros H.
  pose proof (Dataset_init_spec _ _ _ _ _ _ _ _ H) as (names & _ & _ & _ & _ & Hp).
  apply Dataset_init_plan in H as (entries & _ & _ & l & ->).
  rewrite last_snoc. unfold final_record. split; [|split].
  - intros ->. reflexivity.
  - intros -> ->. reflexivity.
  - intros Hd. rewrite Hd in Hp |- *. cbn [andb] in Hp. rewrite Hp. auto.
Qed.

Lemma last_record_of_the_log_witness :
  exists self log',
    Sample.construct [] []
      (Sample.request "era5" "wind_solar_hourly" (Slice 2020 2020 None)
         (Slice 1 12 None) None)
    = (Ok self, log') /\
    length (toDownload self) = 12%nat /\
    last log' = Some (LogInfo "{incomplete_count} files not completed." [PyInt 0]).
Proof.
  destruct (Sample.construct _ _ _) as [[self|e] log'] eqn:H;
    [|vm_compute in H; discriminate].
  exists self, log'. split; [reflexivity|].
  destruct (last_record_of_the_log _ _ _ _ _ _ _ _ H) as (_ & _ & Hno).
  split.
  - vm_compute in H. injection H as <- _. reflexivity.
  - apply Hno. vm_compute in H. injection H as <- _. reflexivity.
Defined.

(** ** The plan and the storage directory *)

Lemma init_attributes_result sys_modules p log1 log2 :
  fst (init_attributes sys_modules p log1) = fst (init_attributes sys_modules p log2).
Proof.
  unfold init_attributes, bind, lift, ret, raise, logger_info.
  repeat match goal with
         | |- context [match ?x with _ => _ end] =>
             match x with
             | context [match _ with _ => _ end] => fail 1
             | _ => destruct x
             end
         end; reflexivity.
Qed.

Lemma resolve_bounds_result self p log1 log2 :
  fst (resolve_bounds self p log1) = fst (resolve_bounds self p log2).
Proof.
  unfold resolve_bounds, bind, ret, raise, logger_warn.
  destruct (p_bounds p) as [[[|x1 [|y1 [|x2 [|y2 [|? ?]]]]]|l]|]; try reflexivity.
  destruct (String.eqb _ _); reflexivity.
Qed.

Lemma scan_months_ok format_map isdir isfile self p log self' log' :
  scan format_map isdir isfile self p log = (Ok self', log') ->
  is_daily (file_granularity (weatherconfig_of self)) = true ->
  is_ok (month_tuples (expand (years self)) (expand (months self))) = true.
Proof.
  intros H Hd. unfold scan in H.
  apply bind_ok in H as ([s1 cc] & l1 & H1 & H).
  apply bind_ok in H as ([s2 n2] & l2 & H2 & _).
  assert (Hs1 : req s1 = req self)
    by (destruct (isdir (datadir self)); injection H1 as <- _ _; reflexivity).
  pose proof (scan_files_months _ _ _ _ _ _ _ _ _ H2) as Hm. cbn [fst] in Hm.
  unfold req in Hs1. injection Hs1 as _ _ _ Hw _ Hy Hmo _.
  rewrite Hw, Hy, Hmo in Hm. auto.
Qed.

(** X12: the three lists do not depend on whether the storage directory
    exists, nor on what was logged before: if the constructor returns for
    one answer of [os.path.isdir], it returns for any other, with the same
    [totalFiles], [downloadedFiles] and [toDownload]. *)
Theorem lists_independent_of_directory
    (sys_modules : gmap string dataset_module)
    (format_map : string -> gmap string Z -> result string)
    (isdir isdir' : string -> bool) (isfile : pyobj -> bool)
    (p : datasetparams) (log log' log2 : list logrec) (self : Dataset) :
  Dataset_init sys_modules format_map isdir isfile p log = (Ok self, log') ->
  exists self2 log2',
    Dataset_init sys_modules format_map isdir' isfile p log2 = (Ok self2, log2') /\
    totalFiles self2 = totalFiles self /\
    downloadedFiles self2 = downloadedFiles self /\
    toDownload self2 = toDownload self.
Proof.
  intros H.
  pose proof (Dataset_init_stages _ _ _ _ _ _ _ _ H)
    as (s0 & l0 & s1 & p1 & l1 & H0 & H1 & Hs).
  pose proof (Dataset_init_req _ _ _ _ _ _ _ _ _ _ _ _ _ H0 H1 H) as Hr.
  pose proof (init_attributes_result sys_modules p log log2) as E0.
  rewrite H0 in E0. cbn [fst] in E0.
  destruct (init_attributes sys_modules p log2) as [r0 l0'] eqn:H0'.
  cbn [fst] in E0. subst r0.
  pose proof (resolve_bounds_result s0 p l0 l0') as E1.
  rewrite H1 in E1. cbn [fst] in E1.
  destruct (resolve_bounds s0 p l0') as [r1 l1'] eqn:H1'. cbn [fst] in E1. subst r1.
  pose proof (Dataset_init_spec _ _ _ _ _ _ _ _ H) as (names & Hn & Ht & Hd & _).
  pose proof (Dataset_init_plan _ _ _ _ _ _ _ _ H) as (entries & He & Htd & _).
  assert (Hw : weatherconfig_of self = weatherconfig_of s1)
    by (unfold req in Hr; congruence).
  destruct (Dataset_init_total sys_modules format_map isdir' isfile
              p log2 s0 l0' s1 p1 l1' H0' H1') as (self2 & log2' & H2).
  - apply (scan_months_ok _ _ _ _ _ _ _ _ Hs).
  - apply forallb_forall. intros key Hin.
    rewrite <- (keys_of_req _ _ Hr) in Hin.
    destruct (rmap_ok_In _ _ _ _ Hn Hin) as (f & Hf & _).
    rewrite <- (filename_of_req _ _ _ _ Hr), Hf. reflexivity.
  - intros key f Hin Hf Hi. rewrite <- (keys_of_req _ _ Hr) in Hin.
    destruct (rmap_ok_In _ _ _ _ He Hin) as ([f' o] & Hpe & _).
    unfold plan_entry in Hpe.
    rewrite (filename_of_req _ _ _ _ Hr), Hf in Hpe. cbn [rbind] in Hpe.
    rewrite Hi, Hw in Hpe. rewrite <- (acq_of_frame _ _ _ _ _ _ Hr).
    destruct (acq_of _ _ self f key); [reflexivity | discriminate].
  - exists self2, log2'. split; [exact H2|].
    pose proof (Dataset_init_req _ _ _ _ _ _ _ _ _ _ _ _ _ H0' H1' H2) as Hr2.
    assert (Hrr : req self2 = req self) by congruence.
    pose proof (Dataset_init_spec _ _ _ _ _ _ _ _ H2) as (names2 & Hn2 & Ht2 & Hd2 & _).
    pose proof (Dataset_init_plan _ _ _ _ _ _ _ _ H2) as (entries2 & He2 & Htd2 & _).
    assert (names2 = names).
    { rewrite (keys_of_req _ _ Hrr) in Hn2.
      rewrite (rmap_ext _ (filename_of format_map self)) in Hn2
        by (intros; now apply filename_of_req).
      congruence. }
    assert (entries2 = entries).
    { assert (Hw2 : weatherconfig_of self2 = weatherconfig_of self)
        by (unfold req in Hrr; congruence).
      rewrite (keys_of_req _ _ Hrr), Hw2 in He2.
      rewrite (rmap_ext _ (plan_entry format_map isfile
                             (acq_of format_map
                                (file_granularity (weatherconfig_of self))) self))
        in He2 by (intros; apply plan_entry_req; [apply acq_of_frame | exact Hrr]).
      congruence. }
    subst. rewrite Ht, Ht2, Hd, Hd2, Htd, Htd2, (req_config _ _ Hrr). auto.
Qed.

Lemma lists_independent_of_directory_witness :
  exists self log' self2 log2',
    Sample.construct [] (firstn 5 Sample.era5_2020)
      (Sample.request "era5" "wind_solar_hourly" (Slice 2020 2020 None)
         (Slice 1 12 None) None)
    = (Ok self, log') /\
    Sample.construct ["/data/era5"] (firstn 5 Sample.era5_2020)
      (Sample.request "era5" "wind_solar_hourly" (Slice 2020 2020 None)
         (Slice 1 12 None) None)
    = (Ok self2, log2') /\
    toDownload self2 = toDownload self.
Proof.
  destruct (Sample.construct [] _ _) as [[self|e] log'] eqn:H;
    [|vm_compute in H; discriminate].
  destruct (lists_independent_of_directory _ _ _ (Sample.isdir ["/data/era5"])
              _ _ _ _ [] _ H) as (self2 & log2' & H2 & _ & _ & Htd).
  exists self, log', self2, log2'. split; [reflexivity|]. split; [exact H2 | exact Htd].
Defined.

(** ** Construction followed by [get_data] *)

Lemma filter_all {A} (f : A -> bool) (l : list A) :
  List.filter f l = l <-> forallb f l = true.
Proof.
  induction l as [|a l IH]; cbn [List.filter forallb]; [tauto|].
  destruct (f a) eqn:Hf; cbn [andb].
  - rewrite <- IH. split; [now intros [= ->] | now intros ->].
  - split; [|discriminate]. intros H.
    assert (Hin : In a (List.filter f l)) by (rewrite H; now left).
    apply filter_In in Hin as [_ Hfa]. congruence.
Qed.

Lemma map_pair_inj {A B} (c : A) (l1 l2 : list B) :
  map (pair c) l1 = map (pair c) l2 -> l1 = l2.
Proof.
  revert l2. induction l1 as [|a l1 IH]; intros [|b l2]; cbn [map];
    try discriminate; [reflexivity|].
  intros [= -> H]. f_equal. auto.
Qed.

(** After construction the test of [get_data] holds exactly when nothing
    is missing. *)
Lemma lists_equal_iff_none_missing sys_modules format_map isdir isfile p log self log' :
  Dataset_init sys_modules format_map isdir isfile p log = (Ok self, log') ->
  downloadedFiles self = totalFiles self <-> toDownload self = [].
Proof.
  intros H. apply Dataset_init_spec in H as (names & _ & -> & -> & Hm & _).
  split.
  - intros He. apply map_pair_inj, filter_all, forallb_filter_negb in He.
    rewrite He in Hm. now destruct (toDownload self).
  - intros Ht. rewrite Ht in Hm. cbn [map] in Hm. f_equal.
    apply filter_all, forallb_filter_negb.
    destruct (List.filter _ names); [reflexivity | discriminate].
Qed.

(** X13: for a module other than ['era5'] and ['merra2'], [get_data] on a
    freshly constructed object needs the entry ['api_func'] of the
    configuration, and raises [KeyError] without it, although it never calls
    the routine: with any routine configured, also one that always raises,
    it returns, leaves the three lists as they are, and sets [prepared] to
    true exactly when nothing is missing, also when the constructor had left
    it false for want of the directory. *)
Theorem get_data_without_download_routine
    (sys_modules : gmap string dataset_module)
    (format_map : string -> gmap string Z -> result string)
    (isdir : string -> bool) (isfile : pyobj -> bool)
    (p : datasetparams) (log log' : list logrec) (self : Dataset) :
  Dataset_init sys_modules format_map isdir isfile p log = (Ok self, log') ->
  module self <> "era5" -> module self <> "merra2" ->
  (api_func (weatherconfig_of self) = None ->
   get_data self = Raise (KeyError "api_func")) /\
  (forall f,
     api_func (weatherconfig_of self) = Some f ->
     exists self',
       get_data self = Ok self' /\
       totalFiles self' = totalFiles self /\
       downloadedFiles self' = downloadedFiles self /\
       toDownload self' = toDownload self /\
       (prepared self' = true <-> toDownload self = [])).
Proof.
  intros H He Hm. split.
  { intros Hn. unfold get_data. rewrite Hn. reflexivity. }
  intros f Hf.
  pose proof (lists_equal_iff_none_missing _ _ _ _ _ _ _ _ H) as Hiff.
  pose proof (Dataset_init_spec _ _ _ _ _ _ _ _ H) as (names & _ & _ & _ & Hmi & Hp).
  unfold get_data. rewrite Hf. cbn [getitem rbind].
  apply String.eqb_neq in He, Hm. rewrite He, Hm. cbn [rbind].
  case_bool_decide as Hd.
  - eexists. split; [reflexivity|]. cbn. repeat split; tauto.
  - eexists. split; [reflexivity|]. repeat split.
    + intros Hpr. rewrite Hpr in Hp. symmetry in Hp.
      apply andb_true_iff in Hp as [_ Hall]. apply forallb_filter_negb in Hall.
      rewrite Hall in Hmi. now destruct (toDownload self).
    + intros Ht. now apply Hiff in Ht.
Qed.

Lemma get_data_without_download_routine_witness :
  exists self log' self',
    SampleModis.construct [] ["/data/modis/MCD12C1.2019.hdf"]
      {| p_module := Some "modis"; p_weather_data_config := Some "modis_land_cover";
         p_datadir := None; p_years := Some (Slice 2019 2019 None);
         p_months := None;
         p_bounds := Some (BoundsList [50; -10; 40; 5]);
         p_xs := None; p_ys := None |}
    = (Ok self, log') /\
    prepared self = false /\
    api_func (weatherconfig_of self) = Some (fun _ => Raise IndexError) /\
    get_data self = Ok self' /\
    (prepared self' = true <-> toDownload self = []).
Proof.
  destruct (SampleModis.construct _ _ _) as [[self|e] log'] eqn:H;
    [|vm_compute in H; discriminate].
  assert (Hf : api_func (weatherconfig_of self) = Some (fun _ => Raise IndexError)).
  { vm_compute in H. injection H as <- _. reflexivity. }
  destruct (get_data_without_download_routine _ _ _ _ _ _ _ _ H) as (_ & Hs).
  - vm_compute in H. injection H as <- _. discriminate.
  - vm_compute in H. injection H as <- _. discriminate.
  - destruct (Hs _ Hf) as (self' & Hg & _ & _ & _ & Hiff).
    exists self, log', self'. split; [reflexivity|].
    split; [|split; [exact Hf | split; [exact Hg | exact Hiff]]].
    vm_compute in H. injection H as <- _. reflexivity.
Defined.

(** X14: an ['era5'] object constructed without [bounds] (which the
    constructor accepts with a warning) cannot be downloaded: with a
    download routine configured, [get_data] raises [AttributeError] for the
    attribute [bounds] before it calls the routine; with none configured it
    raises [KeyError] for ['api_func'] before that. *)
Theorem era5_get_data_needs_bounds
    (sys_modules : gmap string dataset_module)
    (format_map : string -> gmap string Z -> result string)
    (isdir : string -> bool) (isfile : pyobj -> bool)
    (p : datasetparams) (log log' : list logrec) (self : Dataset) :
  Dataset_init sys_modules format_map isdir isfile p log = (Ok self, log') ->
  module self = "era5" ->
  p_bounds p = None ->
  get_data self =
  Raise (match api_func (weatherconfig_of self) with
         | Some _ => AttributeError "bounds"
         | None => KeyError "api_func"
         end).
Proof.
  intros H Hm Hb. destruct (Dataset_init_bounds _ _ _ _ _ _ _ _ H) as (Hbs & _).
  unfold get_data. destruct (api_func (weatherconfig_of self)); [|reflexivity].
  cbn [getitem rbind]. rewrite Hm, Hbs, Hb. reflexivity.
Qed.

Lemma era5_get_data_needs_bounds_witness :
  exists self log',
    Sample.construct [] []
      (Sample.request "era5" "wind_solar_hourly" (Slice 2020 2020 None)
         (Slice 1 12 None) None)
    = (Ok self, log') /\
    api_func (weatherconfig_of self) = Some Sample.download_all /\
    get_data self = Raise (AttributeError "bounds").
Proof.
  destruct (Sample.construct _ _ _) as [[self|e] log'] eqn:H;
    [|vm_compute in H; discriminate].
  assert (Hf : api_func (weatherconfig_of self) = Some Sample.download_all).
  { vm_compute in H. injection H as <- _. reflexivity. }
  exists self, log'. split; [reflexivity|]. split; [exact Hf|].
  rewrite (era5_get_data_needs_bounds _ _ _ _ _ _ _ _ H); [now rewrite Hf| |reflexivity].
  vm_compute in H. injection H as <- _. reflexivity.
Defined.

(** ** Counts *)

Lemma year_months_length (yrs mos : list Z) :
  length (year_months yrs mos) = (length yrs * length mos)%nat.
Proof.
  unfold year_months. induction yrs as [|yr yrs IH]; [reflexivity|].
  cbn [flat_map]. rewrite length_app, length_map, IH. reflexivity.
Qed.

(** X15: every enumerated file is counted once, as present or as missing;
    for the granularities ['monthly'] and ['monthly_multiple'] the number of
    files is the number of years times the number of months iterated. *)
Theorem file_counts
    (sys_modules : gmap string dataset_module)
    (format_map : string -> gmap string Z -> result string)
    (isdir : string -> bool) (isfile : pyobj -> bool)
    (p : datasetparams) (log log' : list logrec) (self : Dataset) :
  Dataset_init sys_modules format_map isdir isfile p log = (Ok self, log') ->
  length (totalFiles self)
    = (length (downloadedFiles self) + length (toDownload self))%nat /\
  (is_monthly (file_granularity (weatherconfig_of self)) = true ->
   length (totalFiles self)
     = (length (expand (years self)) * length (expand (months self)))%nat).
Proof.
  intros H. apply Dataset_init_spec in H as (names & Hn & Ht & Hd & Hm & _). split.
  - rewrite <- (length_map task_artifact (toDownload self)), Ht, Hd, Hm, !length_map.
    clear. induction names as [|f names IH]; [reflexivity|].
    cbn [List.filter length]. destruct (isfile f); cbn [negb length]; lia.
  - intros Hg. rewrite Ht, length_map, (rmap_length _ _ _ Hn).
    unfold keys_of, artifact_keys. rewrite Hg.
    destruct (is_daily _) eqn:Hd'.
    + exfalso. unfold is_daily, is_monthly in *.
      apply orb_true_iff in Hg as [Hg|Hg]; apply String.eqb_eq in Hg;
        rewrite Hg in Hd'; discriminate.
    + unfold monthly_keys. rewrite length_map. apply year_months_length.
Qed.

Lemma file_counts_witness :
  exists self log',
    Sample.construct ["/data/era5"] (firstn 5 Sample.era5_2020)
      (Sample.request "era5" "wind_solar_hourly" (Slice 2019 2020 None)
         (Slice 1 12 None) None)
    = (Ok self, log') /\
    length (totalFiles self) = 24%nat /\
    length (totalFiles self)
      = (length (downloadedFiles self) + length (toDownload self))%nat.
Proof.
  destruct (Sample.construct _ _ _) as [[self|e] log'] eqn:H;
    [|vm_compute in H; discriminate].
  exists self, log'. split; [reflexivity|].
  destruct (file_counts _ _ _ _ _ _ _ _ H) as (Hsum & Hprod). split; [|exact Hsum].
  rewrite Hprod.
  - vm_compute in H. injection H as <- _. reflexivity.
  - vm_compute in H. injection H as <- _. reflexivity.
Defined.

Lemma flat_map_length_sum {A B} (f : A -> list B) (l : list A) :
  length (flat_map f l) = list_sum (map (fun a => length (f a)) l).
Proof.
  induction l as [|a l IH]; [reflexivity|].
  cbn [flat_map map list_sum]. now rewrite length_app, IH.
Qed.

Lemma daily_keys_year (yr : Z) :
  length (flat_map (fun mo => daily_keys [yr] [mo]) (expand (Slice 1 12 None)))
  = if isleap yr then 366%nat else 365%nat.
Proof.
  change (expand (Slice 1 12 None)) with [1; 2; 3; 4; 5; 6; 7; 8; 9; 10; 11; 12].
  rewrite flat_map_length_sum. cbn [map list_sum].
  rewrite !daily_keys_month, !length_map, !length_seq.
  unfold days_in_month. cbn [Z.eqb andb Z.to_nat Pos.to_nat Pos.iter_op nth mdays
                             Pos.eqb Nat.add Init.Nat.add].
  destruct (isleap yr); reflexivity.
Qed.

(** X16: for the daily granularities and the months 1 to 12 (the default)
    the constructor enumerates 366 files for each leap year of the year
    range and 365 for each other year. *)
Theorem daily_files_per_year
    (sys_modules : gmap string dataset_module)
    (format_map : string -> gmap string Z -> result string)
    (isdir : string -> bool) (isfile : pyobj -> bool)
    (p : datasetparams) (log log' : list logrec) (self : Dataset) :
  Dataset_init sys_modules format_map isdir isfile p log = (Ok self, log') ->
  is_daily (file_granularity (weatherconfig_of self)) = true ->
  months self = Slice 1 12 None ->
  length (totalFiles self)
  = list_sum (map (fun yr => if isleap yr then 366%nat else 365%nat)
                (expand (years self))).
Proof.
  intros H Hg Hm. apply Dataset_init_spec in H as (names & Hn & -> & _).
  rewrite length_map, (rmap_length _ _ _ Hn).
  unfold keys_of, artifact_keys. rewrite Hg, Hm, daily_keys_nested.
  rewrite flat_map_length_sum. f_equal. apply map_ext. intros yr.
  apply daily_keys_year.
Qed.

Lemma daily_files_per_year_witness :
  exists self log',
    Sample.construct [] []
      (Sample.request "merra2" "surface_flux_hourly" (Slice 2019 2020 None)
         (Slice 1 12 None) None)
    = (Ok self, log') /\
    length (totalFiles self) = (365 + 366)%nat.
Proof.
  destruct (Sample.construct _ _ _) as [[self|e] log'] eqn:H;
    [|vm_compute in H; discriminate].
  exists self, log'. split; [reflexivity|].
  assert (Hself : is_daily (file_granularity (weatherconfig_of self)) = true /\
                  months self = Slice 1 12 None /\
                  years self = Slice 2019 2020 None).
  { pose proof H as H'. vm_compute in H'. injection H' as Hs _.
    rewrite <- Hs. repeat split. }
  destruct Hself as (Hg & Hm & Hy).
  rewrite (daily_files_per_year _ _ _ _ _ _ _ _ H Hg Hm), Hy. reflexivity.
Defined.

(** * [geodata/datasets/era5.py] *)

(** ** [_area] and [tasks_monthly_era5] *)

(** X17: the slices that the constructor derives from [bounds], handed to
    [_area], give the four ordinates rotated by one place: the last one
    first.  The result is the list of the caller only when the four
    ordinates are equal; it is North, West, South, East when the caller's
    list was West, South, East, North. *)
Theorem area_of_constructor_slices (self : Dataset) (p : datasetparams)
    (b0 b1 b2 b3 : Z) (log : list logrec) :
  let p' := {| p_module := p_module p;
               p_weather_data_config := p_weather_data_config p;
               p_datadir := p_datadir p;
               p_years := p_years p; p_months := p_months p;
               p_bounds := Some (BoundsList [b0; b1; b2; b3]);
               p_xs := p_xs p; p_ys := p_ys p |} in
  exists self1 p1 xs ys,
    resolve_bounds self p' log = (Ok (self1, p1), log) /\
    p_xs p1 = Some xs /\ p_ys p1 = Some ys /\
    Era5._area xs ys = [b3; b0; b1; b2] /\
    (Era5._area xs ys = [b0; b1; b2; b3] <-> b0 = b1 /\ b1 = b2 /\ b2 = b3).
Proof.
  cbn zeta. eexists _, _, _, _. cbn.
  split; [reflexivity|]. split; [reflexivity|]. split; [reflexivity|].
  split; [reflexivity|]. split.
  - intros [= -> -> ->]. auto.
  - intros (-> & -> & ->). reflexivity.
Qed.

Lemma as_slice_raises (c : Era5.coord) (e : exn) :
  Era5.as_slice c = Raise e -> e = IndexError /\ c = Era5.CoordArray [].
Proof.
  destruct c as [s|[|v vs]]; cbn; [discriminate | | discriminate].
  intros [= <-]. auto.
Qed.

(** X18: [tasks_monthly_era5] returns one task for each (year, month) pair,
    in the order of the pairs, each with the given [prepare_func] and with
    the same two slices: a slice argument as it is, an array argument
    replaced by the slice from its first to its last value.  It raises
    [IndexError] exactly when an array argument is empty, also when there is
    no pair at all. *)
Theorem tasks_monthly_era5_spec {F : Type} (xs ys : Era5.coord)
    (yearmonths : list (Z * Z)) (prepare_func : F) :
  let r := Era5.tasks_monthly_era5 xs ys yearmonths prepare_func in
  (forall tasks, r = Ok tasks ->
     map (fun t => (Era5.year t, Era5.month t)) tasks = yearmonths /\
     forall t, In t tasks ->
       Era5.prepare_func t = prepare_func /\
       Era5.as_slice xs = Ok (Era5.xs t) /\ Era5.as_slice ys = Ok (Era5.ys t)) /\
  (forall values v, Era5.as_slice (Era5.CoordArray (v :: values))
                    = Ok (Slice v (List.last values v) None)) /\
  (forall s, Era5.as_slice (Era5.CoordSlice s) = Ok s) /\
  ((exists e, r = Raise e) <->
   xs = Era5.CoordArray [] \/ ys = Era5.CoordArray []) /\
  (forall e, r = Raise e -> e = IndexError).
Proof.
  cbn zeta. unfold Era5.tasks_monthly_era5.
  split; [|split; [|split; [|split]]].
  - intros tasks H. apply rbind_ok in H as (sx & Hx & H).
    apply rbind_ok in H as (sy & Hy & [= <-]). split.
    + rewrite map_map. rewrite <- (map_id yearmonths) at 2.
      apply map_ext. now intros [y m].
    + intros t Hin. apply in_map_iff in Hin as ([y m] & <- & _). cbn. auto.
  - intros values v. cbn. destruct values; reflexivity.
  - reflexivity.
  - split.
    + intros (e & H). destruct (Era5.as_slice xs) as [sx|ex] eqn:Hx.
      * destruct (Era5.as_slice ys) as [sy|ey] eqn:Hy; [discriminate|].
        right. now apply as_slice_raises in Hy.
      * left. now apply as_slice_raises in Hx.
    + intros [-> | ->].
      * eexists. reflexivity.
      * destruct (Era5.as_slice xs); eexists; reflexivity.
  - intros e H. destruct (Era5.as_slice xs) as [sx|ex] eqn:Hx.
    + destruct (Era5.as_slice ys) as [sy|ey] eqn:Hy; [discriminate|].
      injection H as <-. now apply as_slice_raises in Hy.
    + injection H as <-. now apply as_slice_raises in Hx.
Qed.

(** X19: for tasks built from a longitude array and a latitude array that
    are not empty, [_area] of the slices of every task is the first
    latitude, the first longitude, the last latitude and the last longitude:
    North, West, South, East for latitudes stored from north to south. *)
Theorem area_of_array_tasks {F : Type} (lon lat : list Z)
    (yearmonths : list (Z * Z)) (prepare_func : F)
    (tasks : list (Era5.monthly_task F)) (t : Era5.monthly_task F) :
  Era5.tasks_monthly_era5 (Era5.CoordArray lon) (Era5.CoordArray lat)
    yearmonths prepare_func = Ok tasks ->
  In t tasks ->
  exists x0 y0,
    head lon = Some x0 /\ head lat = Some y0 /\
    Era5._area (Era5.xs t) (Era5.ys t)
    = [y0; x0; List.last lat y0; List.last lon x0].
Proof.
  unfold Era5.tasks_monthly_era5. intros H Hin.
  destruct lon as [|x0 lon]; [discriminate|].
  destruct lat as [|y0 lat]; [discriminate|].
  cbn [Era5.as_slice Era5.first_last rbind] in H. injection H as <-.
  apply in_map_iff in Hin as ([y m] & <- & _).
  exists x0, y0. repeat split.
Qed.

Lemma area_of_array_tasks_witness :
  exists tasks t,
    Era5.tasks_monthly_era5 (Era5.CoordArray [-10; -5; 0; 5])
      (Era5.CoordArray [50; 45; 40]) [(2020, 1); (2020, 2)] tt = Ok tasks /\
    In t tasks /\
    Era5._area (Era5.xs t) (Era5.ys t) = [50; -10; 40; 5].
Proof.
  eexists _, _. split; [reflexivity|]. split; [left; reflexivity|].
  destruct (area_of_array_tasks [-10; -5; 0; 5] [50; 45; 40]
              [(2020, 1); (2020, 2)] tt _ _ eq_refl (or_introl eq_refl))
    as (x0 & y0 & [= <-] & [= <-] & Ha).
  exact Ha.
Defined.

(** ** [_get_data] *)

Lemma other_keywords_read (u : Era5.updates) (k : string) :
  In k Era5.read_keys -> Era5.other_keywords u !! k = None.
Proof.
  unfold Era5.read_keys, Era5.other_keywords. cbn [In].
  intros [<-|[<-|[<-|[<-|[]]]]];
    repeat first [apply lookup_delete_eq | rewrite lookup_delete_ne by discriminate].
Qed.

Lemma other_keywords_other (u : Era5.updates) (k : string) :
  ~ In k Era5.read_keys -> Era5.other_keywords u !! k = Era5.u_other u !! k.
Proof.
  unfold Era5.read_keys, Era5.other_keywords. cbn [In]. intros Hk.
  rewrite !lookup_delete_ne by (intros <-; tauto). reflexivity.
Qed.

Lemma put_lookup {A} (key k : string) (inj : A -> Era5.reqval) (o : option A)
    (request : gmap string Era5.reqval) :
  Era5.put key inj o request !! k =
  if String.eqb key k
  then match o with Some a => Some (inj a) | None => request !! k end
  else request !! k.
Proof.
  unfold Era5.put. destruct (String.eqb_spec key k) as [->|Hne].
  - destruct o; [apply lookup_insert_eq | reflexivity].
  - destruct o; [apply lookup_insert_ne; exact Hne | reflexivity].
Qed.

Lemma update_lookups (u : Era5.updates) :
  let request := Era5.update Era5.default_request u in
  request !! "variable" = Era5.RVar <$> Era5.u_variable u /\
  request !! "year" = Era5.RInt <$> Era5.u_year u /\
  request !! "month" = Era5.RInt <$> Era5.u_month u /\
  request !! "area" = Era5.RNums <$> Era5.u_area u /\
  (forall k, ~ In k Era5.read_keys ->
     request !! k = match Era5.u_other u !! k with
                    | Some v => Some v
                    | None => Era5.default_request !! k
                    end).
Proof.
  cbn zeta. unfold Era5.update.
  assert (Hr : forall k, In k Era5.read_keys ->
                 (Era5.other_keywords u ∪ Era5.default_request) !! k = None).
  { intros k Hk. rewrite lookup_union, (other_keywords_read _ _ Hk).
    unfold Era5.read_keys in Hk. cbn [In] in Hk.
    destruct Hk as [<-|[<-|[<-|[<-|[]]]]]; reflexivity. }
  repeat split.
  - rewrite !put_lookup. cbn. rewrite Hr by (cbn; tauto).
    now destruct (Era5.u_variable u).
  - rewrite !put_lookup. cbn. rewrite Hr by (cbn; tauto).
    now destruct (Era5.u_year u).
  - rewrite !put_lookup. cbn. rewrite Hr by (cbn; tauto).
    now destruct (Era5.u_month u).
  - rewrite !put_lookup. cbn. rewrite Hr by (cbn; tauto).
    now destruct (Era5.u_area u).
  - intros k Hk. rewrite !put_lookup.
    unfold Era5.read_keys in Hk. cbn [In] in Hk.
    repeat match goal with
           | |- context [String.eqb ?a k] =>
               destruct (String.eqb_spec a k) as [<-|_]; [tauto|]
           end.
    rewrite lookup_union, other_keywords_other by (cbn; tauto).
    now destruct (Era5.u_other u !! k), (Era5.default_request !! k).
Qed.

Lemma local_file_ok (era5_dir : string) (u : Era5.updates) (file : string) :
  Era5.local_file era5_dir u = Ok file ->
  exists v f y m,
    Era5.u_variable u = Some v /\ Era5.initials v = Ok f /\
    Era5.u_year u = Some y /\ Era5.u_month u = Some m /\
    file = Era5.path_join era5_dir
             (Sample.str_of_Z y +:+ "/" +:+ Era5.pad2 m +:+ "/" +:+ f +:+ ".nc").
Proof.
  unfold Era5.local_file. intros H.
  apply rbind_ok in H as (v & Hv & H). apply rbind_ok in H as (f & Hf & H).
  apply rbind_ok in H as (y & Hy & H). apply rbind_ok in H as (m & Hm & [= <-]).
  destruct (Era5.u_variable u); [|discriminate]. injection Hv as ->.
  destruct (Era5.u_year u); [|discriminate]. injection Hy as ->.
  destruct (Era5.u_month u); [|discriminate]. injection Hm as ->.
  exists v, f, y, m. auto.
Qed.

(** X20: [_get_data] never fails its assertion (a request that reaches it
    has its year, month and variable).  It raises [RuntimeError] exactly when
    the local file is absent and [cdsapi] is missing, so without [cdsapi] it
    serves the files that are local.  A malformed [area] raises (the unpacking
    [ValueError]) only when the file is local: a request that is downloaded
    carries the area unchecked. *)
Theorem get_data_outcomes (era5_dir : string) (isfile : string -> bool)
    (has_cdsapi : bool) (product : string) (u : Era5.updates) :
  let r := Era5._get_data era5_dir isfile has_cdsapi product u in
  r <> inl Era5.AssertionError /\
  (r = inl Era5.RuntimeError <->
   exists file, Era5.local_file era5_dir u = Ok file /\
                isfile file = false /\ has_cdsapi = false) /\
  (forall file, Era5.local_file era5_dir u = Ok file -> isfile file = false ->
                has_cdsapi = true ->
                r = inr (Era5.Download file product
                           (Era5.update Era5.default_request u))) /\
  (forall file, Era5.local_file era5_dir u = Ok file -> isfile file = true ->
     match Era5.u_area u with
     | None => r = inr (Era5.OpenLocal file None)
     | Some [yf; x0; y0; xf] => r = inr (Era5.OpenLocal file (Some (yf, x0, y0, xf)))
     | Some _ => exists msg, r = inl (Era5.Builtin (ValueError msg))
     end).
Proof.
  cbn zeta. unfold Era5._get_data.
  destruct (Era5.local_file era5_dir u) as [file|e] eqn:Hf.
  - destruct (local_file_ok _ _ _ Hf) as (v & f & y & m & Hv & _ & Hy & Hm & _).
    destruct (update_lookups u) as (Lv & Ly & Lm & _).
    rewrite Lv, Ly, Lm, Hv, Hy, Hm. cbn [fmap option_fmap option_map].
    assert (Hd : forall a : Era5.reqval, bool_decide (is_Some (Some a)) = true)
      by (intros a; apply bool_decide_eq_true; eauto).
    rewrite !Hd. cbn [andb].
    destruct (isfile file) eqn:Hi.
    + split; [destruct (Era5.u_area u) as [[|? [|? [|? [|? [|? ?]]]]]|]; discriminate|].
      split.
      * split.
        -- destruct (Era5.u_area u) as [[|? [|? [|? [|? [|? ?]]]]]|]; discriminate.
        -- intros (file' & [= <-] & Hi' & _). congruence.
      * split; [intros file' [= <-]; congruence|].
        intros file' [= <-] _.
        destruct (Era5.u_area u) as [[|? [|? [|? [|? [|? ?]]]]]|];
          try reflexivity; eexists; reflexivity.
    + destruct has_cdsapi; cbn [negb].
      * split; [discriminate|]. split.
        -- split; [discriminate|]. intros (file' & _ & _ & ?). discriminate.
        -- split; [intros file' [= <-] _ _; reflexivity|].
           intros file' [= <-]. congruence.
      * split; [discriminate|]. split.
        -- split; [|reflexivity]. intros _. exists file. auto.
        -- split; [discriminate|]. intros file' [= <-]. congruence.
  - split; [discriminate|]. split.
    + split; [discriminate|]. intros (file & ? & _). discriminate.
    + split; discriminate.
Qed.



(** ** The local file of a request *)

Lemma append_cons (c : ascii) (a b : string) :
  String c a +:+ b = String c (a +:+ b).
Proof. reflexivity. Qed.

Lemma append_nil (b : string) : EmptyString +:+ b = b.
Proof. reflexivity. Qed.

Lemma append_inj_r (a x y : string) : a +:+ x = a +:+ y -> x = y.
Proof.
  induction a as [|c a IH]; rewrite ?append_cons, ?append_nil;
    [auto | intros [= H]; auto].
Qed.

Lemma length_append (x y : string) :
  String.length (x +:+ y) = (String.length x + String.length y)%nat.
Proof.
  induction x as [|c x IH]; simpl; [reflexivity | now rewrite IH].
Qed.

Lemma append_inj_l (x y s : string) : x +:+ s = y +:+ s -> x = y.
Proof.
  intros H.
  assert (Hl : String.length x = String.length y).
  { apply (f_equal String.length) in H. rewrite !length_append in H. lia. }
  revert y H Hl. induction x as [|c x IH]; intros [|d y];
    rewrite ?append_cons, ?append_nil; simpl; try discriminate.
  - reflexivity.
  - intros [= -> H] [= Hl]. f_equal. auto.
Qed.

Lemma append_assoc (a b c : string) : (a +:+ b) +:+ c = a +:+ (b +:+ c).
Proof.
  induction a as [|x a IH]; rewrite ?append_cons, ?append_nil;
    [reflexivity | now rewrite IH].
Qed.

Lemma path_join_cases (a b : string) :
  Era5.path_join a b = if starts_with_slash b then b else join_prefix a +:+ b.
Proof.
  unfold Era5.path_join, starts_with_slash, join_prefix.
  destruct b as [|c b].
  - destruct a as [|x a]; [reflexivity|].
    destruct (String.eqb _ _); [reflexivity|]. now rewrite append_assoc.
  - destruct c as [[] [] [] [] [] [] [] []]; cbn [Ascii.eqb Bool.eqb andb];
      try reflexivity;
      (destruct a as [|x a]; [reflexivity|];
       destruct (String.eqb _ _); [reflexivity | now rewrite append_assoc]).
Qed.

Lemma path_join_inj (a y t1 t2 : string) :
  y <> EmptyString ->
  Era5.path_join a (y +:+ t1) = Era5.path_join a (y +:+ t2) -> t1 = t2.
Proof.
  intros Hy. rewrite !path_join_cases. destruct y as [|c y]; [easy|].
  rewrite !append_cons. cbn [starts_with_slash].
  destruct (Ascii.eqb c "/").
  - intros [= H]. exact (append_inj_r _ _ _ H).
  - intros H. apply append_inj_r in H. injection H as H.
    exact (append_inj_r _ _ _ H).
Qed.

Lemma str_of_Z_first (z : Z) :
  exists c r, Sample.str_of_Z z = String c r /\ Ascii.eqb c "/" = false.
Proof.
  unfold Sample.str_of_Z. destruct (Z.to_int z) as [d|d]; cbn.
  - destruct d; cbn; eexists _, _; split; reflexivity.
  - eexists _, _; split; reflexivity.
Qed.

Lemma prefix_append (a b : string) : String.prefix a (a +:+ b) = true.
Proof.
  induction a as [|c a IH]; rewrite ?append_cons, ?append_nil; simpl;
    [now destruct b|].
  destruct (Ascii.ascii_dec c c); [exact IH | congruence].
Qed.

Lemma prefix_join (a b : string) : String.prefix a (join_prefix a +:+ b) = true.
Proof.
  unfold join_prefix. destruct a as [|c a]; [now destruct b|].
  destruct (String.eqb _ _); [apply prefix_append|].
  rewrite append_assoc. apply prefix_append.
Qed.

(** X22: two requests for the same year and month address the same local
    file exactly when the first characters of their variables agree; the
    area, the product and the other keywords (day, grid, ...) play no part.
    A single variable passed as a [str] and the same variable passed as a
    one-element list agree only when its name has one character. *)
Theorem local_file_shared (era5_dir : string) (y m : Z)
    (v1 v2 : Era5.variable_arg) (a1 a2 : option (list Z))
    (o1 o2 : gmap string Era5.reqval) (f1 f2 : string) :
  let u1 := {| Era5.u_variable := Some v1; Era5.u_year := Some y;
               Era5.u_month := Some m; Era5.u_area := a1;
               Era5.u_other := o1 |} in
  let u2 := {| Era5.u_variable := Some v2; Era5.u_year := Some y;
               Era5.u_month := Some m; Era5.u_area := a2;
               Era5.u_other := o2 |} in
  Era5.initials v1 = Ok f1 ->
  Era5.initials v2 = Ok f2 ->
  (Era5.local_file era5_dir u1 = Era5.local_file era5_dir u2 <-> f1 = f2) /\
  (forall s, Era5.initials (Era5.VarList [s]) = Era5.initials (Era5.VarStr s) <->
             String.length s = 1%nat).
Proof.
  intros u1 u2 H1 H2. split.
  - unfold Era5.local_file. cbn [Era5.u_variable Era5.u_year Era5.u_month u1 u2
                                  getitem rbind].
    rewrite H1, H2. cbn [rbind]. split.
    + intros [= H].
      destruct (str_of_Z_first y) as (c & r & Hy & _).
      apply path_join_inj in H; [|rewrite Hy; discriminate].
      apply append_inj_r, append_inj_r, append_inj_r in H.
      exact (append_inj_l _ _ _ H).
    + now intros ->.
  - intros s. cbn. destruct s as [|c [|c' s]]; cbn.
    + split; [discriminate | lia].
    + tauto.
    + split; [discriminate | lia].
Qed.

Lemma local_file_shared_witness :
  Era5.initials (Era5.VarList ["2m_temperature"; "runoff"]) = Ok "2r" /\
  Era5.initials (Era5.VarList ["2m_dewpoint_temperature"; "runoff"]) = Ok "2r" /\
  Era5.local_file "/data/era5"
    {| Era5.u_variable := Some (Era5.VarList ["2m_temperature"; "runoff"]);
       Era5.u_year := Some 2020; Era5.u_month := Some 3;
       Era5.u_area := Some [50; -10; 40; 5]; Era5.u_other := ∅ |}
  = Era5.local_file "/data/era5"
    {| Era5.u_variable := Some (Era5.VarList ["2m_dewpoint_temperature"; "runoff"]);
       Era5.u_year := Some 2020; Era5.u_month := Some 3;
       Era5.u_area := None; Era5.u_other := {[ "day" := Era5.RInt 1 ]} |}.
Proof.
  split; [reflexivity|]. split; [reflexivity|].
  apply (local_file_shared "/data/era5" 2020 3
           (Era5.VarList ["2m_temperature"; "runoff"])
           (Era5.VarList ["2m_dewpoint_temperature"; "runoff"])
           (Some [50; -10; 40; 5]) None ∅ {[ "day" := Era5.RInt 1 ]} "2r" "2r"
           eq_refl eq_refl).
  reflexivity.
Defined.

(** X23: the local file of a request lies under [era5_dir]: its path starts
    with [era5_dir], whatever the year, the month and the variables are. *)
Theorem local_file_under_era5_dir (era5_dir : string) (u : Era5.updates)
    (file : string) :
  Era5.local_file era5_dir u = Ok file ->
  String.prefix era5_dir file = true.
Proof.
  intros H. destruct (local_file_ok _ _ _ H) as (v & f & y & m & _ & _ & _ & _ & ->).
  rewrite path_join_cases. destruct (str_of_Z_first y) as (c & r & -> & Hc).
  rewrite append_cons. cbn [starts_with_slash]. rewrite Hc. apply prefix_join.
Qed.

Lemma local_file_under_era5_dir_witness :
  exists file,
    Era5.local_file "/data/era5/"
      {| Era5.u_variable := Some (Era5.VarStr "orography");
         Era5.u_year := Some 2020; Era5.u_month := Some 11;
         Era5.u_area := None;
         Era5.u_other := {[ "day" := Era5.RInt 1 ]} |} = Ok file /\
    file = "/data/era5/2020/11/orography.nc" /\
    String.prefix "/data/era5/" file = true.
Proof.
  eexists. split; [reflexivity|]. split; [reflexivity|].
  apply (local_file_under_era5_dir "/data/era5/"
           {| Era5.u_variable := Some (Era5.VarStr "orography");
              Era5.u_year := Some 2020; Era5.u_month := Some 11;
              Era5.u_area := None;
              Era5.u_other := {[ "day" := Era5.RInt 1 ]} |}).
  reflexivity.
Defined.

(** ** Descending ranges *)

Lemma In_range_down (lo hi st z : Z) :
  st < 0 ->
  In z (range lo hi st) <-> hi < z <= lo /\ (lo - z) mod (- st) = 0.
Proof.
  intros Hst. unfold range, range_len.
  destruct (Z.ltb_spec 0 st) as [?|_]; [lia|].
  destruct (Z.ltb_spec st 0) as [_|?]; [|lia].
  rewrite in_map_iff. split.
  - intros (k & <- & Hin). apply in_seq in Hin.
    destruct (Z.ltb_spec hi lo) as [Hlt|Hge]; [|cbn in Hin; lia].
    assert (Hk : Z.of_nat k <= (lo - hi - 1) / (- st)) by lia.
    assert (Hm : (- st) * ((lo - hi - 1) / (- st)) <= lo - hi - 1)
      by (apply Z.mul_div_le; lia).
    split; [nia|].
    replace (lo - (lo + Z.of_nat k * st)) with (Z.of_nat k * (- st)) by lia.
    apply Z_mod_mult.
  - intros [[Hhi Hlo] Hmod].
    apply Z.mod_divide in Hmod as [q Hq]; [|lia].
    assert (Hq0 : 0 <= q) by nia.
    exists (Z.to_nat q). split; [rewrite Z2Nat.id by lia; lia|].
    apply in_seq. destruct (Z.ltb_spec hi lo) as [Hlt|Hge]; [|lia].
    assert (Hle : q <= (lo - hi - 1) / (- st)).
    { apply Z.div_le_lower_bound; [lia | nia]. }
    lia.
Qed.

(** X24: with a negative step the constructor iterates downwards: exactly
    the values [start + k * step] that are at most [start] and above
    [stop + step], each once; [stop] is visited exactly when [stop <= start]
    and the step divides [start - stop]. *)
Theorem expand_negative_step (s : slice) :
  slice_step s < 0 ->
  (forall z, In z (expand s) <->
             stop s + slice_step s < z <= start s /\
             (start s - z) mod (- slice_step s) = 0) /\
  (In (stop s) (expand s) <->
   stop s <= start s /\ (start s - stop s) mod (- slice_step s) = 0) /\
  NoDup (expand s).
Proof.
  intros Hst.
  assert (Hin : forall z, In z (expand s) <->
                          stop s + slice_step s < z <= start s /\
                          (start s - z) mod (- slice_step s) = 0)
    by (intros z; apply In_range_down, Hst).
  split; [exact Hin|]. split.
  - rewrite Hin. intuition lia.
  - apply range_NoDup, slice_step_nonzero.
Qed.

Lemma expand_negative_step_witness :
  slice_step (Slice 2020 2018 (Some (-1))) < 0 /\
  (In 2018 (expand (Slice 2020 2018 (Some (-1)))) <->
   2018 <= 2020 /\ (2020 - 2018) mod (- (-1)) = 0).
Proof.
  split; [reflexivity|].
  exact (proj1 (proj2 (expand_negative_step (Slice 2020 2018 (Some (-1))) eq_refl))).
Defined.
